(** * pyspeedtest: a shallow embedding of [pyspeedtest.py] and its properties

    The measurement engine of [pyspeedtest.py] (class [SpeedTest] and the
    formatter [pretty_speed]) is embedded as Rocq functions.

    - Python floats are modelled by exact rationals ([Q]); every finite float
      is a rational, and rounding of float arithmetic is outside the model,
      as is the range of floats: no operation overflows.
      [math.sqrt] is kept exact as a symbolic root ([root]) whose real value
      is given by [root_val].
    - Exceptions are values of [exn]; a method is a function from the state of
      the program to a [result] and a new state (monad [M]).
    - Everything the program reads from outside (the wall clock, whether a
      host can be connected to, the bodies of HTTP responses, the random
      payload) comes from a [world]. A request on an open connection is
      always answered: failures of the network show at [connect] only.
    - The threads of a transfer write one attribute each and are joined in
      the order of their start, so they are run in that order.
    - [logging.info] calls append structured records to the state's [log].
    - The requests that chooseserver and ping send are kept, in order, in
      the state's [sent]; the request of a worker of download or upload
      shows in what the world answers to it.
    - The builtins [float] and [int] are parameters of the program;
      [bisect.insort_left] and [re] are modelled by their contract. *)

From Stdlib Require Import String Ascii List ZArith QArith Qround Qabs Qpower Qfield Bool Lia.
From Stdlib Require Import DecimalString.
From Stdlib Require Import Permutation Sorted.
From Stdlib Require Import Reals Qreals Psatz.
From Equations Require Import Equations.
Import ListNotations.

Local Open Scope string_scope.
Local Open Scope Z_scope.
Local Open Scope Q_scope.

(** ** Python values and exceptions *)

Inductive exn : Type :=
| ConnectError (url : option string) (* Exception: Error connecting to url *)
| NoServerFound                      (* Exception: Cannot find a test server *)
| ValueError
| IndexError
| AttributeError
| ZeroDivisionError.

Inductive result (A : Type) : Type :=
| Ok (a : A)
| Raise (e : exn).
Arguments Ok {A} a.
Arguments Raise {A} e.

(** [not s] for a value that is [None] or a string. *)
Definition falsy (s : option string) : bool :=
  match s with
  | None => true
  | Some EmptyString => true
  | Some _ => false
  end.

(** [range(n)] *)
Definition range (n : nat) : list nat := seq 0 n.

(** [t[i]] on a tuple or list. *)
Definition item {A : Type} (t : list A) (i : nat) : result A :=
  match nth_error t i with
  | Some x => Ok x
  | None => Raise IndexError
  end.

(** Comparisons of floats. *)
Definition Qltb (x y : Q) : bool :=
  match x ?= y with Lt => true | _ => false end.
Definition Qgeb (x y : Q) : bool := negb (Qltb x y).
Definition Qgtb (x y : Q) : bool := Qltb y x.

(** [sum(l)]: starts from 0 and adds from the left. *)
Definition sum (l : list Q) : Q := fold_left Qplus l 0.

(** [l.remove(x)]: drops the first item equal to [x]; [ValueError] when no
    item is. *)
Fixpoint remove (l : list Q) (x : Q) : result (list Q) :=
  match l with
  | [] => Raise ValueError
  | y :: l' =>
      if Qeq_bool y x then Ok l'
      else match remove l' x with
           | Ok r => Ok (y :: r)
           | Raise e => Raise e
           end
  end.

(** [a / b] on floats. *)
Definition div (a b : Q) : result Q :=
  if Qeq_bool b 0 then Raise ZeroDivisionError else Ok (a / b).

(** [pow(x, 2)] *)
Definition pow (x : Q) (n : Z) : Q := x ^ n.

(** The value of [math.sqrt q], kept exact. *)
Inductive root : Type := Root (radicand : Q).

Definition radicand (r : root) : Q := let 'Root q := r in q.

(** [math.sqrt]: a math domain error ([ValueError]) below zero. *)
Definition sqrt (q : Q) : result root :=
  if Qltb q 0 then Raise ValueError else Ok (Root q).

(** The real number a [root] stands for. *)
Definition root_val (r : root) : R := R_sqrt.sqrt (Q2R (radicand r)).

Definition root_eqb (a b : root) : bool := Qeq_bool (radicand a) (radicand b).
Definition root_ltb (a b : root) : bool := Qltb (radicand a) (radicand b).

(** Comparison of the tuples [(distance, url)]: the first component that
    differs decides. *)
Definition tuple_ltb (a b : root * string) : bool :=
  if root_eqb (fst a) (fst b) then String.ltb (snd a) (snd b)
  else root_ltb (fst a) (fst b).

(** [bisect.insort_left(a, x)] on a sorted list [a]: [x] goes before the
    first item that is not less than [x]. *)
Fixpoint insort_left (a : list (root * string)) (x : root * string)
  : list (root * string) :=
  match a with
  | [] => [x]
  | y :: a' => if tuple_ltb y x then y :: insort_left a' x else x :: a
  end.

(** [s.split(sep)] for a separator of one character. *)
Fixpoint split_on (sep : ascii) (s : string) : list string :=
  match s with
  | EmptyString => [EmptyString]
  | String c s' =>
      if Ascii.eqb c sep then EmptyString :: split_on sep s'
      else match split_on sep s' with
           | [] => [String c EmptyString]
           | f :: fs => String c f :: fs
           end
  end.

(** ** Regular expressions

    The three patterns of the program are sequences of literal text and of
    capturing groups over a negated one-character class: a group of any
    number of characters other than c is [Capture c 0], a group of one or
    more of them is [Capture c 1]. Groups are greedy and backtrack, as in
    the module re of Python. *)

Inductive token : Type :=
| Lit (text : string)
| Capture (excluded : ascii) (min : nat).

Fixpoint strip_prefix (p s : string) : option string :=
  match p, s with
  | EmptyString, _ => Some s
  | String a p', String b s' => if Ascii.eqb a b then strip_prefix p' s' else None
  | String _ _, EmptyString => None
  end.

(** The longest prefix of [s] without [c], and the rest of [s]. *)
Fixpoint span_not (c : ascii) (s : string) : string * string :=
  match s with
  | EmptyString => (EmptyString, EmptyString)
  | String a s' =>
      if Ascii.eqb a c then (EmptyString, s)
      else let (p, r) := span_not c s' in (String a p, r)
  end.

(** Every way to cut [run] in two, the longest first part first. *)
Fixpoint cuts (run : string) : list (string * string) :=
  match run with
  | EmptyString => [(EmptyString, EmptyString)]
  | String a r =>
      (map (fun pq => (String a (fst pq), snd pq)) (cuts r) ++ [(EmptyString, run)])%list
  end.

Fixpoint first_some {A B : Type} (f : A -> option B) (l : list A) : option B :=
  match l with
  | [] => None
  | x :: l' => match f x with Some y => Some y | None => first_some f l' end
  end.

(** A match of the whole pattern at the start of [s]: the groups and what is
    left of [s]. *)
Fixpoint match_here (p : list token) (s : string) : option (list string * string) :=
  match p with
  | [] => Some ([], s)
  | Lit text :: p' =>
      match strip_prefix text s with
      | Some s' => match_here p' s'
      | None => None
      end
  | Capture c n :: p' =>
      let (run, rest) := span_not c s in
      first_some
        (fun cut =>
           if (n <=? String.length (fst cut))%nat then
             match match_here p' (snd cut ++ rest) with
             | Some (groups, tail) => Some (fst cut :: groups, tail)
             | None => None
             end
           else None)
        (cuts run)
  end.

(** [re.search(p, s)]: the groups of the leftmost match, or [None]. *)
Fixpoint re_search (p : list token) (s : string) : option (list string) :=
  match match_here p s with
  | Some (groups, _) => Some groups
  | None =>
      match s with
      | EmptyString => None
      | String _ s' => re_search p s'
      end
  end.

(** [re.findall(p, s)]: the groups of every match, left to right, each
    search starting where the last match ended. [skip] counts the characters
    of the current match still to pass. *)
Fixpoint findall_from (p : list token) (s : string) (skip : nat) : list (list string) :=
  match skip with
  | S k =>
      match s with
      | EmptyString => []
      | String _ s' => findall_from p s' k
      end
  | O =>
      match match_here p s with
      | Some (groups, tail) =>
          groups ::
          match s with
          | EmptyString => []
          | String _ s' => findall_from p s' (String.length s - String.length tail - 1)
          end
      | None =>
          match s with
          | EmptyString => []
          | String _ s' => findall_from p s' 0
          end
      end
  end.

Definition re_findall (p : list token) (s : string) : list (list string) :=
  findall_from p s 0.

Definition dquote : string := String "034" EmptyString.
Definition dq : ascii := "034".

(** The pattern of the client tag: the literal text <client ip= and the
    attributes ip, lat and lon, each value a group of characters other than
    the double quote. *)
Definition client_re : list token :=
  [Lit ("<client ip=" ++ dquote); Capture dq 0;
   Lit (dquote ++ " lat=" ++ dquote); Capture dq 0;
   Lit (dquote ++ " lon=" ++ dquote); Capture dq 0;
   Lit dquote].

(** The pattern of a server tag: attributes url, lat and lon. *)
Definition server_re : list token :=
  [Lit ("<server url=" ++ dquote); Capture dq 0;
   Lit (dquote ++ " lat=" ++ dquote); Capture dq 0;
   Lit (dquote ++ " lon=" ++ dquote); Capture dq 0;
   Lit dquote].

(** The pattern of an upload endpoint: http:// then a group of one or more
    characters other than the slash, then /speedtest/upload.php. *)
Definition upload_re : list token :=
  [Lit "http://"; Capture "/" 1; Lit "/speedtest/upload.php"].

(** ** What a pattern matches *)

(** Whether the character [c] occurs in [s]. *)
Fixpoint has_char (c : ascii) (s : string) : bool :=
  match s with
  | EmptyString => false
  | String a s' => Ascii.eqb a c || has_char c s'
  end.

(** [matches p groups text]: [text] is the literal texts of [p] in their
    order, with [groups] at the places of the capturing groups, each group
    free of the excluded character and of the least length asked for. *)
Inductive matches : list token -> list string -> string -> Prop :=
| matches_end : matches [] [] ""
| matches_lit (text : string) (p : list token) (groups : list string) (s : string) :
    matches p groups s ->
    matches (Lit text :: p) groups (text ++ s)
| matches_capture (c : ascii) (n : nat) (p : list token) (g : string)
    (groups : list string) (s : string) :
    (n <= String.length g)%nat ->
    has_char c g = false ->
    matches p groups s ->
    matches (Capture c n :: p) (g :: groups) (g ++ s).

(** [has_match p s]: somewhere in [s] stands a text of the shape of [p]. *)
Definition has_match (p : list token) (s : string) : Prop :=
  exists pre groups text tail,
    matches p groups text /\ s = (pre ++ text ++ tail)%string.

(** ** Decimal literals

    Instances of the builtins [float] and [int] for plain decimal notation
    (blanks around, a sign, digits, and for [float] a fractional part); the
    program below takes the two builtins as parameters. *)

Definition is_space (c : ascii) : bool :=
  let n := nat_of_ascii c in
  ((n =? 32) || ((9 <=? n) && (n <=? 13)))%nat.

Fixpoint lstrip (l : list ascii) : list ascii :=
  match l with
  | c :: l' => if is_space c then lstrip l' else l
  | [] => []
  end.

Definition strip (s : string) : list ascii :=
  rev (lstrip (rev (lstrip (list_ascii_of_string s)))).

Definition digit (c : ascii) : option Z :=
  let n := Z.of_nat (nat_of_ascii c) in
  if ((48 <=? n) && (n <=? 57))%Z then Some (n - 48)%Z else None.

(** The digits at the head of [l]: their value on top of [acc], their number
    on top of [n], and the rest of [l]. *)
Fixpoint read_digits (l : list ascii) (acc : Z) (n : nat) : Z * nat * list ascii :=
  match l with
  | c :: l' =>
      match digit c with
      | Some d => read_digits l' (10 * acc + d)%Z (S n)
      | None => (acc, n, l)
      end
  | [] => (acc, n, [])
  end.

Definition read_sign (l : list ascii) : Z * list ascii :=
  match l with
  | "-"%char :: l' => ((-1)%Z, l')
  | "+"%char :: l' => (1%Z, l')
  | _ => (1%Z, l)
  end.

Definition decimal_int (s : string) : option Z :=
  let (sign, body) := read_sign (strip s) in
  match read_digits body 0 0 with
  | (v, S _, []) => Some (sign * v)%Z
  | _ => None
  end.

Definition decimal_float (s : string) : option Q :=
  let (sign, body) := read_sign (strip s) in
  match read_digits body 0 0 with
  | (v, S _, []) => Some (inject_Z (sign * v))
  | (v, n, "."%char :: frac) =>
      match read_digits frac 0 0 with
      | (f, m, []) =>
          if (0 <? n + m)%nat
          then Some (inject_Z (sign * (v * 10 ^ Z.of_nat m + f)) / inject_Z (10 ^ Z.of_nat m))
          else None
      | _ => None
      end
  | _ => None
  end.

(** ** The world, the state and the monad of methods *)

(** An [HTTPConnection] object: the host it was opened to, and which of the
    connections of the run it is. *)
Record connection : Type := mkConnection {
  conn_host : string;
  conn_id : nat
}.

(** A request sent on a connection, with its method and its url. *)
Record sent_request : Type := mkRequest {
  request_connection : connection;
  request_method : string;
  request_url : string
}.

(** What the program reads from outside. The cache-busting query values of
    the requests are not part of the keys. *)
Record world : Type := mkWorld {
  (** whether [HTTPConnection(url).connect()] succeeds *)
  reachable : string -> bool;
  (** the value of the n-th call of [time()] *)
  clock : nat -> Q;
  (** body of the answer to [GET /speedtest-config.php] *)
  config_reply : string;
  (** body of the answer to [GET /speedtest-servers.php] *)
  servers_reply : string;
  (** [len(response.read())] for a download target *)
  body_length : connection -> string -> Z;
  (** body of the answer to a [POST] of [data] to the upload endpoint *)
  upload_reply : connection -> string -> string;
  (** the text of [n] random characters of [ALPHABET] *)
  random_text : Z -> string
}.

(** A line of the log: the message of a [logging.info] call with its
    arguments. *)
Inductive record : Type :=
| FailedCoordinates                              (* Failed to retrieve coordinates *)
| YourLocation (location : list string)          (* Your IP, latitude, longitude *)
| Candidate (url : string)                       (* logging.info(server[1]) *)
| Latency (server : string) (total_ms : Q)       (* Latency for server - total_ms *)
| BestServer (host : string)                     (* Best server: host *)
| DownloadRun (run_number : nat) (file : string) (* Run n for file finished *)
| DownloadTook (total_ms : Q) (bytes : Z)        (* Took ms to download bytes *)
| UploadRun (run_number : nat) (bytes : Z)       (* Run n for bytes finished *)
| UploadTook (total_ms : Q) (bytes : Z).         (* Took ms to upload bytes *)

(** The attributes of a [SpeedTest] object. *)
Record SpeedTest : Type := mkSpeedTest {
  _host : option string;
  http_debug : nat;
  runs : nat
}.

Record state : Type := mkState {
  self : SpeedTest;
  (** number of calls of [time()] so far *)
  ticks : nat;
  (** number of connections opened so far *)
  opened : nat;
  log : list record;
  (** the requests chooseserver and ping have sent so far *)
  sent : list sent_request
}.

Definition M (A : Type) : Type := state -> result A * state.

Definition ret {A : Type} (a : A) : M A := fun s => (Ok a, s).

Definition raise {A : Type} (e : exn) : M A := fun s => (Raise e, s).

Definition bind {A B : Type} (m : M A) (k : A -> M B) : M B :=
  fun s =>
    match m s with
    | (Ok a, s') => k a s'
    | (Raise e, s') => (Raise e, s')
    end.

Declare Scope py_scope.
Delimit Scope py_scope with py.
Notation "x <- m ;; k" := (bind m (fun x => k))
  (at level 100, m at next level, right associativity) : py_scope.
Notation "m ;; k" := (bind m (fun _ => k))
  (at level 100, right associativity) : py_scope.
Local Open Scope py_scope.

Definition lift {A : Type} (r : result A) : M A := fun s => (r, s).

(** [for x in l: acc = body(acc, x)]: a loop with its local variables in
    [acc]. *)
Fixpoint for_each {A B : Type} (l : list A) (body : B -> A -> M B) (acc : B) : M B :=
  match l with
  | [] => ret acc
  | x :: l' => acc' <- body acc x ;; for_each l' body acc'
  end.

Definition logging_info (r : record) : M unit :=
  fun s => (Ok tt, mkState (self s) (ticks s) (opened s) (log s ++ [r])%list (sent s)).

Definition get_host : M (option string) := fun s => (Ok (_host (self s)), s).

Definition set_host (h : option string) : M unit :=
  fun s => (Ok tt, mkState (mkSpeedTest h (http_debug (self s)) (runs (self s)))
                           (ticks s) (opened s) (log s) (sent s)).

Definition get_runs : M nat := fun s => (Ok (runs (self s)), s).

(** Sequencing of pure steps that may raise. *)
Definition and_then {A B : Type} (r : result A) (k : A -> result B) : result B :=
  match r with
  | Ok a => k a
  | Raise e => Raise e
  end.

(** A [Thread] object after [join()]: the attribute its target has set is
    there when the target returned, and missing when it raised. *)
Record thread : Type := mkThread {
  run_number : nat;
  slot : option Z
}.

Definition start (target : result Z) (number : nat) : thread :=
  mkThread number (match target with Ok v => Some v | Raise _ => None end).

(** Reading the attribute [thread.downloaded] or [thread.uploaded]. *)
Definition attribute (t : thread) : M Z :=
  match slot t with
  | Some v => ret v
  | None => raise AttributeError
  end.

Definition DOWNLOAD_FILES : list string :=
  ["/speedtest/random350x350.jpg";
   "/speedtest/random500x500.jpg";
   "/speedtest/random1500x1500.jpg"].

Definition UPLOAD_FILES : list Z := [132884%Z; 493638%Z].

(** [urlencode({'content0': text})] for a text of letters and digits. *)
Definition urlencode_content0 (text : string) : string := "content0=" ++ text.

(** [int(x)] of a float: its integer part, towards zero. *)
Definition int_of_float (x : Q) : Z := Z.quot (Qnum x) (Z.pos (Qden x)).

(** The conversion [%d] of an integer. *)
Definition format_int (n : Z) : string := NilZero.string_of_int (Z.to_int n).

(** ** The class SpeedTest *)

Section Program.

(** The builtins [float] and [int] on strings: [None] is [ValueError]. *)
Variable float : string -> option Q.
Variable int : string -> option Z.
Variable W : world.

Definition to_float (s : string) : result Q :=
  match float s with
  | Some q => Ok q
  | None => Raise ValueError
  end.

Definition to_int (s : string) : result Z :=
  match int s with
  | Some z => Ok z
  | None => Raise ValueError
  end.

(** [time()] *)
Definition time : M Q :=
  fun s => (Ok (clock W (ticks s)),
            mkState (self s) (S (ticks s)) (opened s) (log s) (sent s)).

(** [connect(self, url)]: any failure is raised again as one exception that
    carries the url. *)
Definition connect (url : option string) : M connection :=
  match url with
  | Some u =>
      if reachable W u then
        fun s => (Ok (mkConnection u (opened s)),
                  mkState (self s) (ticks s) (S (opened s)) (log s) (sent s))
      else raise (ConnectError url)
  | None => raise (ConnectError None)
  end.

(** [connection.close()] *)
Definition close (c : connection) : M unit := ret tt.

(** [connection.request(method, url, ...)] followed by
    [connection.getresponse()]: the request is sent; the body of the answer
    comes from the world. *)
Definition request (c : connection) (method url : string) : M unit :=
  fun s => (Ok tt, mkState (self s) (ticks s) (opened s) (log s)
                           (sent s ++ [mkRequest c method url])%list).

(** [ping(self, server=None)]. [self_host] is the property [self.host],
    read only when [server] is falsy. The five samples are the differences
    of two readings of the clock; the query value of the request is
    [random.random()] printed with [%d], which is 0. *)
Definition ping_with (self_host : M (option string)) (server : option string) : M Q :=
  server <- (if falsy server then self_host else ret server) ;;
  connection <- connect server ;;
  tw <- for_each (range 5)
          (fun (tw : list Q * Q) _ =>
             let (times, worst) := tw in
             total_start_time <- time ;;
             request connection "GET" "/speedtest/latency.txt?x=0" ;;
             now <- time ;;
             let total_ms := now - total_start_time in
             let times := (times ++ [total_ms])%list in
             let worst := if Qgtb total_ms worst then total_ms else worst in
             ret (times, worst))
          ([], 0) ;;
  let (times, worst) := tw in
  times <- lift (remove times worst) ;;
  let total_ms := sum times * 250 in
  close connection ;;
  logging_info (Latency (conn_host connection) total_ms) ;;
  ret total_ms.

(** [calc_distance(location, server)]: both arguments are tuples of three
    strings, with latitude and longitude at indices 1 and 2. *)
Definition calc_distance (location server : list string) : result root :=
  and_then (and_then (item location 1) to_float) (fun my_lat =>
  and_then (and_then (item location 2) to_float) (fun my_lon =>
  and_then (and_then (item server 1) to_float) (fun s_lat =>
  and_then (and_then (item server 2) to_float) (fun s_lon =>
  sqrt (pow (s_lat - my_lat) 2 + pow (s_lon - my_lon) 2))))).

(** [chooseserver(self)]. The hostname it pings is a group of at least one
    character, so that ping never reads [self.host]. *)
Definition chooseserver : M (option string) :=
  connection <- connect (Some "www.speedtest.net") ;;
  now <- time ;;
  let now := int_of_float (now * 1000) in
  request connection "GET" ("/speedtest-config.php?x=" ++ format_int now) ;;
  let reply := config_reply W in
  match re_search client_re reply with
  | None =>
      logging_info FailedCoordinates ;;
      ret None
  | Some location =>
      logging_info (YourLocation location) ;;
      request connection "GET" ("/speedtest-servers.php?x=" ++ format_int now) ;;
      let reply := servers_reply W in
      let server_list := re_findall server_re reply in
      sorted_server_list <-
        for_each server_list
          (fun sorted_server_list server =>
             distance <- lift (calc_distance location server) ;;
             url <- lift (item server 0) ;;
             ret (insort_left sorted_server_list (distance, url)))
          [] ;;
      best_server <-
        for_each (firstn 10 sorted_server_list)
          (fun (best_server : Q * string) (server : root * string) =>
             logging_info (Candidate (snd server)) ;;
             match re_search upload_re (snd server) with
             | None => ret best_server
             | Some groups =>
                 server_host <- lift (item groups 0) ;;
                 latency <- ping_with (ret None) (Some server_host) ;;
                 ret (if Qltb latency (fst best_server)
                      then (latency, server_host)
                      else best_server)
             end)
          (999999, "") ;;
      if falsy (Some (snd best_server)) then raise NoServerFound
      else
        logging_info (BestServer (snd best_server)) ;;
        ret (Some (snd best_server))
  end.

(** The property [host]: the server is chosen on the first read when none
    is set. *)
Definition host : M (option string) :=
  h <- get_host ;;
  (if falsy h then h' <- chooseserver ;; set_host h' else ret tt) ;;
  get_host.

(** [ping(self, server=None)] *)
Definition ping (server : option string) : M Q := ping_with host server.

(** [downloadthread(connection, url)]: the value it stores in
    [downloaded]. *)
Definition downloadthread (c : connection) (current_file : string) : result Z :=
  Ok (body_length W c current_file).

(** The [runs] connections opened before a batch. *)
Definition open_connections : M (list connection) :=
  n <- get_runs ;;
  for_each (range n)
    (fun connections _ =>
       h <- host ;;
       c <- connect h ;;
       ret (connections ++ [c])%list)
    [].

(** [download(self)] *)
Definition download : M Q :=
  connections <- open_connections ;;
  n <- get_runs ;;
  total_start_time <- time ;;
  total_downloaded <-
    for_each DOWNLOAD_FILES
      (fun total_downloaded current_file =>
         threads <-
           for_each (range n)
             (fun threads run =>
                c <- lift (item connections run) ;;
                stamp <- time ;;
                ret (threads ++ [start (downloadthread c current_file) (run + 1)])%list)
             [] ;;
         for_each threads
           (fun total_downloaded t =>
              downloaded <- attribute t ;;
              logging_info (DownloadRun (run_number t) current_file) ;;
              ret (total_downloaded + downloaded)%Z)
           total_downloaded)
      0%Z ;;
  now <- time ;;
  let total_ms := (now - total_start_time) * 1000 in
  for_each connections (fun _ c => close c) tt ;;
  logging_info (DownloadTook total_ms total_downloaded) ;;
  lift (div (inject_Z (total_downloaded * 8000)) total_ms).

(** [uploadthread(connection, data)]: the value it stores in [uploaded], the
    second field of the reply split on the equals sign. *)
Definition uploadthread (c : connection) (data : string) : result Z :=
  let reply := upload_reply W c data in
  and_then (item (split_on "=" reply) 1) to_int.

(** [upload(self)] *)
Definition upload : M Q :=
  connections <- open_connections ;;
  n <- get_runs ;;
  let post_data :=
    map (fun current_file_size => urlencode_content0 (random_text W current_file_size))
        UPLOAD_FILES in
  total_start_time <- time ;;
  total_uploaded <-
    for_each post_data
      (fun total_uploaded data =>
         threads <-
           for_each (range n)
             (fun threads run =>
                c <- lift (item connections run) ;;
                ret (threads ++ [start (uploadthread c data) (run + 1)])%list)
             [] ;;
         for_each threads
           (fun total_uploaded t =>
              uploaded <- attribute t ;;
              logging_info (UploadRun (run_number t) uploaded) ;;
              ret (total_uploaded + uploaded)%Z)
           total_uploaded)
      0%Z ;;
  now <- time ;;
  let total_ms := (now - total_start_time) * 1000 in
  for_each connections (fun _ c => close c) tt ;;
  logging_info (UploadTook total_ms total_uploaded) ;;
  lift (div (inject_Z (total_uploaded * 8000)) total_ms).

End Program.

(** ** The formatter pretty_speed *)

Definition inspect {A : Type} (a : A) : {b : A | a = b} := exist _ a eq_refl.

(** [while speed >= 1024: speed /= 1024; unit += 1], returning both
    variables at the exit of the loop. *)
Equations? while_loop (speed : Q) (unit : nat) : Q * nat
  by wf (Z.to_nat (Z.log2 (Qfloor speed))) lt :=
  while_loop speed unit with inspect (Qgeb speed 1024) => {
    | exist _ true e := while_loop (speed / 1024) (S unit);
    | exist _ false _ := (speed, unit) }.
Proof.
  (* the measure goes down on each turn of the loop *)
  change (Z.to_nat (Z.log2 (Qfloor (speed / 1024)))
          < Z.to_nat (Z.log2 (Qfloor speed)))%nat.
  assert (H : 1024 <= speed).
  { revert e. unfold Qgeb, Qltb. destruct (speed ?= 1024) eqn:E; try discriminate; intros _.
    - apply Qeq_alt in E. rewrite E. apply Qle_refl.
    - apply Qgt_alt in E. apply Qlt_le_weak. exact E. }
  assert (H0 : 1 <= speed / 1024).
  { apply Qle_shift_div_l; [reflexivity|]. exact H. }
  assert (H1 : (1 <= Qfloor (speed / 1024))%Z).
  { change 1%Z with (Qfloor 1). apply Qfloor_resp_le. exact H0. }
  assert (H2 : (2 * Qfloor (speed / 1024) <= Qfloor speed)%Z).
  { rewrite <- (Qfloor_Z (2 * Qfloor (speed / 1024))). apply Qfloor_resp_le.
    rewrite inject_Z_mult.
    apply Qle_trans with (inject_Z 2 * (speed / 1024)).
    - apply Qmult_le_l; [reflexivity|]. apply Qfloor_le.
    - apply Qle_trans with (1024 * (speed / 1024)).
      + apply Qmult_le_compat_r; [discriminate|].
        eapply Qle_trans; [|exact H0]. discriminate.
      + rewrite Qmult_div_r; [apply Qle_refl | discriminate]. }
  assert (H3 : (Z.log2 (2 * Qfloor (speed / 1024)) <= Z.log2 (Qfloor speed))%Z)
    by (apply Z.log2_le_mono; exact H2).
  rewrite Z.log2_double in H3 by lia.
  pose proof (Z.log2_nonneg (Qfloor (speed / 1024))). lia.
Qed.

(** Rounding to the nearest integer, ties to the even one. *)
Definition round_half_even (q : Q) : Z :=
  let f := Qfloor q in
  match ((q - inject_Z f) ?= (1 # 2))%Q with
  | Lt => f
  | Gt => (f + 1)%Z
  | Eq => if Z.even f then f else (f + 1)%Z
  end.

Definition decimal (n : Z) : string := NilZero.string_of_uint (N.to_uint (Z.to_N n)).

(** The character of a decimal digit. *)
Definition digit_char (d : Z) : ascii := ascii_of_nat (48 + Z.to_nat d).

(** The conversion [%0.2f]: the value rounded to two decimals. *)
Definition format_2f (q : Q) : string :=
  let cents := Z.abs (round_half_even (q * 100)) in
  let frac := (cents mod 100)%Z in
  (if Qltb q 0 then "-" else "") ++
  decimal (cents / 100) ++ "." ++
  (if (frac <? 10)%Z then "0" else "") ++ decimal frac.

Definition units : list string := ["bps"; "Kbps"; "Mbps"; "Gbps"; "Tbps"].

(** [pretty_speed(speed)] *)
Definition pretty_speed (speed : Q) : result string :=
  let (speed, unit) := while_loop speed 0 in
  and_then (item units unit) (fun name =>
  Ok (format_2f speed ++ " " ++ name)).

(** ** Vocabulary of the properties *)

(** *** Readings of the clock and of the log *)

(** The [n] samples of a ping whose first reading of the clock is the
    [t]-th: each is the difference of two successive readings. *)
Fixpoint samples_from (W : world) (t n : nat) : list Q :=
  match n with
  | O => []
  | S n' => (clock W (S t) - clock W t) :: samples_from W (S (S t)) n'
  end.

Definition samples (W : world) (t : nat) : list Q := samples_from W t 5.

(** The variable [worst] of ping after the samples [l], from its start
    value 0. *)
Definition worst_of (l : list Q) : Q :=
  fold_left (fun worst total_ms => if Qgtb total_ms worst then total_ms else worst) l 0.

(** The probes a log tells of: host and latency of each ping that came to
    its end. *)
Definition latencies (l : list record) : list (string * Q) :=
  flat_map (fun r => match r with Latency h ms => [(h, ms)] | _ => [] end) l.

(** The request chooseserver sends for the coordinates: on the connection
    it opens as the [n]-th of the run, with the time of the [t]-th reading
    of the clock, in milliseconds. *)
Definition config_request (W : world) (n t : nat) : sent_request :=
  mkRequest (mkConnection "www.speedtest.net" n) "GET"
            ("/speedtest-config.php?x=" ++ format_int (int_of_float (clock W t * 1000))).

(** The request it sends for the list of servers, with the same time. *)
Definition servers_request (W : world) (n t : nat) : sent_request :=
  mkRequest (mkConnection "www.speedtest.net" n) "GET"
            ("/speedtest-servers.php?x=" ++ format_int (int_of_float (clock W t * 1000))).

(** The five requests of a ping of [server], on the connection it opens
    as the [n]-th of the run. *)
Definition latency_requests (server : string) (n : nat) : list sent_request :=
  repeat (mkRequest (mkConnection server n) "GET" "/speedtest/latency.txt?x=0") 5.

(** A clock that never runs backwards. *)
Definition clock_monotone (W : world) : Prop :=
  forall n : nat, clock W n <= clock W (S n).

(** *** The steps of chooseserver, one by one *)

(** The hostname chooseserver reads in the url of an upload endpoint. *)
Definition upload_host (url : string) : option string :=
  match re_search upload_re url with
  | Some (server_host :: _) => Some server_host
  | _ => None
  end.

(** The hostnames of the urls that have the shape of an upload endpoint. *)
Definition upload_hosts (urls : list string) : list string :=
  flat_map (fun url => match upload_host url with Some h => [h] | None => [] end) urls.

(** The first loop of chooseserver: every server of the list is put at its
    place in the sorted list, under its distance and url. *)
Fixpoint rank (float : string -> option Q) (location : list string)
    (server_list : list (list string)) (sorted_server_list : list (root * string))
  : result (list (root * string)) :=
  match server_list with
  | [] => Ok sorted_server_list
  | server :: rest =>
      and_then (calc_distance float location server) (fun distance =>
      and_then (item server 0) (fun url =>
      rank float location rest (insort_left sorted_server_list (distance, url))))
  end.

(** The variable [best_server] of chooseserver after the probes [probes],
    each a hostname with the latency measured. *)
Definition select (probes : list (string * Q)) (best_server : Q * string) : Q * string :=
  fold_left
    (fun best (p : string * Q) => if Qltb (snd p) (fst best) then (snd p, fst p) else best)
    probes best_server.

(** The second loop of chooseserver, on its own: the candidates are
    probed in turn and [best_server] follows. *)
Definition probe_loop (W : world) (candidates : list (root * string))
    (best_server : Q * string) : M (Q * string) :=
  for_each candidates
    (fun (best_server : Q * string) (server : root * string) =>
       logging_info (Candidate (snd server)) ;;
       match re_search upload_re (snd server) with
       | None => ret best_server
       | Some groups =>
           server_host <- lift (item groups 0) ;;
           latency <- ping_with W (ret None) (Some server_host) ;;
           ret (if Qltb latency (fst best_server)
                then (latency, server_host)
                else best_server)
       end)
    best_server.

(** The order of the sorted list: [b] is not less than [a]. *)
Definition tuple_le (a b : root * string) : Prop := tuple_ltb b a = false.

(** A server of the list with its key in the sorted list. *)
Definition scored (float : string -> option Q) (location server : list string)
    (key : root * string) : Prop :=
  calc_distance float location server = Ok (fst key) /\ item server 0 = Ok (snd key).

(** *** Totals of a batch *)

Fixpoint zsum (l : list Z) : Z :=
  match l with
  | [] => 0%Z
  | x :: l' => (x + zsum l')%Z
  end.

(** The bytes of a batch: for each item in turn, the bytes counted on each
    of the connections. *)
Definition batch_total {A : Type} (count : connection -> A -> Z)
    (items : list A) (connections : list connection) : Z :=
  zsum (map (fun i => zsum (map (fun c => count c i) connections)) items).

(** The [n] connections a batch opens to [h] when [first] connections were
    opened before. *)
Definition batch_connections (h : string) (first n : nat) : list connection :=
  map (fun run => mkConnection h (first + run)) (range n).

(** The threads of one item after their [join()], numbered from
    [number + 1]. *)
Fixpoint threads_of (target : connection -> result Z) (number : nat)
    (connections : list connection) : list thread :=
  match connections with
  | [] => []
  | c :: rest => start (target c) (number + 1) :: threads_of target (S number) rest
  end.

(** The lines of log of the threads that have set their attribute. *)
Definition lines_of (line : thread -> Z -> record) (threads : list thread) : list record :=
  flat_map (fun t => match slot t with Some v => [line t v] | None => [] end) threads.

(** The bodies of the upload: one for each size of [UPLOAD_FILES]. *)
Definition post_data_of (W : world) : list string :=
  map (fun current_file_size => urlencode_content0 (random_text W current_file_size))
      UPLOAD_FILES.

(** ** Test doubles *)

(** A clock that gives the readings of a list, then 0. *)
Definition clock_of (readings : list Q) : nat -> Q := fun n => nth n readings 0.

(** A clock that starts at 0 and moves on by the steps of a list, one step
    between two readings, then stands still. *)
Definition clock_steps (steps : list Q) : nat -> Q := fun n => sum (firstn n steps).

(** The state of a new [SpeedTest(host, 0, runs)]. *)
Definition start_state (h : option string) (n : nat) : state :=
  mkState (mkSpeedTest h 0 n) 0 0 [] [].

(** A tag with the three attributes of the directory service. *)
Definition tag (name url lat lon : string) : string :=
  "<" ++ name ++ "=" ++ dquote ++ url ++ dquote ++
  " lat=" ++ dquote ++ lat ++ dquote ++
  " lon=" ++ dquote ++ lon ++ dquote ++ " />".

(** The answer of the directory service for a client at latitude 10.5,
    longitude 20. *)
Definition client_reply : string := tag "client ip" "1.2.3.4" "10.5" "20".

(** A text of [n] times the character [c]. *)
Fixpoint repeat_char (c : ascii) (n : nat) : string :=
  match n with
  | O => EmptyString
  | S n' => String c (repeat_char c n')
  end.

(** A world where the largest sample of a ping comes twice: the samples are
    3, 7, 2, 7 and 1. *)
Definition tie_world : world :=
  mkWorld (fun _ => true)
          (clock_of [0; 3; 3; 10; 10; 12; 12; 19; 19; 20])
          "" "" (fun _ _ => 0%Z) (fun _ _ => "") (fun _ => "").

(** A world with one candidate, whose round trips take 2000 seconds each:
    its latency is 2000000. *)
Definition slow_world : world :=
  mkWorld (fun _ => true)
          (fun n => inject_Z (2000 * Z.of_nat n))
          client_reply
          (tag "server url" "http://slow.example/speedtest/upload.php" "10.5" "21")
          (fun _ _ => 0%Z) (fun _ _ => "") (fun _ => "").

(** A world with eleven candidates: ten at the place of the client whose
    url has not the shape of an upload endpoint, and a good one farther
    away. The clock moves on by one second between two readings. *)
Definition crowded_world : world :=
  mkWorld (fun _ => true)
          (fun n => inject_Z (Z.of_nat n))
          client_reply
          (tag "server url" "http://far.example/speedtest/upload.php" "11" "20" ++
           String.concat ""
             (map (fun name => tag "server url" ("ftp://" ++ name) "10.5" "20")
                  ["a"; "b"; "c"; "d"; "e"; "f"; "g"; "h"; "i"; "j"]))
          (fun _ _ => 0%Z) (fun _ _ => "") (fun _ => "").

(** A world with four candidates, one of them with a url of another
    shape. The probes of the three others, nearest first, measure latencies
    of 2000, 1000 and 1000. *)
Definition three_world : world :=
  mkWorld (fun _ => true)
          (clock_steps
             ([0] ++ [2; 0; 2; 0; 9; 0; 2; 0; 2; 0]
                  ++ [1; 0; 1; 0; 1; 0; 1; 0; 1; 0]
                  ++ [1; 0; 1; 0; 5; 0; 1; 0; 1; 0]))
          client_reply
          (tag "server url" "http://c.example/speedtest/upload.php" "10.5" "23" ++
           tag "server url" "http://a.example/speedtest/upload.php" "10.5" "21" ++
           tag "server url" "https://x.example/speedtest/upload.php" "10.5" "20" ++
           tag "server url" "http://b.example/speedtest/upload.php" "10.5" "22")
          (fun _ _ => 0%Z) (fun _ _ => "") (fun _ => "").

(** A world for the transfers: the clock moves on by one second between two
    readings, the three targets have a size of their own, the same on every
    connection, and the upload endpoint answers every body, of the length
    asked for, with a count of 100. *)
Definition transfer_world : world :=
  mkWorld (fun _ => true)
          (fun n => inject_Z (Z.of_nat n))
          "" ""
          (fun _ file =>
             if String.eqb file "/speedtest/random350x350.jpg" then 245388%Z
             else if String.eqb file "/speedtest/random500x500.jpg" then 505544%Z
             else 4468241%Z)
          (fun _ _ => "size=100")
          (fun n => repeat_char "x" (Z.to_nat n)).

(** A world where no host can be connected to. *)
Definition offline_world : world :=
  mkWorld (fun _ => false) (fun n => inject_Z (Z.of_nat n))
          "" "" (fun _ _ => 0%Z) (fun _ _ => "") (fun _ => "").

(** The number of capturing groups of a pattern. *)
Fixpoint captures (p : list token) : nat :=
  match p with
  | [] => 0
  | Lit _ :: p' => captures p'
  | Capture _ _ :: p' => S (captures p')
  end.

(** A world whose directory lists a good candidate and, farther away, a
    server whose latitude is no number. *)
Definition garbled_world : world :=
  mkWorld (fun _ => true) (fun n => inject_Z (Z.of_nat n))
          client_reply
          (tag "server url" "http://a.example/speedtest/upload.php" "10.5" "21" ++
           tag "server url" "http://z.example/speedtest/upload.php" "north" "80")
          (fun _ _ => 0%Z) (fun _ _ => "") (fun _ => "").

(** A world with three candidates where the second nearest cannot be
    connected to. *)
Definition broken_world : world :=
  mkWorld (fun h => negb (String.eqb h "b.example")) (fun n => inject_Z (Z.of_nat n))
          client_reply
          (tag "server url" "http://c.example/speedtest/upload.php" "10.5" "23" ++
           tag "server url" "http://a.example/speedtest/upload.php" "10.5" "21" ++
           tag "server url" "http://b.example/speedtest/upload.php" "10.5" "22")
          (fun _ _ => 0%Z) (fun _ _ => "") (fun _ => "").

(** A world whose clock stands still. *)
Definition still_world : world :=
  mkWorld (fun _ => true) (fun _ => 0)
          "" "" (fun _ _ => 1000%Z) (fun _ _ => "size=100") (fun _ => "x").

(** A world where the server answers the second body of an upload on the
    second connection without a count. *)
Definition mute_world : world :=
  mkWorld (fun _ => true) (fun n => inject_Z (Z.of_nat n))
          "" "" (fun _ _ => 0%Z)
          (fun c data =>
             if (conn_id c =? 1)%nat && String.eqb data "content0=yy"
             then "ok" else "size=100")
          (fun n => if (n =? 132884)%Z then "x" else "yy").

(** ** The command line *)

Definition __supported_formats__ : list string := ["default"; "json"; "xml"; "quiet"].

(** [x in t] for a tuple of strings. *)
Definition contains (t : list string) (x : string) : bool := existsb (String.eqb x) t.

(** [str.lower] and [str.capitalize], on the letters A to Z and a to z. *)
Definition lower_char (c : ascii) : ascii :=
  let n := nat_of_ascii c in
  if ((65 <=? n) && (n <=? 90))%nat then ascii_of_nat (n + 32) else c.

Definition upper_char (c : ascii) : ascii :=
  let n := nat_of_ascii c in
  if ((97 <=? n) && (n <=? 122))%nat then ascii_of_nat (n - 32) else c.

Fixpoint lower (s : string) : string :=
  match s with
  | EmptyString => EmptyString
  | String c s' => String (lower_char c) (lower s')
  end.

Definition capitalize (s : string) : string :=
  match s with
  | EmptyString => EmptyString
  | String c s' => String (upper_char c) (lower s')
  end.

(** The end of a line that print writes. *)
Definition newline : string := String (ascii_of_nat 10) EmptyString.

(** The conversions [%d] and [%.1d] of a float: the integer it is cut
    down to, towards zero, with one digit at least. *)
Definition format_d (q : Q) : string :=
  let n := Z.quot (Qnum q) (Z.pos (Qden q)) in
  (if (n <? 0)%Z then "-" else "") ++ decimal (Z.abs n).

(** The error of a type function of argparse, with its message. *)
Inductive argument_error : Type :=
| ArgumentTypeError (message : string).

(** The options parseargs returns. *)
Module Opts.

Record t : Type := mk {
  debug : nat;
  mode : Z;
  runs : nat;
  server : option string;
  format : string;
  verbose : bool
}.

End Opts.

(** The values of the dictionary [stats]: a hostname or the start text,
    None, or a float. *)
Inductive value : Type :=
| Str (text : string)
| PyNone
| Float (q : Q).

(** The dictionary [stats], its keys in the order they were set. *)
Definition stats : Type := list (string * value).

(** [d[key] = v] *)
Fixpoint setitem (d : stats) (key : string) (v : value) : stats :=
  match d with
  | [] => [(key, v)]
  | (k, x) :: d' =>
      if String.eqb k key then (key, v) :: d' else (k, x) :: setitem d' key v
  end.

(** [d[key]], None when the key is missing. *)
Fixpoint getitem (d : stats) (key : string) : option value :=
  match d with
  | [] => None
  | (k, x) :: d' => if String.eqb k key then Some x else getitem d' key
  end.

(** [d.has_key(key)] *)
Definition has_key (d : stats) (key : string) : bool :=
  match getitem d key with
  | Some _ => true
  | None => false
  end.

(** An element of ElementTree with its tag, its text and its children. *)
#[warnings="-register-all"]
Inductive Element : Type :=
| mkElement (name : string) (text : option string) (children : list Element).

(** What perform_speedtest and output_results raise: an exception of the
    class SpeedTest or of pretty_speed, the exception for a format that is
    not supported, KeyError and TypeError. *)
Inductive failure : Type :=
| Engine (e : exn)
| FormatError (format : string)
| KeyError (key : string)
| TypeError.

Inductive outcome (A : Type) : Type :=
| Done (a : A)
| Failed (f : failure).

Arguments Done {A} a.
Arguments Failed {A} f.

(** The process: the SpeedTest object with the clock, the connections and
    the log, and the text written to the standard output. *)
Record process : Type := mkProcess {
  engine : state;
  stdout : string
}.

Definition IO (A : Type) : Type := process -> outcome A * process.

Definition io_ret {A : Type} (a : A) : IO A := fun p => (Done a, p).

Definition fail {A : Type} (f : failure) : IO A := fun p => (Failed f, p).

Definition io_bind {A B : Type} (m : IO A) (k : A -> IO B) : IO B :=
  fun p =>
    match m p with
    | (Done a, p') => k a p'
    | (Failed f, p') => (Failed f, p')
    end.

Declare Scope io_scope.
Delimit Scope io_scope with io.
Notation "x <- m ;; k" := (io_bind m (fun x => k))
  (at level 100, m at next level, right associativity) : io_scope.
Notation "m ;; k" := (io_bind m (fun _ => k))
  (at level 100, right associativity) : io_scope.

(** A call of a method of the SpeedTest object. *)
Definition call {A : Type} (m : M A) : IO A :=
  fun p =>
    match m (engine p) with
    | (Ok a, s) => (Done a, mkProcess s (stdout p))
    | (Raise e, s) => (Failed (Engine e), mkProcess s (stdout p))
    end.

(** A pure step that may raise. *)
Definition io_lift {A : Type} (r : result A) : IO A :=
  fun p =>
    match r with
    | Ok a => (Done a, p)
    | Raise e => (Failed (Engine e), p)
    end.

(** [print(text, end=ending)] *)
Definition print (text ending : string) : IO unit :=
  fun p => (Done tt, mkProcess (engine p) (stdout p ++ text ++ ending)).

Fixpoint io_for_each {A B : Type} (l : list A) (body : B -> A -> IO B) (acc : B) : IO B :=
  match l with
  | [] => io_ret acc
  | x :: l' => (acc' <- body acc x ;; io_for_each l' body acc')%io
  end.

(** [SpeedTest(host, http_debug, runs)]: the object the methods work on
    from then on. *)
Definition __init__ (host : option string) (http_debug runs : nat) : M unit :=
  fun s => (Ok tt, mkState (mkSpeedTest host http_debug runs) (ticks s) (opened s) (log s)
                           (sent s)).

(** The value stored for what the property host returns. *)
Definition of_host (h : option string) : value :=
  match h with
  | Some text => Str text
  | None => PyNone
  end.

Section CommandLine.

(** The builtins [float] and [int], and the library functions the results
    are written with: [str] of a float, [json.dumps] of the dictionary and
    ElementTree's [tostring] of a document, decoded. *)
Variable float : string -> option Q.
Variable int : string -> option Z.
Variable str_float : Q -> string.
Variable dumps : stats -> string.
Variable tostring : Element -> string.
Variable W : world.

(** [positive_int(value)] of parseargs: the ValueError of [int] and the one
    raised for a negative value are both raised again as
    ArgumentTypeError. *)
Definition positive_int (value : string) : Z + argument_error :=
  match int value with
  | Some ivalue =>
      if (ivalue <? 0)%Z
      then inr (ArgumentTypeError ("invalid positive int value: '" ++ value ++ "'"))
      else inl ivalue
  | None => inr (ArgumentTypeError ("invalid positive int value: '" ++ value ++ "'"))
  end.

(** [format_enum(value)] of parseargs *)
Definition format_enum (value : string) : string + argument_error :=
  if negb (contains __supported_formats__ (lower value))
  then inr (ArgumentTypeError ("output format not supported: '" ++ value ++ "'"))
  else inl value.

(** [str(v)], also what the conversion [%s] writes. *)
Definition str (v : value) : string :=
  match v with
  | Str text => text
  | PyNone => "None"
  | Float q => str_float q
  end.

(** [d[key]] where a missing key raises. *)
Definition lookup (d : stats) (key : string) : IO value :=
  match getitem d key with
  | Some v => io_ret v
  | None => fail (KeyError key)
  end.

(** [pretty_speed(v)] for a value of the dictionary: anything but a float
    ends in TypeError, at the division for a text and at the conversion
    for None. *)
Definition pretty_speed_of (v : value) : IO string :=
  match v with
  | Float q => io_lift (pretty_speed q)
  | _ => fail TypeError
  end.

(** [output_results(opts, stats)]. The branch of the default format, which
    perform_speedtest never takes, is as Python 2 runs it: it reads the
    dictionary with has_key. *)
Definition output_results (opts : Opts.t) (st : stats) : IO unit :=
  (if String.eqb (Opts.format opts) "default" then
     server <- lookup st "server" ;;
     print ("Using server: " ++ str server) newline ;;
     (if has_key st "ping" then
        v <- lookup st "ping" ;;
        match v with
        | Float q => print ("Ping: " ++ format_d q ++ " ms") newline
        | _ => fail TypeError
        end
      else io_ret tt) ;;
     io_for_each ["download"; "upload"]
       (fun _ item =>
          if has_key st item then
            v <- lookup st item ;;
            text <- pretty_speed_of v ;;
            print (capitalize item ++ " speed: " ++ text) newline
          else io_ret tt)
       tt
   else if String.eqb (Opts.format opts) "json" then
     print (dumps st) newline
   else if String.eqb (Opts.format opts) "xml" then
     let xml :=
       mkElement "data" None
         (map (fun kv => mkElement (fst kv) (Some (str (snd kv))) []) st) in
     print (tostring xml) newline
   else io_ret tt)%io.

(** The list [methods]: the mask, the name, the method, and the text
    [fmt % conv(val)] of its result, with conv the builtin float for ping
    and pretty_speed for the transfers. *)
Definition methods : list (Z * string * M Q * (Q -> result string)) :=
  [(4%Z, "ping", ping float W None,
    fun val => Ok (": " ++ format_d val ++ " msec"));
   (1%Z, "download", download float W,
    fun val => and_then (pretty_speed val) (fun text => Ok (" speed: " ++ text)));
   (2%Z, "upload", upload float int W,
    fun val => and_then (pretty_speed val) (fun text => Ok (" speed: " ++ text)))].

(** One turn of the loop over [methods]. *)
Definition run_method (opts : Opts.t) (show_progress : bool) (st : stats)
    (m : Z * string * M Q * (Q -> result string)) : IO stats :=
  let '(mask, name, method, text_of) := m in
  (if (Z.land (Opts.mode opts) mask =? mask)%Z then
     (if show_progress then print (capitalize name) "" else io_ret tt) ;;
     val <- call method ;;
     let st := setitem st name (Float val) in
     (if show_progress
      then text <- io_lift (text_of val) ;; print text newline
      else io_ret tt) ;;
     io_ret st
   else io_ret st)%io.

(** [perform_speedtest(opts)], for options that are given. *)
Definition perform_speedtest (opts : Opts.t) : IO stats :=
  let show_progress := String.eqb (Opts.format opts) "default" in
  let st : stats := [("server", Str "None - no valid format")] in
  (if contains __supported_formats__ (Opts.format opts) then
     call (__init__ (Opts.server opts) (Opts.debug opts) (Opts.runs opts)) ;;
     h <- call (host float W) ;;
     let st := setitem st "server" (of_host h) in
     (if show_progress
      then server <- lookup st "server" ;; print ("Using server: " ++ str server) newline
      else io_ret tt) ;;
     st <- io_for_each methods (run_method opts show_progress) st ;;
     (if negb show_progress then output_results opts st else io_ret tt) ;;
     io_ret st
   else fail (FormatError (Opts.format opts)))%io.

End CommandLine.

(** Renderings for the examples: the number of keys, and the number of
    children of the document. *)
Definition count_keys (st : stats) : string := decimal (Z.of_nat (length st)).

Definition count_children (xml : Element) : string :=
  match xml with
  | mkElement _ _ children => decimal (Z.of_nat (length children))
  end.

(** A process that starts with an object of no attributes set. *)
Definition start_process : process := mkProcess (start_state None 0) "".

(** A text for a float, for the examples: the value with two decimals. *)
Definition float_text (q : Q) : string := format_2f q.

(** * Properties *)

(** ** Comparisons of rationals *)

Lemma Qltb_lt (x y : Q) : Qltb x y = true <-> x < y.
Proof.
  unfold Qltb. rewrite Qlt_alt. destruct (x ?= y); split; congruence.
Qed.

Lemma Qltb_ge (x y : Q) : Qltb x y = false <-> y <= x.
Proof.
  unfold Qltb. rewrite Qge_alt. destruct (x ?= y); split; congruence.
Qed.

Lemma Qgeb_le (x y : Q) : Qgeb x y = true <-> y <= x.
Proof.
  unfold Qgeb. rewrite negb_true_iff. apply Qltb_ge.
Qed.

Lemma Qgeb_lt (x y : Q) : Qgeb x y = false <-> x < y.
Proof.
  unfold Qgeb. rewrite negb_false_iff. apply Qltb_lt.
Qed.

#[local] Instance Qltb_comp : Proper (Qeq ==> Qeq ==> eq) Qltb.
Proof.
  intros x x' Hx y y' Hy. unfold Qltb. rewrite Hx, Hy. reflexivity.
Qed.

(** ** pretty_speed *)

Lemma power_1024_succ (n : nat) :
  1024 ^ Z.of_nat (S n) == 1024 * 1024 ^ Z.of_nat n.
Proof.
  rewrite Nat2Z.inj_succ, <- Z.add_1_l.
  rewrite Qpower_plus by discriminate. reflexivity.
Qed.

Lemma power_1024_pos (n : nat) : 0 < 1024 ^ Z.of_nat n.
Proof. apply Qpower_0_lt. reflexivity. Qed.

(** The loop stops, after [n] divisions, on a value below 1024; when it has
    divided at all, that value is at least 1. *)
Lemma while_loop_spec (speed : Q) (unit : nat) :
  exists (n : nat) (scaled : Q),
    while_loop speed unit = (scaled, (unit + n)%nat) /\
    scaled == speed / 1024 ^ Z.of_nat n /\
    scaled < 1024 /\
    ((0 < n)%nat -> 1 <= scaled).
Proof.
  funelim (while_loop speed unit).
  - destruct H as (n & scaled & Hw & Heq & Hlt & Hge).
    exists (S n), scaled. repeat split.
    + rewrite Hw. f_equal. lia.
    + rewrite Heq, power_1024_succ. field.
      intro E. pose proof (power_1024_pos n) as P. rewrite E in P. inversion P.
    + exact Hlt.
    + intros _. destruct n as [|n].
      * rewrite Heq. pose proof (proj1 (Qgeb_le _ _) e) as He.
        change (1024 ^ Z.of_nat 0) with 1.
        setoid_replace (speed / 1024 / 1) with (speed / 1024) by field.
        apply Qle_shift_div_l; [reflexivity|]. exact He.
      * apply Hge. lia.
  - exists 0%nat, speed. repeat split.
    + f_equal. lia.
    + simpl. field.
    + apply (proj1 (Qgeb_lt _ _)). exact e.
    + intros Hn. inversion Hn.
Qed.

Lemma scaled_bounds (speed scaled : Q) (n : nat) :
  scaled == speed / 1024 ^ Z.of_nat n ->
  speed == scaled * 1024 ^ Z.of_nat n.
Proof.
  intros H. rewrite H. field.
  intro E. pose proof (power_1024_pos n) as P. rewrite E in P. inversion P.
Qed.

(** The number of divisions is at most 4 exactly for inputs below 1024^5. *)
Lemma while_loop_unit (speed scaled : Q) (n : nat) :
  while_loop speed 0 = (scaled, n) ->
  (speed < 1024 ^ 5 <-> (n <= 4)%nat) /\
  scaled == speed / 1024 ^ Z.of_nat n /\
  scaled < 1024 /\
  ((0 < n)%nat -> 1 <= scaled).
Proof.
  intros Hw.
  destruct (while_loop_spec speed 0) as (n' & scaled' & Hw' & Heq & Hlt & Hge).
  rewrite Hw in Hw'. simpl in Hw'. injection Hw' as -> ->.
  repeat split; try assumption.
  - intros Hs. destruct (Nat.le_gt_cases n' 4) as [|Hn]; [assumption|exfalso].
    assert (H5 : 1024 ^ 5 <= 1024 ^ Z.of_nat n').
    { apply Qpower_le_compat_l; [lia | discriminate]. }
    assert (H1 : 1 <= scaled') by (apply Hge; lia).
    apply scaled_bounds in Heq.
    pose proof (power_1024_pos n') as P.
    assert (1024 ^ Z.of_nat n' <= speed).
    { rewrite Heq. rewrite <- (Qmult_1_l (1024 ^ Z.of_nat n')) at 1.
      apply Qmult_le_compat_r; [exact H1 | apply Qlt_le_weak; exact P]. }
    apply (Qlt_irrefl speed).
    eapply Qlt_le_trans; [exact Hs|]. eapply Qle_trans; eassumption.
  - intros Hn.
    apply scaled_bounds in Heq.
    pose proof (power_1024_pos n') as P.
    assert (H1 : speed < 1024 * 1024 ^ Z.of_nat n').
    { rewrite Heq. apply Qmult_lt_compat_r; assumption. }
    rewrite <- power_1024_succ in H1.
    eapply Qlt_le_trans; [exact H1|].
    apply Qpower_le_compat_l; [lia | discriminate].
Qed.

(** Rounding to two decimals is off by at most half a unit of the last
    digit. *)
Lemma round_half_even_near (q : Q) :
  Qabs (inject_Z (round_half_even q) - q) <= 1 # 2.
Proof.
  unfold round_half_even.
  pose proof (Qfloor_le q) as Hlo. pose proof (Qlt_floor q) as Hhi.
  rewrite inject_Z_plus in Hhi. change (inject_Z 1) with 1 in Hhi.
  destruct (Qcompare_spec (q - inject_Z (Qfloor q)) (1 # 2)) as [E|E|E].
  - destruct (Z.even (Qfloor q)).
    + apply Qabs_Qle_condition. split; lra.
    + rewrite inject_Z_plus. change (inject_Z 1) with 1.
      apply Qabs_Qle_condition. split; lra.
  - apply Qabs_Qle_condition. split; lra.
  - rewrite inject_Z_plus. change (inject_Z 1) with 1.
    apply Qabs_Qle_condition. split; lra.
Qed.

Lemma two_digits (frac : Z) :
  (0 <= frac < 100)%Z ->
  ((if (frac <? 10)%Z then "0" else "") ++ decimal frac)%string
  = String (digit_char (frac / 10)) (String (digit_char (frac mod 10)) "").
Proof.
  intros H. rewrite <- (Z2Nat.id frac) by lia.
  assert (Hk : (Z.to_nat frac < 100)%nat) by lia.
  clear H. revert Hk. generalize (Z.to_nat frac). intros k Hk.
  do 100 (destruct k as [|k]; [vm_compute; reflexivity|]). lia.
Qed.

(** The text of [%0.2f]: a sign, the whole part, a point and exactly two
    digits, those of the value rounded to hundredths. *)
Lemma format_2f_digits (q : Q) :
  let cents := Z.abs (round_half_even (q * 100)) in
  format_2f q
  = ((if Qltb q 0 then "-" else "") ++ decimal (cents / 100) ++ "." ++
     String (digit_char (cents mod 100 / 10)) (String (digit_char (cents mod 10)) ""))%string.
Proof.
  intros cents. unfold format_2f. fold cents.
  rewrite two_digits by (apply Z.mod_pos_bound; lia).
  replace ((cents mod 100) mod 10)%Z with (cents mod 10)%Z; [reflexivity|].
  pose proof (Z.div_mod cents 100) as D. pose proof (Z.mod_pos_bound cents 100) as B.
  rewrite (Z.mod_eq (cents mod 100) 10), (Z.mod_eq cents 10) by lia.
  assert (E : (cents / 10 = 10 * (cents / 100) + cents mod 100 / 10)%Z).
  { symmetry. apply Z.div_unique with (r := ((cents mod 100) mod 10)%Z).
    - left. apply Z.mod_pos_bound. lia.
    - pose proof (Z.div_mod (cents mod 100) 10). lia. }
  lia.
Qed.

(** C8: pretty_speed gives 0.00 bps for 0, 1.50 Kbps for 1536 and 1.00 Mbps
    for 1024*1024. In general the loop divides by 1024 while the value is at
    least 1024: after n divisions the value is the input over 1024^n, below
    1024 (and at least 1 when n > 0); the unit is the n-th of the table, and
    the value is printed with exactly two decimal digits, those of the
    value rounded to hundredths. *)
Theorem pretty_speed_formats :
  pretty_speed 0 = Ok "0.00 bps" /\
  pretty_speed 1536 = Ok "1.50 Kbps" /\
  pretty_speed (1024 * 1024) = Ok "1.00 Mbps" /\
  forall speed : Q, exists (n : nat) (scaled : Q) (cents : Z),
    while_loop speed 0 = (scaled, n) /\
    scaled == speed / 1024 ^ Z.of_nat n /\
    scaled < 1024 /\
    ((0 < n)%nat -> 1 <= scaled) /\
    pretty_speed speed =
      and_then (item units n) (fun name => Ok (format_2f scaled ++ " " ++ name)) /\
    Qabs (inject_Z (round_half_even (scaled * 100)) - scaled * 100) <= 1 # 2 /\
    cents = Z.abs (round_half_even (scaled * 100)) /\
    format_2f scaled
    = ((if Qltb scaled 0 then "-" else "") ++ decimal (cents / 100) ++ "." ++
       String (digit_char (cents mod 100 / 10))
              (String (digit_char (cents mod 10)) ""))%string.
Proof.
  split; [reflexivity|]. split; [reflexivity|]. split; [reflexivity|].
  intros speed.
  destruct (while_loop_spec speed 0) as (n & scaled & Hw & Heq & Hlt & Hge).
  simpl in Hw. exists n, scaled, (Z.abs (round_half_even (scaled * 100))).
  split; [exact Hw|]. split; [exact Heq|]. split; [exact Hlt|]. split; [exact Hge|].
  split; [unfold pretty_speed; rewrite Hw; reflexivity|].
  split; [apply round_half_even_near|]. split; [reflexivity|].
  apply format_2f_digits.
Qed.

(** C9, as the code has it: pretty_speed returns a text exactly for the
    inputs below 1024^5, and then the unit is one of the five of the table
    (index at most 4, Tbps the largest); from 1024^5 on the index passes the
    end of the table and the lookup raises IndexError. *)
Theorem pretty_speed_defined_below_1024_5 (speed : Q) :
  (speed < 1024 ^ 5 ->
   exists (n : nat) (scaled : Q) (name : string),
     (n <= 4)%nat /\
     while_loop speed 0 = (scaled, n) /\
     nth_error units n = Some name /\
     pretty_speed speed = Ok (format_2f scaled ++ " " ++ name)) /\
  (1024 ^ 5 <= speed -> pretty_speed speed = Raise IndexError).
Proof.
  destruct (while_loop speed 0) as [scaled n] eqn:Hw.
  destruct (while_loop_unit speed scaled n Hw) as (Hn & _).
  split.
  - intros Hs. apply Hn in Hs.
    assert (exists name, nth_error units n = Some name) as [name Hname].
    { do 5 (destruct n as [|n]; [eexists; reflexivity|]). lia. }
    exists n, scaled, name. repeat split; try assumption.
    unfold pretty_speed. rewrite Hw. unfold item. rewrite Hname. reflexivity.
  - intros Hs.
    assert (Hn' : ~ (n <= 4)%nat).
    { intro Hle. apply Hn in Hle. apply (Qlt_irrefl speed).
      eapply Qlt_le_trans; eassumption. }
    unfold pretty_speed. rewrite Hw. unfold item.
    do 5 (destruct n as [|n]; [lia|]). destruct n; reflexivity.
Qed.

Lemma pretty_speed_defined_below_1024_5_witness :
  (exists (n : nat) (scaled : Q) (name : string),
     (n <= 4)%nat /\
     while_loop (1024 * 1024 * 3) 0 = (scaled, n) /\
     nth_error units n = Some name /\
     pretty_speed (1024 * 1024 * 3) = Ok (format_2f scaled ++ " " ++ name)) /\
  pretty_speed (1024 ^ 5 + 1) = Raise IndexError.
Proof.
  split.
  - apply (proj1 (pretty_speed_defined_below_1024_5 (1024 * 1024 * 3))).
    reflexivity.
  - apply (proj2 (pretty_speed_defined_below_1024_5 (1024 ^ 5 + 1))).
    discriminate.
Defined.

(** Against C9 as stated: at 1024^5, a non-negative input, pretty_speed
    returns no text. *)
Lemma pretty_speed_not_total :
  ~ (forall speed : Q, 0 <= speed -> exists text, pretty_speed speed = Ok text).
Proof.
  intros H. destruct (H (1024 ^ 5)) as [text Ht]; [discriminate|].
  vm_compute in Ht. discriminate.
Qed.

(** ** Lists of samples *)

Lemma sum_from (l : list Q) (a : Q) : fold_left Qplus l a == a + sum l.
Proof.
  unfold sum. revert a. induction l as [|x l IH]; intros a; simpl.
  - ring.
  - rewrite IH. rewrite (IH (0 + x)). ring.
Qed.

Lemma sum_cons (x : Q) (l : list Q) : sum (x :: l) == x + sum l.
Proof. unfold sum at 1. simpl. rewrite sum_from. ring. Qed.

Lemma sum_app (l1 l2 : list Q) : sum (l1 ++ l2)%list == sum l1 + sum l2.
Proof.
  induction l1 as [|x l1 IH]; simpl.
  - unfold sum at 2. simpl. ring.
  - rewrite !sum_cons, IH. ring.
Qed.

(** Taking one item out of a list takes its value out of the sum. *)
Lemma sum_without (l1 l2 : list Q) (x : Q) :
  sum (l1 ++ l2)%list == sum (l1 ++ x :: l2)%list - x.
Proof. rewrite !sum_app, sum_cons. ring. Qed.

(** [remove] takes out the first item equal to [x]. *)
Lemma remove_first (l : list Q) (x : Q) :
  (exists y, In y l /\ y == x) ->
  exists l1 y l2,
    l = (l1 ++ y :: l2)%list /\ y == x /\
    (forall z, In z l1 -> ~ z == x) /\
    remove l x = Ok (l1 ++ l2)%list.
Proof.
  induction l as [|a l IH]; intros (y & Hin & Hy).
  - destruct Hin.
  - simpl. destruct (Qeq_bool a x) eqn:E.
    + exists [], a, l. repeat split.
      * apply Qeq_bool_eq. exact E.
      * intros z [].
    + destruct Hin as [->|Hin].
      * apply Qeq_bool_neq in E. contradiction.
      * destruct IH as (l1 & y' & l2 & -> & Hy' & Hl1 & Hr); [exists y; auto|].
        exists (a :: l1), y', l2. repeat split; try assumption.
        -- intros z [<-|Hz]; [apply Qeq_bool_neq; exact E | apply Hl1; exact Hz].
        -- rewrite Hr. reflexivity.
Qed.

Lemma remove_absent (l : list Q) (x : Q) :
  (forall y, In y l -> ~ y == x) -> remove l x = Raise ValueError.
Proof.
  induction l as [|a l IH]; intros H; simpl; [reflexivity|].
  destruct (Qeq_bool a x) eqn:E.
  - apply Qeq_bool_eq in E. exfalso. apply (H a); [left; reflexivity | exact E].
  - rewrite IH; [reflexivity|]. intros y Hy. apply H. right. exact Hy.
Qed.

(** [worst] ends as the largest of its start value and the samples, and is
    one of them. *)
Lemma fold_worst (l : list Q) (w : Q) :
  let r := fold_left (fun worst t => if Qgtb t worst then t else worst) l w in
  w <= r /\ (forall t, In t l -> t <= r) /\ (r = w \/ In r l).
Proof.
  revert w. induction l as [|x l IH]; intros w; simpl.
  - repeat split; [apply Qle_refl | intros t [] | left; reflexivity].
  - destruct (Qgtb x w) eqn:E.
    + apply Qltb_lt in E. destruct (IH x) as (H1 & H2 & H3).
      repeat split.
      * eapply Qle_trans; [apply Qlt_le_weak; exact E | exact H1].
      * intros t [<-|Ht]; [exact H1 | apply H2; exact Ht].
      * destruct H3 as [->|H3]; right; [left; reflexivity | right; exact H3].
    + apply Qltb_ge in E. destruct (IH w) as (H1 & H2 & H3).
      repeat split.
      * exact H1.
      * intros t [<-|Ht]; [eapply Qle_trans; eassumption | apply H2; exact Ht].
      * destruct H3 as [->|H3]; [left; reflexivity | right; right; exact H3].
Qed.

(** With a sample that is not negative, [worst] is the largest sample. *)
Lemma worst_of_max (l : list Q) :
  Exists (fun t => 0 <= t) l ->
  (forall t, In t l -> t <= worst_of l) /\
  exists y, In y l /\ y == worst_of l.
Proof.
  intros Hex. destruct (fold_worst l 0) as (H0 & Hmax & Hin).
  fold (worst_of l) in H0, Hmax, Hin.
  split; [exact Hmax|].
  destruct Hin as [E|Hin].
  - apply Exists_exists in Hex. destruct Hex as (t & Ht & Hpos).
    exists t. split; [exact Ht|].
    apply Qle_antisym; [apply Hmax; exact Ht | rewrite E; exact Hpos].
  - exists (worst_of l). split; [exact Hin | reflexivity].
Qed.

(** With negative samples only, [worst] keeps its start value 0, which is
    no sample. *)
Lemma worst_of_negative (l : list Q) :
  (forall t, In t l -> t < 0) -> forall y, In y l -> ~ y == worst_of l.
Proof.
  intros Hneg.
  assert (E : worst_of l = 0).
  { unfold worst_of. induction l as [|x l IH]; simpl; [reflexivity|].
    assert (Hx : Qgtb x 0 = false).
    { apply Qltb_ge. apply Qlt_le_weak. apply Hneg. left. reflexivity. }
    rewrite Hx. apply IH. intros t Ht. apply Hneg. right. exact Ht. }
  intros y Hy Heq. rewrite E in Heq. apply Hneg in Hy. rewrite Heq in Hy.
  inversion Hy.
Qed.

Lemma samples_from_length (W : world) (t n : nat) :
  length (samples_from W t n) = n.
Proof. revert t. induction n; intros t; simpl; [|rewrite IHn]; reflexivity. Qed.

(** ** ping *)

Section PingProperties.

Variable float : string -> option Q.
Variable W : world.

(** The five round trips of a ping: ten readings of the clock and five
    requests. *)
Lemma ping_rounds (connection : connection) (s : state) :
  for_each (range 5)
    (fun (tw : list Q * Q) _ =>
       let (times, worst) := tw in
       total_start_time <- time W ;;
       request connection "GET" "/speedtest/latency.txt?x=0" ;;
       now <- time W ;;
       let total_ms := now - total_start_time in
       let times := (times ++ [total_ms])%list in
       let worst := if Qgtb total_ms worst then total_ms else worst in
       ret (times, worst))
    ([], 0) s
  = (Ok (samples W (ticks s), worst_of (samples W (ticks s))),
     mkState (self s) (10 + ticks s) (opened s) (log s)
             (sent s ++ repeat (mkRequest connection "GET" "/speedtest/latency.txt?x=0") 5)%list).
Proof.
  destruct s as [object t o l q].
  cbn -[Qmult Qminus Qgtb app]. unfold ret. rewrite <- !app_assoc. reflexivity.
Qed.

(** What a ping of a named, reachable server does: ten readings of the
    clock, one connection, five requests, and, when [remove] finds [worst]
    among the samples, one line of log. *)
Lemma ping_with_run (self_host : M (option string)) (server : string) (s : state) :
  server <> "" ->
  reachable W server = true ->
  ping_with W self_host (Some server) s =
  match remove (samples W (ticks s)) (worst_of (samples W (ticks s))) with
  | Ok times =>
      (Ok (sum times * 250),
       mkState (self s) (10 + ticks s) (S (opened s))
               (log s ++ [Latency server (sum times * 250)])%list
               (sent s ++ latency_requests server (opened s))%list)
  | Raise e =>
      (Raise e, mkState (self s) (10 + ticks s) (S (opened s)) (log s)
                        (sent s ++ latency_requests server (opened s))%list)
  end.
Proof.
  intros Hs Hr. unfold ping_with.
  assert (Hf : falsy (Some server) = false) by (destruct server; [contradiction | reflexivity]).
  rewrite Hf. unfold bind at 1. unfold ret at 1. unfold bind at 1.
  unfold connect. rewrite Hr. unfold bind at 1.
  rewrite ping_rounds. cbn [self ticks opened log sent].
  unfold bind at 1. unfold lift at 1.
  destruct (remove (samples W (ticks s)) (worst_of (samples W (ticks s)))); reflexivity.
Qed.

(** The ping of a named server never reads the property [host]: the ping
    that chooseserver calls is [ping]. *)
Lemma ping_with_named (self_host : M (option string)) (server : string) :
  server <> "" ->
  ping_with W self_host (Some server) = ping float W (Some server).
Proof.
  intros Hs. unfold ping, ping_with.
  assert (Hf : falsy (Some server) = false) by (destruct server; [contradiction | reflexivity]).
  rewrite Hf. reflexivity.
Qed.

(** C1: for the 5 samples of a ping (one of them at least not negative, as
    elapsed times are), the value returned is the sum of the samples without
    the first occurrence of the largest one, times 250: exactly 4 samples
    are summed, and the value equals (sum of the 5 - max) * 250. *)
Theorem ping_drops_first_worst (server : string) (s : state) :
  server <> "" ->
  reachable W server = true ->
  Exists (fun t => 0 <= t) (samples W (ticks s)) ->
  exists (before after : list Q) (worst : Q),
    length (samples W (ticks s)) = 5%nat /\
    samples W (ticks s) = (before ++ worst :: after)%list /\
    (forall t, In t (samples W (ticks s)) -> t <= worst) /\
    (forall t, In t before -> t < worst) /\
    length (before ++ after) = 4%nat /\
    fst (ping float W (Some server) s) = Ok (sum (before ++ after) * 250) /\
    sum (before ++ after) * 250 == (sum (samples W (ticks s)) - worst) * 250.
Proof.
  intros Hs Hr Hex.
  destruct (worst_of_max _ Hex) as (Hmax & Hin).
  destruct (remove_first _ _ Hin) as (l1 & y & l2 & Hsplit & Hy & Hl1 & Hrem).
  exists l1, l2, y.
  assert (Hlen : length (samples W (ticks s)) = 5%nat) by apply samples_from_length.
  split; [exact Hlen|]. split; [exact Hsplit|].
  split; [|split; [|split; [|split]]].
  - intros t Ht. rewrite Hy. apply Hmax. exact Ht.
  - intros t Ht.
    assert (Hle : t <= worst_of (samples W (ticks s))).
    { apply Hmax. rewrite Hsplit. apply in_or_app. left. exact Ht. }
    apply Qle_lteq in Hle. destruct Hle as [Hlt|Heq]; [rewrite Hy; exact Hlt|].
    exfalso. apply (Hl1 t Ht). exact Heq.
  - rewrite Hsplit in Hlen. rewrite length_app in *. simpl in Hlen. lia.
  - unfold ping. rewrite ping_with_run by assumption. rewrite Hrem. reflexivity.
  - rewrite Hsplit. rewrite sum_without with (x := y). reflexivity.
Qed.

(** When the clock has run backwards through all five samples, [worst]
    keeps its start value 0, which is no sample, and [remove] raises. *)
Lemma ping_negative_samples (server : string) (s : state) :
  server <> "" ->
  reachable W server = true ->
  (forall t, In t (samples W (ticks s)) -> t < 0) ->
  fst (ping float W (Some server) s) = Raise ValueError.
Proof.
  intros Hs Hr Hneg. unfold ping. rewrite ping_with_run by assumption.
  rewrite remove_absent; [reflexivity|].
  apply worst_of_negative. exact Hneg.
Qed.

End PingProperties.

Lemma ping_drops_first_worst_witness :
  exists (before after : list Q) (worst : Q),
    length (samples tie_world 0) = 5%nat /\
    samples tie_world 0 = (before ++ worst :: after)%list /\
    (forall t, In t (samples tie_world 0) -> t <= worst) /\
    (forall t, In t before -> t < worst) /\
    length (before ++ after) = 4%nat /\
    fst (ping decimal_float tie_world (Some "a.example") (start_state None 2))
      = Ok (sum (before ++ after) * 250) /\
    sum (before ++ after) * 250 == (sum (samples tie_world 0) - worst) * 250.
Proof.
  apply (ping_drops_first_worst decimal_float tie_world "a.example" (start_state None 2)).
  - discriminate.
  - reflexivity.
  - apply Exists_cons_hd. vm_compute. discriminate.
Defined.

(** The run of the witness, computed: of the samples 3, 7, 2, 7, 1 the
    first 7 is left out, (3 + 2 + 7 + 1) * 250 = 3250. *)
Example ping_tie_run :
  samples tie_world 0 = [3; 7; 2; 7; 1] /\
  exists v, fst (ping decimal_float tie_world (Some "a.example") (start_state None 2)) = Ok v
            /\ v == 3250.
Proof.
  split; [reflexivity|]. eexists. split; [vm_compute; reflexivity | reflexivity].
Qed.

(** ** calc_distance *)

(** The order of the exact roots is the order of the real numbers they
    stand for. *)
Lemma root_ltb_val (a b : root) :
  0 <= radicand a -> 0 <= radicand b ->
  (root_ltb a b = true <-> (root_val a < root_val b)%R).
Proof.
  intros Ha Hb. unfold root_ltb, root_val. rewrite Qltb_lt.
  apply Qle_Rle in Ha, Hb. rewrite RMicromega.Q2R_0 in Ha, Hb.
  split; intros H.
  - apply sqrt_lt_1_alt. split; [exact Ha|]. apply Qlt_Rlt. exact H.
  - apply Rlt_Qlt. apply sqrt_lt_0_alt. exact H.
Qed.

Lemma root_eqb_val (a b : root) :
  0 <= radicand a -> 0 <= radicand b ->
  (root_eqb a b = true <-> root_val a = root_val b).
Proof.
  intros Ha Hb. unfold root_eqb, root_val. rewrite Qeq_bool_iff.
  apply Qle_Rle in Ha, Hb. rewrite RMicromega.Q2R_0 in Ha, Hb.
  split; intros H.
  - apply Qeq_eqR in H. rewrite H. reflexivity.
  - apply eqR_Qeq. apply sqrt_inj; assumption.
Qed.

Section DistanceProperties.

Variable float : string -> option Q.

(** C7: for a client location and a server whose latitudes and longitudes
    are numeric, calc_distance is the planar Euclidean distance on the raw
    degrees, sqrt((s_lat - my_lat)^2 + (s_lon - my_lon)^2), and this value
    is the key under which chooseserver ranks the server: no great-circle
    formula is used. *)
Theorem calc_distance_planar
    (ip lat lon url slat slon : string) (my_lat my_lon s_lat s_lon : Q) :
  float lat = Some my_lat ->
  float lon = Some my_lon ->
  float slat = Some s_lat ->
  float slon = Some s_lon ->
  exists distance : root,
    calc_distance float [ip; lat; lon] [url; slat; slon] = Ok distance /\
    radicand distance == (s_lat - my_lat) ^ 2 + (s_lon - my_lon) ^ 2 /\
    root_val distance =
      R_sqrt.sqrt ((Q2R s_lat - Q2R my_lat) ^ 2 + (Q2R s_lon - Q2R my_lon) ^ 2)%R /\
    rank float [ip; lat; lon] [[url; slat; slon]] [] = Ok [(distance, url)].
Proof.
  intros H1 H2 H3 H4.
  assert (Hpos : Qltb (pow (s_lat - my_lat) 2 + pow (s_lon - my_lon) 2) 0 = false).
  { apply Qltb_ge. unfold pow.
    pose proof (Qsqr_nonneg (s_lat - my_lat)). pose proof (Qsqr_nonneg (s_lon - my_lon)).
    lra. }
  exists (Root (pow (s_lat - my_lat) 2 + pow (s_lon - my_lon) 2)).
  assert (Hd : calc_distance float [ip; lat; lon] [url; slat; slon]
               = Ok (Root (pow (s_lat - my_lat) 2 + pow (s_lon - my_lon) 2))).
  { unfold calc_distance, item, to_float. cbn [nth_error and_then].
    rewrite H1, H2, H3, H4. cbn [and_then]. unfold sqrt. rewrite Hpos. reflexivity. }
  split; [exact Hd|]. split; [reflexivity|]. split.
  - unfold root_val, pow. simpl radicand. f_equal.
    change ((s_lat - my_lat) ^ 2) with ((s_lat - my_lat) * (s_lat - my_lat)).
    change ((s_lon - my_lon) ^ 2) with ((s_lon - my_lon) * (s_lon - my_lon)).
    rewrite Q2R_plus, !Q2R_mult, !Q2R_minus. ring.
  - cbn [rank]. rewrite Hd. reflexivity.
Qed.

(** A latitude or longitude that is no number makes calc_distance raise. *)
Lemma calc_distance_not_numeric (ip lat lon : string) (server : list string) :
  float lat = None ->
  calc_distance float [ip; lat; lon] server = Raise ValueError.
Proof.
  intros H. unfold calc_distance, item, to_float. simpl. rewrite H. reflexivity.
Qed.

End DistanceProperties.

Lemma calc_distance_planar_witness :
  exists distance : root,
    calc_distance decimal_float ["1.2.3.4"; "10.5"; "20"] ["u"; "13.5"; "24"] = Ok distance /\
    radicand distance == (13.5 - 10.5) ^ 2 + (24 - 20) ^ 2 /\
    root_val distance =
      R_sqrt.sqrt ((Q2R 13.5 - Q2R 10.5) ^ 2 + (Q2R 24 - Q2R 20) ^ 2)%R /\
    rank decimal_float ["1.2.3.4"; "10.5"; "20"] [["u"; "13.5"; "24"]] []
      = Ok [(distance, "u")].
Proof.
  apply (calc_distance_planar decimal_float "1.2.3.4" "10.5" "20" "u" "13.5" "24");
    vm_compute; reflexivity.
Defined.

(** The distance is planar: across the date line, from longitude 179 to
    longitude -179 on the equator, it is 358 degrees (2 on the globe), and
    one degree of longitude counts the same at latitude 60 as on the
    equator. *)
Example calc_distance_across_date_line :
  exists d1 d2 d3 : root,
    calc_distance decimal_float ["ip"; "0"; "179"] ["url"; "0"; "-179"] = Ok d1 /\
    root_val d1 = 358%R /\
    calc_distance decimal_float ["ip"; "60"; "0"] ["url"; "60"; "1"] = Ok d2 /\
    calc_distance decimal_float ["ip"; "0"; "0"] ["url"; "0"; "1"] = Ok d3 /\
    root_val d2 = 1%R /\ root_val d3 = 1%R.
Proof.
  eexists _, _, _.
  split; [vm_compute; reflexivity|]. split.
  { unfold root_val. simpl radicand.
    replace (Q2R (128164 # 1)) with (358 * 358)%R by (unfold Q2R; simpl; lra).
    apply sqrt_square. lra. }
  split; [vm_compute; reflexivity|]. split; [vm_compute; reflexivity|].
  split; unfold root_val; simpl radicand.
  - replace (Q2R (1 # 1)) with 1%R by (unfold Q2R; simpl; lra). apply sqrt_1.
  - replace (Q2R (1 # 1)) with 1%R by (unfold Q2R; simpl; lra). apply sqrt_1.
Qed.

(** ** Soundness and completeness of the matcher *)

Lemma first_some_found {A B : Type} (f : A -> option B) (l : list A) (y : B) :
  first_some f l = Some y -> exists x, In x l /\ f x = Some y.
Proof.
  induction l as [|a l IH]; simpl; [discriminate|].
  destruct (f a) eqn:E.
  - intros [= <-]. exists a. split; [left; reflexivity | exact E].
  - intros H. destruct (IH H) as (x & Hx & Hf). exists x. split; [right|]; assumption.
Qed.

Lemma append_assoc (a b c : string) : ((a ++ b) ++ c)%string = (a ++ (b ++ c))%string.
Proof. induction a as [|x a IH]; simpl; [|rewrite IH]; reflexivity. Qed.

Lemma append_empty_r (a : string) : (a ++ "")%string = a.
Proof. induction a as [|x a IH]; simpl; [|rewrite IH]; reflexivity. Qed.

Lemma strip_prefix_spec (p s s' : string) :
  strip_prefix p s = Some s' <-> s = (p ++ s')%string.
Proof.
  revert s. induction p as [|a p IH]; intros s; simpl.
  - split; [intros [= ->]; reflexivity | intros ->; reflexivity].
  - destruct s as [|b s]; [split; discriminate|].
    destruct (Ascii.eqb a b) eqn:E.
    + apply Ascii.eqb_eq in E. subst b. rewrite IH.
      split; [intros ->; reflexivity | intros [= ->]; reflexivity].
    + apply Ascii.eqb_neq in E. split; [discriminate|].
      intros [= Hb _]. congruence.
Qed.

Lemma span_not_spec (c : ascii) (s : string) :
  s = (fst (span_not c s) ++ snd (span_not c s))%string /\
  has_char c (fst (span_not c s)) = false.
Proof.
  induction s as [|a s [IH1 IH2]]; simpl; [split; reflexivity|].
  destruct (Ascii.eqb a c) eqn:E; simpl; [split; reflexivity|].
  destruct (span_not c s) as [p r]. simpl in *. rewrite E.
  split; [rewrite <- IH1; reflexivity | exact IH2].
Qed.

(** Before a text free of [c], the longest prefix free of [c] goes on
    through that text. *)
Lemma span_not_app (c : ascii) (g t : string) :
  has_char c g = false ->
  span_not c (g ++ t) = ((g ++ fst (span_not c t))%string, snd (span_not c t)).
Proof.
  induction g as [|a g IH]; simpl; intros H.
  - destruct (span_not c t); reflexivity.
  - apply orb_false_iff in H. destruct H as [Ha Hg]. rewrite Ha.
    rewrite (IH Hg). reflexivity.
Qed.

Lemma cuts_spec (run a b : string) :
  In (a, b) (cuts run) <-> (a ++ b)%string = run.
Proof.
  revert a b. induction run as [|x run IH]; intros a b; simpl.
  - split.
    + intros [[= <- <-]|[]]. reflexivity.
    + destruct a; [|discriminate]. simpl. intros ->. left. reflexivity.
  - rewrite in_app_iff, in_map_iff. split.
    + intros [((a', b') & [= <- <-] & Hin)|[[= <- <-]|[]]].
      * simpl. apply IH in Hin. rewrite Hin. reflexivity.
      * reflexivity.
    + destruct a as [|y a]; simpl.
      * intros ->. right. left. reflexivity.
      * intros [= -> Hab]. left. exists (a, b). split; [reflexivity|].
        apply IH. exact Hab.
Qed.

Lemma first_some_exists {A B : Type} (f : A -> option B) (l : list A) (x : A) :
  In x l -> f x <> None -> first_some f l <> None.
Proof.
  induction l as [|a l IH]; simpl; [intros []|].
  intros [->|Hin] Hx.
  - destruct (f x); [discriminate | contradiction].
  - destruct (f a); [discriminate | apply IH; assumption].
Qed.

(** A match found has the shape of the pattern. *)
Lemma match_here_sound (p : list token) (s : string) (groups : list string)
    (tail : string) :
  match_here p s = Some (groups, tail) ->
  exists text, matches p groups text /\ s = (text ++ tail)%string.
Proof.
  revert s groups. induction p as [|[lit|c n] p IH]; intros s groups; cbn [match_here].
  - intros [= <- <-]. exists "". split; [constructor | reflexivity].
  - destruct (strip_prefix lit s) as [s'|] eqn:E; [|discriminate].
    apply strip_prefix_spec in E. intros H.
    destruct (IH _ _ H) as (text & Hm & ->).
    exists (lit ++ text)%string. split; [constructor; exact Hm|].
    rewrite E. symmetry. apply append_assoc.
  - destruct (span_not_spec c s) as [Hs Hfree].
    destruct (span_not c s) as [run rest]. cbn [fst snd] in *.
    intros H. apply first_some_found in H. destruct H as ([g back] & Hcut & H).
    cbn [fst snd] in H. apply cuts_spec in Hcut.
    destruct (n <=? String.length g)%nat eqn:Hn; [|discriminate].
    destruct (match_here p (back ++ rest)) as [[gs t]|] eqn:Hm; [|discriminate].
    injection H as <- <-.
    destruct (IH _ _ Hm) as (text & Hmatch & Htext).
    exists (g ++ text)%string. split.
    + constructor; [apply Nat.leb_le; exact Hn | | exact Hmatch].
      rewrite <- Hcut in Hfree. clear - Hfree.
      induction g as [|a g IHg]; [reflexivity|]. simpl in *.
      apply orb_false_iff in Hfree. destruct Hfree as [-> Hg]. apply IHg. exact Hg.
    + rewrite Hs, <- Hcut, !append_assoc, Htext. reflexivity.
Qed.

(** A text of the shape of the pattern is matched. *)
Lemma match_here_complete (p : list token) (groups : list string) (text tail : string) :
  matches p groups text -> match_here p (text ++ tail) <> None.
Proof.
  intros H. revert tail. induction H as [|lit p gs s _ IH|c n p g gs s Hn Hfree _ IH];
    intros tail; cbn [match_here].
  - discriminate.
  - rewrite append_assoc.
    destruct (strip_prefix lit (lit ++ (s ++ tail))) as [s'|] eqn:E.
    + apply strip_prefix_spec in E.
      assert (s' = (s ++ tail)%string) as ->.
      { clear - E. induction lit as [|a lit IHl]; simpl in E; [congruence|].
        injection E as E. apply IHl. exact E. }
      apply IH.
    + exfalso. assert (Some (s ++ tail)%string = None) as [=].
      rewrite <- E. symmetry. apply strip_prefix_spec. reflexivity.
  - rewrite append_assoc, (span_not_app c g _ Hfree).
    destruct (span_not_spec c (s ++ tail)) as [Hs _].
    destruct (span_not c (s ++ tail)) as [g2 rest]. cbn [fst snd] in *.
    apply first_some_exists with (x := (g, g2)).
    + apply cuts_spec. reflexivity.
    + cbn [fst snd]. apply Nat.leb_le in Hn. rewrite Hn. rewrite <- Hs.
      specialize (IH tail). destruct (match_here p (s ++ tail)) as [[gs' t]|];
        [discriminate | contradiction].
Qed.

(** A search that finds groups has found a text of the shape of the
    pattern with these groups. *)
Lemma re_search_sound (p : list token) (s : string) (groups : list string) :
  re_search p s = Some groups ->
  exists pre text tail, matches p groups text /\ s = (pre ++ text ++ tail)%string.
Proof.
  induction s as [|a s IH]; cbn [re_search].
  - destruct (match_here p "") as [[gs t]|] eqn:E; [|discriminate].
    intros [= <-]. destruct (match_here_sound _ _ _ _ E) as (text & Hm & Hs).
    exists "", text, t. split; assumption.
  - destruct (match_here p (String a s)) as [[gs t]|] eqn:E.
    + intros [= <-]. destruct (match_here_sound _ _ _ _ E) as (text & Hm & Hs).
      exists "", text, t. split; assumption.
    + intros H. destruct (IH H) as (pre & text & tail & Hm & ->).
      exists (String a pre), text, tail. split; [exact Hm | reflexivity].
Qed.

(** [re.search] finds nothing exactly in the texts that hold no text of the
    shape of the pattern. *)
Lemma re_search_none (p : list token) (s : string) :
  re_search p s = None <-> ~ has_match p s.
Proof.
  unfold has_match. split.
  - intros Hnone (pre & groups & text & tail & Hm & ->).
    induction pre as [|a pre IH]; cbn [append re_search] in Hnone.
    + pose proof (match_here_complete p groups text tail Hm) as Hc.
      destruct (text ++ tail)%string; cbn [re_search] in Hnone;
        destruct (match_here p _) as [[gs t]|]; congruence.
    + destruct (match_here p (String a (pre ++ text ++ tail))) as [[gs t]|];
        [discriminate | apply IH; exact Hnone].
  - intros Hno. destruct (re_search p s) as [groups|] eqn:E; [|reflexivity].
    exfalso. apply Hno. destruct (re_search_sound _ _ _ E) as (pre & text & tail & Hm & Hs).
    exists pre, groups, text, tail. split; assumption.
Qed.

(** ** The shape of an upload endpoint *)


(** A match of the endpoint pattern has one group, of at least one
    character: the hostname. *)
Lemma match_upload_group (s : string) (groups : list string) (tail : string) :
  match_here upload_re s = Some (groups, tail) ->
  exists h, groups = [h] /\ h <> "".
Proof.
  unfold upload_re. cbn [match_here].
  destruct (strip_prefix "http://" s) as [s'|]; [|discriminate].
  destruct (span_not "/" s') as [run rest].
  intros H. apply first_some_found in H. destruct H as (cut & _ & H).
  destruct (1 <=? String.length (fst cut))%nat eqn:Hlen; [|discriminate].
  destruct (strip_prefix "/speedtest/upload.php" (snd cut ++ rest)); [|discriminate].
  injection H as <- _. exists (fst cut). split; [reflexivity|].
  intros E. rewrite E in Hlen. discriminate.
Qed.

Lemma re_search_upload_group (url : string) (groups : list string) :
  re_search upload_re url = Some groups ->
  exists h, groups = [h] /\ h <> "".
Proof.
  induction url as [|c url IH]; cbn [re_search].
  - destruct (match_here upload_re "") as [[g t]|] eqn:E; [|discriminate].
    intros [= <-]. eapply match_upload_group. exact E.
  - destruct (match_here upload_re (String c url)) as [[g t]|] eqn:E.
    + intros [= <-]. eapply match_upload_group. exact E.
    + exact IH.
Qed.

Lemma upload_host_some (url h : string) :
  upload_host url = Some h <-> re_search upload_re url = Some [h].
Proof.
  unfold upload_host. destruct (re_search upload_re url) as [groups|] eqn:E.
  - destruct (re_search_upload_group _ _ E) as (h' & -> & _).
    split; intros [= ->]; reflexivity.
  - split; discriminate.
Qed.

Lemma upload_host_none (url : string) :
  upload_host url = None <-> re_search upload_re url = None.
Proof.
  unfold upload_host. destruct (re_search upload_re url) as [groups|] eqn:E.
  - destruct (re_search_upload_group _ _ E) as (h' & -> & _).
    split; discriminate.
  - split; reflexivity.
Qed.

Lemma upload_host_not_empty (url h : string) :
  upload_host url = Some h -> h <> "".
Proof.
  intros H. apply upload_host_some in H.
  destruct (re_search_upload_group _ _ H) as (h' & [= ->] & Hne). exact Hne.
Qed.

(** The url of a candidate that is probed holds the text of an upload
    endpoint: http://, the hostname, of at least one character and without
    a slash, and the path /speedtest/upload.php. *)
Lemma upload_host_shape (url h : string) :
  upload_host url = Some h ->
  h <> "" /\ has_char "/" h = false /\
  exists pre tail,
    url = (pre ++ "http://" ++ h ++ "/speedtest/upload.php" ++ tail)%string.
Proof.
  intros H. split; [eapply upload_host_not_empty; exact H|].
  apply upload_host_some in H.
  destruct (re_search_sound _ _ _ H) as (pre & text & tail & Hm & ->).
  unfold upload_re in Hm.
  inversion Hm as [|lit p gs s1 H1|]; subst.
  inversion H1 as [| |c n p g gs s2 Hn Hfree H2]; subst.
  inversion H2 as [|lit p gs s3 H3|]; subst.
  inversion H3; subst.
  split; [exact Hfree|]. exists pre, tail.
  rewrite append_empty_r, !append_assoc. reflexivity.
Qed.

(** A url that holds the text of an upload endpoint is not skipped. *)
Lemma upload_host_of_shape (pre h tail : string) :
  h <> "" -> has_char "/" h = false ->
  upload_host (pre ++ "http://" ++ h ++ "/speedtest/upload.php" ++ tail) <> None.
Proof.
  intros Hne Hfree Hnone. apply upload_host_none in Hnone.
  apply re_search_none in Hnone. apply Hnone.
  exists pre, [h], ("http://" ++ h ++ "/speedtest/upload.php")%string, tail.
  split.
  - unfold upload_re. constructor.
    rewrite <- (append_empty_r "/speedtest/upload.php") at 1.
    constructor; [destruct h; [contradiction | simpl; lia] | exact Hfree |].
    rewrite <- (append_empty_r "/speedtest/upload.php").
    constructor. constructor.
  - rewrite !append_assoc. reflexivity.
Qed.

(** ** The choice among the probes *)

(** [best_server] either keeps its start value, no probe being below it, or
    ends on the first of the probes of least latency. *)
Lemma select_first_min (probes : list (string * Q)) (b : Q) (h0 : string) :
  (select probes (b, h0) = (b, h0) /\ forall p, In p probes -> b <= snd p) \/
  (exists pre h l post,
      probes = (pre ++ (h, l) :: post)%list /\
      l < b /\
      (forall p, In p pre -> l < snd p) /\
      (forall p, In p post -> l <= snd p) /\
      select probes (b, h0) = (l, h)).
Proof.
  revert b h0. induction probes as [|[h1 l1] rest IH]; intros b h0.
  - left. split; [reflexivity | intros p []].
  - unfold select. simpl. fold (select rest).
    destruct (Qltb l1 b) eqn:E.
    + apply Qltb_lt in E. right.
      destruct (IH l1 h1) as [(Hs & Hall)|(pre & h & l & post & -> & Hl & Hpre & Hpost & Hs)].
      * exists [], h1, l1, rest. simpl.
        split; [reflexivity|]. split; [exact E|]. split; [intros p []|].
        split; [exact Hall | exact Hs].
      * exists ((h1, l1) :: pre), h, l, post. simpl.
        split; [reflexivity|]. split; [eapply Qlt_trans; eassumption|].
        split; [|split; [exact Hpost | exact Hs]].
        intros p [<-|Hp]; [exact Hl | apply Hpre; exact Hp].
    + apply Qltb_ge in E.
      destruct (IH b h0) as [(Hs & Hall)|(pre & h & l & post & -> & Hl & Hpre & Hpost & Hs)].
      * left. split; [exact Hs|]. intros p [<-|Hp]; [exact E | apply Hall; exact Hp].
      * right. exists ((h1, l1) :: pre), h, l, post. simpl.
        split; [reflexivity|]. split; [exact Hl|].
        split; [|split; [exact Hpost | exact Hs]].
        intros p [<-|Hp]; [eapply Qlt_le_trans; eassumption | apply Hpre; exact Hp].
Qed.

(** ** The probes of chooseserver *)

Lemma latencies_app (l1 l2 : list record) :
  latencies (l1 ++ l2) = (latencies l1 ++ latencies l2)%list.
Proof. unfold latencies. apply flat_map_app. Qed.

Section ProbeProperties.

Variable W : world.

Lemma samples_not_negative (t n : nat) :
  clock_monotone W -> forall x, In x (samples_from W t n) -> 0 <= x.
Proof.
  intros Hm. revert t. induction n as [|n IH]; intros t x; simpl; [intros []|].
  intros [<-|Hx]; [|eapply IH; exact Hx].
  pose proof (Hm t). lra.
Qed.

(** With a clock that never runs backwards, the ping of a named, reachable
    server returns a latency and logs it. *)
Lemma ping_with_ok (self_host : M (option string)) (server : string) (s : state) :
  server <> "" ->
  reachable W server = true ->
  clock_monotone W ->
  exists latency : Q,
    ping_with W self_host (Some server) s =
    (Ok latency,
     mkState (self s) (10 + ticks s) (S (opened s))
             (log s ++ [Latency server latency])%list
             (sent s ++ latency_requests server (opened s))%list).
Proof.
  intros Hs Hr Hm. rewrite ping_with_run by assumption.
  assert (Hex : Exists (fun t => 0 <= t) (samples W (ticks s))).
  { apply Exists_cons_hd. apply (samples_not_negative (ticks s) 5 Hm). left. reflexivity. }
  destruct (worst_of_max _ Hex) as (_ & Hin).
  destruct (remove_first _ _ Hin) as (l1 & y & l2 & _ & _ & _ & Hrem).
  rewrite Hrem. eexists. reflexivity.
Qed.

(** Whatever happens, a ping adds at most one latency to the log. *)
Lemma ping_with_log (server : string) (s : state) :
  (length (latencies (log (snd (ping_with W (ret None) (Some server) s))))
   <= S (length (latencies (log s))))%nat.
Proof.
  destruct server as [|c server].
  - cbn. lia.
  - destruct (reachable W (String c server)) eqn:Hr.
    + rewrite ping_with_run by (assumption || discriminate).
      destruct (remove _ _); cbn [snd log].
      * rewrite latencies_app, length_app. simpl. lia.
      * lia.
    + unfold ping_with. cbn [falsy]. unfold bind at 1. unfold ret at 1.
      unfold bind at 1. unfold connect. rewrite Hr. cbn. lia.
Qed.

Lemma probe_loop_cons (server : root * string) (l : list (root * string))
    (best : Q * string) (s : state) :
  probe_loop W (server :: l) best s =
  match re_search upload_re (snd server) with
  | None =>
      probe_loop W l best
        (mkState (self s) (ticks s) (opened s) (log s ++ [Candidate (snd server)])%list
                 (sent s))
  | Some groups =>
      match item groups 0 with
      | Ok server_host =>
          match ping_with W (ret None) (Some server_host)
                  (mkState (self s) (ticks s) (opened s)
                           (log s ++ [Candidate (snd server)])%list (sent s)) with
          | (Ok latency, s') =>
              probe_loop W l
                (if Qltb latency (fst best) then (latency, server_host) else best) s'
          | (Raise e, s') => (Raise e, s')
          end
      | Raise e =>
          (Raise e,
           mkState (self s) (ticks s) (opened s) (log s ++ [Candidate (snd server)])%list
                   (sent s))
      end
  end.
Proof.
  unfold probe_loop. cbn [for_each]. unfold bind at 1. unfold bind at 1.
  unfold logging_info at 1.
  destruct (re_search upload_re (snd server)) as [groups|]; [|reflexivity].
  unfold bind at 1. unfold lift at 1.
  destruct (item groups 0) as [server_host|e]; [|reflexivity].
  unfold bind at 1.
  destruct (ping_with W (ret None) (Some server_host) _) as [[latency|e] s'];
    reflexivity.
Qed.

(** The probes of a run where every ping goes well: one for each candidate
    with the shape of an upload endpoint, in the order of the candidates;
    [best_server] is chosen among them and the log tells their
    latencies. *)
Lemma probe_loop_run (l : list (root * string)) (best : Q * string) (s : state) :
  clock_monotone W ->
  (forall url h, In url (map snd l) -> upload_host url = Some h -> reachable W h = true) ->
  exists (probes : list (string * Q)) (s' : state),
    probe_loop W l best s = (Ok (select probes best), s') /\
    map fst probes = upload_hosts (map snd l) /\
    latencies (log s') = (latencies (log s) ++ probes)%list.
Proof.
  intros Hm. revert best s. induction l as [|[d url] l IH]; intros best s Hr.
  - exists [], s. split; [reflexivity|]. split; [reflexivity|].
    rewrite app_nil_r. reflexivity.
  - rewrite probe_loop_cons. cbn [snd map upload_hosts flat_map].
    fold (upload_hosts (map snd l)).
    assert (Hr' : forall url h, In url (map snd l) -> upload_host url = Some h ->
                                reachable W h = true).
    { intros u h Hu. apply Hr. right. exact Hu. }
    destruct (upload_host url) as [h|] eqn:Hu.
    + pose proof (upload_host_not_empty _ _ Hu) as Hne.
      pose proof (Hr url h (or_introl eq_refl) Hu) as Hreach.
      apply upload_host_some in Hu. rewrite Hu. cbn [item nth_error].
      destruct (ping_with_ok (ret None) h
                  (mkState (self s) (ticks s) (opened s) (log s ++ [Candidate url])%list
                           (sent s))
                  Hne Hreach Hm) as (latency & Hp).
      rewrite Hp. cbn [self ticks opened log sent].
      destruct (IH (if Qltb latency (fst best) then (latency, h) else best)
                   (mkState (self s) (10 + ticks s) (S (opened s))
                            ((log s ++ [Candidate url]) ++ [Latency h latency])%list
                            (sent s ++ latency_requests h (opened s))%list) Hr')
        as (probes & s' & Hloop & Hhosts & Hlog).
      exists ((h, latency) :: probes), s'.
      split; [rewrite Hloop; reflexivity|]. split.
      * simpl. rewrite Hhosts. reflexivity.
      * rewrite Hlog. cbn [log]. rewrite !latencies_app. simpl.
        rewrite app_nil_r, <- app_assoc. reflexivity.
    + apply upload_host_none in Hu. rewrite Hu.
      destruct (IH best
                   (mkState (self s) (ticks s) (opened s) (log s ++ [Candidate url])%list
                            (sent s)) Hr')
        as (probes & s' & Hloop & Hhosts & Hlog).
      exists probes, s'. split; [exact Hloop|]. split; [exact Hhosts|].
      rewrite Hlog. cbn [log]. rewrite latencies_app. simpl.
      rewrite app_nil_r. reflexivity.
Qed.

(** Whatever happens, the loop adds at most one latency for each
    candidate. *)
Lemma probe_loop_bound (l : list (root * string)) (best : Q * string) (s : state) :
  (length (latencies (log (snd (probe_loop W l best s))))
   <= length (latencies (log s)) + length l)%nat.
Proof.
  revert best s. induction l as [|[d url] l IH]; intros best s.
  - cbn. lia.
  - rewrite probe_loop_cons. cbn [snd].
    set (s1 := mkState (self s) (ticks s) (opened s) (log s ++ [Candidate url])%list
                       (sent s)).
    assert (H1 : latencies (log s1) = latencies (log s)).
    { unfold s1. cbn [log]. rewrite latencies_app. simpl. apply app_nil_r. }
    destruct (re_search upload_re url) as [groups|].
    + destruct (item groups 0) as [h|e].
      * pose proof (ping_with_log h s1) as Hp.
        destruct (ping_with W (ret None) (Some h) s1) as [[latency|e] s2]; cbn [snd] in *.
        -- specialize (IH (if Qltb latency (fst best) then (latency, h) else best) s2).
           rewrite H1 in Hp. simpl length. lia.
        -- rewrite H1 in Hp. simpl length. lia.
      * cbn [snd]. rewrite H1. lia.
    + specialize (IH best s1). rewrite H1 in IH. simpl length. lia.
Qed.

End ProbeProperties.

(** ** chooseserver *)

Section SelectionProperties.

Variable float : string -> option Q.
Variable W : world.

(** The first loop changes nothing in the state: it is [rank]. *)
Lemma rank_loop (location : list string) (server_list : list (list string))
    (sorted : list (root * string)) (s : state) :
  for_each server_list
    (fun sorted_server_list server =>
       distance <- lift (calc_distance float location server) ;;
       url <- lift (item server 0) ;;
       ret (insort_left sorted_server_list (distance, url)))
    sorted s
  = (rank float location server_list sorted, s).
Proof.
  revert sorted. induction server_list as [|server rest IH]; intros sorted.
  - reflexivity.
  - cbn [for_each rank]. unfold bind at 1. unfold bind at 1. unfold lift at 1.
    destruct (calc_distance float location server) as [distance|e]; [|reflexivity].
    cbn [and_then]. unfold bind at 1. unfold lift at 1.
    destruct (item server 0) as [url|e]; [|reflexivity].
    cbn [and_then]. unfold ret at 1. apply IH.
Qed.

(** chooseserver, step by step. *)
Lemma chooseserver_steps (s : state) :
  chooseserver float W s =
  if reachable W "www.speedtest.net" then
    match re_search client_re (config_reply W) with
    | None =>
        (Ok None,
         mkState (self s) (S (ticks s)) (S (opened s)) (log s ++ [FailedCoordinates])%list
                 (sent s ++ [config_request W (opened s) (ticks s)])%list)
    | Some location =>
        let s1 := mkState (self s) (S (ticks s)) (S (opened s))
                          (log s ++ [YourLocation location])%list
                          (sent s ++ [config_request W (opened s) (ticks s);
                                      servers_request W (opened s) (ticks s)])%list in
        match rank float location (re_findall server_re (servers_reply W)) [] with
        | Raise e => (Raise e, s1)
        | Ok sorted_server_list =>
            match probe_loop W (firstn 10 sorted_server_list) (999999, "") s1 with
            | (Ok best_server, s2) =>
                if falsy (Some (snd best_server)) then (Raise NoServerFound, s2)
                else (Ok (Some (snd best_server)),
                      mkState (self s2) (ticks s2) (opened s2)
                              (log s2 ++ [BestServer (snd best_server)])%list (sent s2))
            | (Raise e, s2) => (Raise e, s2)
            end
        end
    end
  else (Raise (ConnectError (Some "www.speedtest.net")), s).
Proof.
  unfold chooseserver. unfold bind at 1. unfold connect.
  destruct (reachable W "www.speedtest.net"); [|reflexivity].
  unfold bind at 1. unfold time at 1. cbn [self ticks opened log sent]. cbv zeta.
  unfold bind at 1. unfold request at 1. cbn [self ticks opened log sent].
  fold (config_request W (opened s) (ticks s)).
  destruct (re_search client_re (config_reply W)) as [location|]; [|reflexivity].
  unfold bind at 1. unfold logging_info at 1. cbn [self ticks opened log sent].
  unfold bind at 1. unfold request at 1. cbn [self ticks opened log sent].
  fold (servers_request W (opened s) (ticks s)). rewrite <- app_assoc. cbn [app].
  unfold bind at 1. rewrite rank_loop.
  destruct (rank float location (re_findall server_re (servers_reply W)) [])
    as [sorted|e]; [|reflexivity].
  unfold bind at 1. fold (probe_loop W (firstn 10 sorted) (999999, "")).
  cbv zeta.
  destruct (probe_loop W (firstn 10 sorted) (999999, "") _) as [[best|e] s2];
    [|reflexivity].
  destruct (falsy (Some (snd best))); reflexivity.
Qed.

End SelectionProperties.

(** ** The order of the candidates *)

Lemma ascii_compare_lt (a b : ascii) :
  Ascii.compare a b = Lt <-> (N_of_ascii a < N_of_ascii b)%N.
Proof. unfold Ascii.compare. apply N.compare_lt_iff. Qed.

Lemma string_lt_trans (a b c : string) :
  (a ?= b)%string = Lt -> (b ?= c)%string = Lt -> (a ?= c)%string = Lt.
Proof.
  revert b c. induction a as [|x a IH]; intros [|y b] [|z c]; simpl;
    try discriminate; try reflexivity.
  destruct (Ascii.compare x y) eqn:Exy; try discriminate;
    destruct (Ascii.compare y z) eqn:Eyz; try discriminate; intros H1 H2.
  - apply Ascii.compare_eq_iff in Exy, Eyz. subst.
    replace (Ascii.compare z z) with Eq
      by (symmetry; unfold Ascii.compare; apply N.compare_refl).
    eapply IH; eassumption.
  - apply Ascii.compare_eq_iff in Exy. subst. rewrite Eyz. reflexivity.
  - apply Ascii.compare_eq_iff in Eyz. subst. rewrite Exy. reflexivity.
  - apply (proj1 (ascii_compare_lt _ _)) in Exy.
    apply (proj1 (ascii_compare_lt _ _)) in Eyz.
    replace (Ascii.compare x z) with Lt; [reflexivity|].
    symmetry. apply ascii_compare_lt. lia.
Qed.

Lemma string_ltb_asym (a b : string) :
  String.ltb a b = true -> String.ltb b a = false.
Proof.
  unfold String.ltb. rewrite (String.compare_antisym b a).
  destruct (a ?= b)%string; simpl; congruence.
Qed.

Lemma string_le_trans (a b c : string) :
  String.ltb b a = false -> String.ltb c b = false -> String.ltb c a = false.
Proof.
  unfold String.ltb.
  rewrite (String.compare_antisym b a), (String.compare_antisym c b),
          (String.compare_antisym c a).
  destruct (a ?= b)%string eqn:Eab; simpl; try discriminate; intros _;
    destruct (b ?= c)%string eqn:Ebc; simpl; try discriminate; intros _.
  - apply String.compare_eq_iff in Eab, Ebc. subst.
    destruct (c ?= c)%string eqn:E; try reflexivity.
    pose proof (String.compare_antisym c c) as A. rewrite E in A. discriminate A.
  - apply String.compare_eq_iff in Eab. subst. rewrite Ebc. reflexivity.
  - apply String.compare_eq_iff in Ebc. subst. rewrite Eab. reflexivity.
  - rewrite (string_lt_trans _ _ _ Eab Ebc). reflexivity.
Qed.

Ltac order_cases :=
  repeat match goal with
    | H : Qeq_bool _ _ = true |- _ => apply Qeq_bool_eq in H
    | H : Qeq_bool _ _ = false |- _ => apply Qeq_bool_neq in H
    | H : Qltb _ _ = true |- _ => apply Qltb_lt in H
    | H : Qltb _ _ = false |- _ => apply Qltb_ge in H
    end.

Lemma tuple_ltb_asym (a b : root * string) :
  tuple_ltb a b = true -> tuple_le a b.
Proof.
  unfold tuple_le, tuple_ltb, root_eqb, root_ltb.
  destruct (Qeq_bool (radicand (fst a)) (radicand (fst b))) eqn:E1;
    destruct (Qeq_bool (radicand (fst b)) (radicand (fst a))) eqn:E2;
    intros H; order_cases.
  - apply string_ltb_asym. exact H.
  - exfalso. apply E2. symmetry. exact E1.
  - exfalso. apply E1. symmetry. exact E2.
  - apply Qltb_ge. apply Qlt_le_weak. exact H.
Qed.

Lemma tuple_le_trans (a b c : root * string) :
  tuple_le a b -> tuple_le b c -> tuple_le a c.
Proof.
  unfold tuple_le, tuple_ltb, root_eqb, root_ltb.
  destruct (Qeq_bool (radicand (fst b)) (radicand (fst a))) eqn:E1;
    destruct (Qeq_bool (radicand (fst c)) (radicand (fst b))) eqn:E2;
    destruct (Qeq_bool (radicand (fst c)) (radicand (fst a))) eqn:E3;
    intros H1 H2; order_cases;
    first [ eapply string_le_trans; eassumption
          | apply Qltb_ge; lra
          | match goal with H : ~ _ == _ |- _ => exfalso; apply H; lra end ].
Qed.

Lemma insort_left_perm (a : list (root * string)) (x : root * string) :
  Permutation (insort_left a x) (x :: a).
Proof.
  induction a as [|y a IH]; simpl; [reflexivity|].
  destruct (tuple_ltb y x); [|reflexivity].
  rewrite IH. apply perm_swap.
Qed.

(** [insort_left] keeps a sorted list sorted. *)
Lemma insort_left_sorted (a : list (root * string)) (x : root * string) :
  StronglySorted tuple_le a -> StronglySorted tuple_le (insort_left a x).
Proof.
  induction 1 as [|y a Hs IH Hall]; simpl.
  - constructor; constructor.
  - destruct (tuple_ltb y x) eqn:E.
    + constructor; [exact IH|].
      rewrite insort_left_perm.
      constructor; [apply tuple_ltb_asym; exact E | exact Hall].
    + constructor; [constructor; assumption|].
      constructor; [exact E|].
      eapply Forall_impl; [|exact Hall].
      intros z Hz. eapply tuple_le_trans; [exact E | exact Hz].
Qed.

(** The sorted list of chooseserver holds the key of every server of the
    list, in ascending order of distance (then url). *)
Lemma rank_sorted (float : string -> option Q) (location : list string)
    (server_list : list (list string)) (acc sorted : list (root * string)) :
  rank float location server_list acc = Ok sorted ->
  StronglySorted tuple_le acc ->
  StronglySorted tuple_le sorted /\
  exists keys,
    Forall2 (scored float location) server_list keys /\
    Permutation sorted (keys ++ acc).
Proof.
  revert acc. induction server_list as [|server rest IH]; intros acc; cbn [rank].
  - intros [= <-] Hs. split; [exact Hs|]. exists []. split; [constructor | reflexivity].
  - destruct (calc_distance float location server) as [d|] eqn:Ed; [|discriminate].
    cbn [and_then]. destruct (item server 0) as [url|] eqn:Eu; [|discriminate].
    cbn [and_then]. intros H Hs.
    destruct (IH _ H (insort_left_sorted _ (d, url) Hs)) as (Hsorted & keys & Hk & Hp).
    split; [exact Hsorted|]. exists ((d, url) :: keys). split.
    + constructor; [split; assumption | exact Hk].
    + rewrite Hp. rewrite insort_left_perm. simpl.
      symmetry. apply Permutation_middle.
Qed.

Lemma rank_length (float : string -> option Q) (location : list string)
    (server_list : list (list string)) (sorted : list (root * string)) :
  rank float location server_list [] = Ok sorted ->
  length sorted = length server_list.
Proof.
  intros H. destruct (rank_sorted _ _ _ _ _ H (SSorted_nil _)) as (_ & keys & Hk & Hp).
  rewrite (Permutation_length Hp), app_nil_r. symmetry.
  eapply Forall2_length. exact Hk.
Qed.

Lemma upload_hosts_not_empty (urls : list string) (h : string) :
  In h (upload_hosts urls) -> h <> "".
Proof.
  unfold upload_hosts. rewrite in_flat_map. intros (url & _ & Hh).
  destruct (upload_host url) as [h'|] eqn:E; [|destruct Hh].
  destruct Hh as [<-|[]]. eapply upload_host_not_empty. exact E.
Qed.

Section SelectionTheorems.

Variable float : string -> option Q.
Variable W : world.

(** A run of chooseserver where the directory answers as expected and
    every ping goes well: the probes are those of the candidates with the
    shape of an upload endpoint among the first 10 of the sorted list; the
    run ends on the first probe of least latency when that latency is below
    999999, and on the exception otherwise. *)
Lemma chooseserver_run (s : state) (location : list string)
    (sorted : list (root * string)) :
  reachable W "www.speedtest.net" = true ->
  re_search client_re (config_reply W) = Some location ->
  rank float location (re_findall server_re (servers_reply W)) [] = Ok sorted ->
  (forall url h, In url (map snd (firstn 10 sorted)) ->
                 upload_host url = Some h -> reachable W h = true) ->
  clock_monotone W ->
  exists probes : list (string * Q),
    latencies (log (snd (chooseserver float W s))) = (latencies (log s) ++ probes)%list /\
    map fst probes = upload_hosts (map snd (firstn 10 sorted)) /\
    ((fst (chooseserver float W s) = Raise NoServerFound /\
      forall p, In p probes -> 999999 <= snd p)
     \/
     (exists pre h l post,
         probes = (pre ++ (h, l) :: post)%list /\
         l < 999999 /\
         (forall p, In p pre -> l < snd p) /\
         (forall p, In p post -> l <= snd p) /\
         fst (chooseserver float W s) = Ok (Some h))).
Proof.
  intros Hdir Hloc Hrank Hreach Hm.
  rewrite chooseserver_steps, Hdir, Hloc, Hrank. cbv zeta.
  set (s1 := mkState (self s) (S (ticks s)) (S (opened s))
                     (log s ++ [YourLocation location])%list
                     (sent s ++ [config_request W (opened s) (ticks s);
                                 servers_request W (opened s) (ticks s)])%list).
  destruct (probe_loop_run W (firstn 10 sorted) (999999, "") s1 Hm Hreach)
    as (probes & s2 & Hloop & Hhosts & Hlog).
  assert (Hlog1 : latencies (log s1) = latencies (log s)).
  { unfold s1. cbn [log]. rewrite latencies_app. simpl. apply app_nil_r. }
  rewrite Hlog1 in Hlog. rewrite Hloop.
  exists probes.
  destruct (select_first_min probes 999999 "")
    as [(Hsel & Hall)|(pre & h & l & post & Hsplit & Hl & Hpre & Hpost & Hsel)];
    rewrite Hsel; cbn [snd].
  - cbn [falsy fst snd]. split; [exact Hlog|]. split; [exact Hhosts|].
    left. split; [reflexivity | exact Hall].
  - assert (Hne : h <> "").
    { apply (upload_hosts_not_empty (map snd (firstn 10 sorted))).
      rewrite <- Hhosts, Hsplit, map_app. apply in_or_app. right. left. reflexivity. }
    assert (Hf : falsy (Some h) = false) by (destruct h; [contradiction | reflexivity]).
    rewrite Hf. cbn [fst snd log]. split.
    + rewrite latencies_app, Hlog. simpl. apply app_nil_r.
    + split; [exact Hhosts|]. right. exists pre, h, l, post.
      repeat (split; [assumption|]). reflexivity.
Qed.

(** C2, as the code has it: when the directory answers as expected and
    every ping goes well, chooseserver returns the hostname of the first
    probed candidate of least latency, provided that latency is below
    999999; it raises the no-server exception exactly when no probe is
    below 999999, which is so when no candidate was probed. *)
Theorem chooseserver_first_minimum (s : state) (location : list string)
    (sorted : list (root * string)) :
  reachable W "www.speedtest.net" = true ->
  re_search client_re (config_reply W) = Some location ->
  rank float location (re_findall server_re (servers_reply W)) [] = Ok sorted ->
  (forall url h, In url (map snd (firstn 10 sorted)) ->
                 upload_host url = Some h -> reachable W h = true) ->
  clock_monotone W ->
  exists probes : list (string * Q),
    latencies (log (snd (chooseserver float W s))) = (latencies (log s) ++ probes)%list /\
    map fst probes = upload_hosts (map snd (firstn 10 sorted)) /\
    (fst (chooseserver float W s) = Raise NoServerFound <->
     forall p, In p probes -> 999999 <= snd p) /\
    ((exists p, In p probes /\ snd p < 999999) ->
     exists pre h l post,
       probes = (pre ++ (h, l) :: post)%list /\
       (forall p, In p pre -> l < snd p) /\
       (forall p, In p post -> l <= snd p) /\
       fst (chooseserver float W s) = Ok (Some h)).
Proof.
  intros Hdir Hloc Hrank Hreach Hm.
  destruct (chooseserver_run s location sorted Hdir Hloc Hrank Hreach Hm)
    as (probes & Hlog & Hhosts & Hcases).
  exists probes. split; [exact Hlog|]. split; [exact Hhosts|].
  destruct Hcases as [(Hres & Hall)|(pre & h & l & post & Hsplit & Hl & Hpre & Hpost & Hres)].
  - split.
    + split; [intros _; exact Hall | intros _; exact Hres].
    + intros (p & Hp & Hlt). exfalso. apply Hall in Hp. lra.
  - split.
    + rewrite Hres. split; [discriminate|].
      intros Hall. exfalso.
      assert (Hin : In (h, l) probes).
      { rewrite Hsplit. apply in_or_app. right. left. reflexivity. }
      apply Hall in Hin. simpl in Hin. lra.
    + intros _. exists pre, h, l, post. repeat (split; [assumption|]). exact Hres.
Qed.

(** C10: chooseserver commits only to a candidate whose latency is below
    999999: a hostname it returns was probed with a latency below 999999,
    and when every probe measured 999999 or more it raises the no-server
    exception, whether candidates were probed or not. *)
Theorem chooseserver_sentinel (s : state) (location : list string)
    (sorted : list (root * string)) :
  reachable W "www.speedtest.net" = true ->
  re_search client_re (config_reply W) = Some location ->
  rank float location (re_findall server_re (servers_reply W)) [] = Ok sorted ->
  (forall url h, In url (map snd (firstn 10 sorted)) ->
                 upload_host url = Some h -> reachable W h = true) ->
  clock_monotone W ->
  exists probes : list (string * Q),
    latencies (log (snd (chooseserver float W s))) = (latencies (log s) ++ probes)%list /\
    (forall h, fst (chooseserver float W s) = Ok (Some h) ->
               exists l, In (h, l) probes /\ l < 999999) /\
    ((forall p, In p probes -> 999999 <= snd p) ->
     fst (chooseserver float W s) = Raise NoServerFound).
Proof.
  intros Hdir Hloc Hrank Hreach Hm.
  destruct (chooseserver_run s location sorted Hdir Hloc Hrank Hreach Hm)
    as (probes & Hlog & Hhosts & Hcases).
  exists probes. split; [exact Hlog|].
  destruct Hcases as [(Hres & Hall)|(pre & h & l & post & Hsplit & Hl & Hpre & Hpost & Hres)].
  - split.
    + intros h Hh. rewrite Hres in Hh. discriminate.
    + intros _. exact Hres.
  - assert (Hin : In (h, l) probes).
    { rewrite Hsplit. apply in_or_app. right. left. reflexivity. }
    split.
    + intros h' Hh. rewrite Hres in Hh. injection Hh as <-. exists l. split; assumption.
    + intros Hall. exfalso. apply Hall in Hin. simpl in Hin. lra.
Qed.


(** Whatever happens, chooseserver adds at most 10 latencies to the
    log. *)
Lemma chooseserver_bound (s : state) :
  (length (latencies (log (snd (chooseserver float W s))))
   <= length (latencies (log s)) + 10)%nat.
Proof.
  rewrite chooseserver_steps.
  destruct (reachable W "www.speedtest.net"); [|cbn [snd]; lia].
  destruct (re_search client_re (config_reply W)) as [location|].
  - cbv zeta.
    set (s1 := mkState (self s) (S (ticks s)) (S (opened s))
                       (log s ++ [YourLocation location])%list
                       (sent s ++ [config_request W (opened s) (ticks s);
                                   servers_request W (opened s) (ticks s)])%list).
    assert (Hlog1 : latencies (log s1) = latencies (log s)).
    { unfold s1. cbn [log]. rewrite latencies_app. simpl. apply app_nil_r. }
    destruct (rank float location (re_findall server_re (servers_reply W)) [])
      as [sorted|e].
    + pose proof (probe_loop_bound W (firstn 10 sorted) (999999, "") s1) as Hb.
      pose proof (firstn_le_length 10 sorted) as Hlen.
      rewrite Hlog1 in Hb.
      destruct (probe_loop W (firstn 10 sorted) (999999, "") s1) as [[best|e] s2];
        cbn [snd] in *.
      * destruct (falsy (Some (snd best))); cbn [snd log].
        -- lia.
        -- rewrite latencies_app, length_app. simpl. lia.
      * lia.
    + cbn [snd]. rewrite Hlog1. lia.
  - cbn [snd log]. rewrite latencies_app, length_app. simpl. lia.
Qed.

(** C3, as the code has it: chooseserver takes the 10 nearest candidates
    first and then skips, among them, those whose url has not the shape of
    an upload endpoint: the skipped ones are not probed, but they hold
    places among the 10. So no run probes more than 10 candidates; when the
    directory answers as expected and every ping goes well, the candidates
    probed are exactly those with the shape among the first 10 of the list
    sorted by distance, and all those with the shape when the list has at
    most 10 candidates. *)
Theorem chooseserver_probes_nearest_ten (s : state) :
  (length (latencies (log (snd (chooseserver float W s))))
   <= length (latencies (log s)) + 10)%nat /\
  forall (location : list string) (sorted : list (root * string)),
    reachable W "www.speedtest.net" = true ->
    re_search client_re (config_reply W) = Some location ->
    rank float location (re_findall server_re (servers_reply W)) [] = Ok sorted ->
    (forall url h, In url (map snd (firstn 10 sorted)) ->
                   upload_host url = Some h -> reachable W h = true) ->
    clock_monotone W ->
    StronglySorted tuple_le sorted /\
    (exists keys,
        Forall2 (scored float location) (re_findall server_re (servers_reply W)) keys /\
        Permutation sorted keys) /\
    exists probes : list (string * Q),
      latencies (log (snd (chooseserver float W s))) = (latencies (log s) ++ probes)%list /\
      map fst probes = upload_hosts (map snd (firstn 10 sorted)) /\
      (length probes <= 10)%nat /\
      ((length (re_findall server_re (servers_reply W)) <= 10)%nat ->
       map fst probes = upload_hosts (map snd sorted)).
Proof.
  split; [apply chooseserver_bound|].
  intros location sorted Hdir Hloc Hrank Hreach Hm.
  destruct (rank_sorted _ _ _ _ _ Hrank (SSorted_nil _)) as (Hsorted & keys & Hkeys & Hperm).
  rewrite app_nil_r in Hperm.
  split; [exact Hsorted|]. split; [exists keys; split; assumption|].
  destruct (chooseserver_run s location sorted Hdir Hloc Hrank Hreach Hm)
    as (probes & Hlog & Hhosts & _).
  exists probes. split; [exact Hlog|]. split; [exact Hhosts|]. split.
  - pose proof (chooseserver_bound s) as Hb. rewrite Hlog, length_app in Hb. lia.
  - intros Hlen. rewrite Hhosts. rewrite firstn_all2; [reflexivity|].
    rewrite (rank_length _ _ _ _ Hrank). exact Hlen.
Qed.

End SelectionTheorems.

(** ** Runs on the test doubles *)

Lemma sum_not_negative (l : list Q) : Forall (fun x => 0 <= x) l -> 0 <= sum l.
Proof.
  induction 1 as [|x l Hx _ IH]; [apply Qle_refl|].
  rewrite sum_cons. lra.
Qed.

Lemma firstn_succ {A : Type} (n : nat) (l : list A) :
  firstn (S n) l = (firstn n l ++ firstn 1 (skipn n l))%list.
Proof.
  revert l. induction n as [|n IH]; intros [|x l]; try reflexivity.
  change (firstn (S (S n)) (x :: l)) with (x :: firstn (S n) l).
  rewrite IH. reflexivity.
Qed.

(** A clock that moves on by steps that are not negative never runs
    backwards. *)
Lemma clock_steps_monotone (steps : list Q) (n : nat) :
  Forall (fun x => 0 <= x) steps ->
  clock_steps steps n <= clock_steps steps (S n).
Proof.
  intros H. unfold clock_steps. rewrite firstn_succ, sum_app.
  assert (0 <= sum (firstn 1 (skipn n steps))).
  { revert n. induction H as [|x l Hx Hl IH]; intros [|n]; try apply Qle_refl.
    - simpl. rewrite sum_cons. unfold sum. simpl. lra.
    - apply IH. }
  lra.
Qed.

Lemma three_world_monotone : clock_monotone three_world.
Proof.
  intros n. apply clock_steps_monotone.
  repeat constructor; discriminate.
Qed.

Lemma slow_world_monotone : clock_monotone slow_world.
Proof.
  intros n. unfold slow_world. cbn [clock]. rewrite <- Zle_Qle. lia.
Qed.

Lemma chooseserver_first_minimum_witness :
  exists probes : list (string * Q),
    latencies (log (snd (chooseserver decimal_float three_world (start_state None 2))))
      = ([] ++ probes)%list /\
    map fst probes = ["a.example"; "b.example"; "c.example"] /\
    (fst (chooseserver decimal_float three_world (start_state None 2)) = Raise NoServerFound <->
     forall p, In p probes -> 999999 <= snd p) /\
    ((exists p, In p probes /\ snd p < 999999) ->
     exists pre h l post,
       probes = (pre ++ (h, l) :: post)%list /\
       (forall p, In p pre -> l < snd p) /\
       (forall p, In p post -> l <= snd p) /\
       fst (chooseserver decimal_float three_world (start_state None 2)) = Ok (Some h)).
Proof.
  refine (chooseserver_first_minimum decimal_float three_world (start_state None 2)
            ["1.2.3.4"; "10.5"; "20"]
            [(Root 0.0000, "https://x.example/speedtest/upload.php");
             (Root 1.0000, "http://a.example/speedtest/upload.php");
             (Root 4.0000, "http://b.example/speedtest/upload.php");
             (Root 9.0000, "http://c.example/speedtest/upload.php")]
            _ _ _ _ _).
  - reflexivity.
  - vm_compute. reflexivity.
  - vm_compute. reflexivity.
  - intros url h _ _. reflexivity.
  - exact three_world_monotone.
Defined.

Lemma chooseserver_sentinel_witness :
  exists probes : list (string * Q),
    latencies (log (snd (chooseserver decimal_float slow_world (start_state None 2))))
      = ([] ++ probes)%list /\
    (forall h, fst (chooseserver decimal_float slow_world (start_state None 2)) = Ok (Some h) ->
               exists l, In (h, l) probes /\ l < 999999) /\
    ((forall p, In p probes -> 999999 <= snd p) ->
     fst (chooseserver decimal_float slow_world (start_state None 2)) = Raise NoServerFound).
Proof.
  refine (chooseserver_sentinel decimal_float slow_world (start_state None 2)
            ["1.2.3.4"; "10.5"; "20"]
            [(Root 1.0000, "http://slow.example/speedtest/upload.php")]
            _ _ _ _ _).
  - reflexivity.
  - vm_compute. reflexivity.
  - vm_compute. reflexivity.
  - intros url h _ _. reflexivity.
  - exact slow_world_monotone.
Defined.

(** Against C2 as stated: in [slow_world] a candidate has the shape of an
    upload endpoint and is probed, with a latency of 2000000, and
    chooseserver raises the no-server exception all the same. *)
Lemma chooseserver_fails_after_a_probe :
  fst (chooseserver decimal_float slow_world (start_state None 2)) = Raise NoServerFound /\
  latencies (log (snd (chooseserver decimal_float slow_world (start_state None 2))))
    = [("slow.example", 2000000)].
Proof. split; vm_compute; reflexivity. Qed.

Lemma chooseserver_probes_nearest_ten_witness :
  StronglySorted tuple_le
    [(Root 0.0000, "https://x.example/speedtest/upload.php");
     (Root 1.0000, "http://a.example/speedtest/upload.php");
     (Root 4.0000, "http://b.example/speedtest/upload.php");
     (Root 9.0000, "http://c.example/speedtest/upload.php")] /\
  exists probes : list (string * Q),
    latencies (log (snd (chooseserver decimal_float three_world (start_state None 2))))
      = ([] ++ probes)%list /\
    map fst probes = ["a.example"; "b.example"; "c.example"] /\
    (length probes <= 10)%nat.
Proof.
  destruct (proj2 (chooseserver_probes_nearest_ten decimal_float three_world
                     (start_state None 2))
              ["1.2.3.4"; "10.5"; "20"]
              [(Root 0.0000, "https://x.example/speedtest/upload.php");
               (Root 1.0000, "http://a.example/speedtest/upload.php");
               (Root 4.0000, "http://b.example/speedtest/upload.php");
               (Root 9.0000, "http://c.example/speedtest/upload.php")])
    as (Hsorted & _ & probes & Hlog & Hhosts & Hlen & _).
  - reflexivity.
  - vm_compute. reflexivity.
  - vm_compute. reflexivity.
  - intros url h _ _. reflexivity.
  - exact three_world_monotone.
  - split; [exact Hsorted|]. exists probes.
    split; [exact Hlog|]. split; [exact Hhosts | exact Hlen].
Defined.

(** Against C3 as stated: in [crowded_world] one candidate of the list has
    the shape of an upload endpoint, fewer than 10, but the 10 places are
    taken by the nearer candidates without the shape: the good one is not
    probed and no server is found. *)
Lemma chooseserver_leaves_out_a_good_candidate :
  length (re_findall server_re (servers_reply crowded_world)) = 11%nat /\
  upload_hosts (map (fun server => nth 0 server "")
                    (re_findall server_re (servers_reply crowded_world)))
    = ["far.example"] /\
  latencies (log (snd (chooseserver decimal_float crowded_world (start_state None 2)))) = [] /\
  fst (chooseserver decimal_float crowded_world (start_state None 2)) = Raise NoServerFound.
Proof. repeat split; vm_compute; reflexivity. Qed.



(** What follows such a run: the property [host] hands None on, and a ping
    without a server then fails to connect. *)
Example host_after_no_coordinates :
  fst (host decimal_float tie_world (start_state None 2)) = Ok None /\
  fst (ping decimal_float tie_world None (start_state None 2)) = Raise (ConnectError None).
Proof. split; reflexivity. Qed.

(** ** download and upload *)

Section TransferProperties.

Variable float : string -> option Q.
Variable int : string -> option Z.
Variable W : world.

(** With a server set, the property [host] returns it and changes
    nothing. *)
Lemma host_pinned (s : state) (h : string) :
  _host (self s) = Some h -> h <> "" ->
  host float W s = (Ok (Some h), s).
Proof.
  intros Hh Hne. unfold host, bind, get_host. rewrite Hh.
  assert (Hf : falsy (Some h) = false) by (destruct h; [contradiction | reflexivity]).
  rewrite Hf. unfold ret. rewrite Hh. reflexivity.
Qed.

Lemma batch_connections_succ (h : string) (first n : nat) :
  batch_connections h first (S n) =
  mkConnection h first :: batch_connections h (S first) n.
Proof.
  unfold batch_connections, range. cbn [seq map]. rewrite Nat.add_0_r. f_equal.
  rewrite <- seq_shift, map_map. apply map_ext. intros run. f_equal. lia.
Qed.

Lemma batch_connections_length (h : string) (first n : nat) :
  length (batch_connections h first n) = n.
Proof. unfold batch_connections, range. rewrite length_map. apply length_seq. Qed.

Lemma open_loop (h : string) (l : list nat) (acc : list connection) (s : state) :
  _host (self s) = Some h -> h <> "" -> reachable W h = true ->
  for_each l
    (fun connections (_ : nat) =>
       h <- host float W ;;
       c <- connect W h ;;
       ret (connections ++ [c])%list)
    acc s
  = (Ok (acc ++ batch_connections h (opened s) (length l))%list,
     mkState (self s) (ticks s) (opened s + length l) (log s) (sent s)).
Proof.
  intros Hh Hne Hr. revert acc s Hh. induction l as [|x l IH]; intros acc s Hh.
  - cbn. rewrite app_nil_r, Nat.add_0_r. destruct s; reflexivity.
  - cbn [for_each length]. unfold bind at 1. unfold bind at 1.
    rewrite (host_pinned s h Hh Hne). unfold bind at 1. unfold connect. rewrite Hr.
    unfold ret at 1.
    rewrite IH by exact Hh. cbn [self ticks opened log sent].
    rewrite batch_connections_succ, <- app_assoc. cbn [app].
    replace (opened s + S (length l))%nat with (S (opened s) + length l)%nat by lia.
    reflexivity.
Qed.

Lemma open_connections_run (s : state) (h : string) :
  _host (self s) = Some h -> h <> "" -> reachable W h = true ->
  open_connections float W s =
  (Ok (batch_connections h (opened s) (runs (self s))),
   mkState (self s) (ticks s) (opened s + runs (self s)) (log s) (sent s)).
Proof.
  intros Hh Hne Hr. unfold open_connections. unfold bind at 1. unfold get_runs at 1.
  rewrite (open_loop h _ _ _ Hh Hne Hr). unfold range. rewrite length_seq. reflexivity.
Qed.

(** The loop that reads the attribute of each thread and adds it up. *)
Lemma join_loop (line : thread -> Z -> record) (target : connection -> result Z)
    (count : connection -> Z) (cs : list connection) (number : nat)
    (total : Z) (s : state) :
  (forall c, In c cs -> target c = Ok (count c)) ->
  for_each (threads_of target number cs)
    (fun total t =>
       v <- attribute t ;;
       logging_info (line t v) ;;
       ret (total + v)%Z)
    total s
  = (Ok (total + zsum (map count cs))%Z,
     mkState (self s) (ticks s) (opened s)
             (log s ++ lines_of line (threads_of target number cs))%list (sent s)).
Proof.
  revert number total s. induction cs as [|c cs IH]; intros number total s Hok.
  - cbn. rewrite Z.add_0_r, app_nil_r. destruct s; reflexivity.
  - cbn [threads_of for_each]. unfold bind at 1. unfold bind at 1.
    unfold attribute at 1, start at 1. rewrite (Hok c (or_introl eq_refl)).
    cbn [slot]. unfold ret at 1. unfold bind at 1. unfold logging_info at 1.
    unfold ret at 1.
    rewrite IH by (intros c' Hc'; apply Hok; right; exact Hc').
    cbn [self ticks opened log sent map zsum lines_of flat_map]. unfold start at 2.
    cbn [slot].
    rewrite <- app_assoc. cbn [app].
    replace (total + count c + zsum (map count cs))%Z
      with (total + (count c + zsum (map count cs)))%Z by lia.
    reflexivity.
Qed.

(** A thread whose target raised has no attribute: reading it raises. *)
Lemma join_loop_missing (line : thread -> Z -> record) (target : connection -> result Z)
    (c : connection) (cs : list connection) (number : nat) (total : Z) (s : state)
    (e : exn) :
  target c = Raise e ->
  fst (for_each (threads_of target number (c :: cs))
         (fun total t =>
            v <- attribute t ;;
            logging_info (line t v) ;;
            ret (total + v)%Z)
         total s)
  = Raise AttributeError.
Proof.
  intros H. cbn [threads_of for_each]. unfold bind at 1. unfold bind at 1.
  unfold attribute at 1, start at 1. rewrite H. reflexivity.
Qed.

Lemma item_middle {A : Type} (pre rest : list A) (c : A) :
  item (pre ++ c :: rest) (length pre) = Ok c.
Proof.
  unfold item. rewrite nth_error_app2 by lia. rewrite Nat.sub_diag. reflexivity.
Qed.

(** The loop that starts the threads of a download target: one thread for
    each connection, and one reading of the clock for each. *)
Lemma start_loop_download (file : string) (pre rest : list connection)
    (acc : list thread) (s : state) :
  for_each (seq (length pre) (length rest))
    (fun threads run =>
       c <- lift (item (pre ++ rest) run) ;;
       stamp <- time W ;;
       ret (threads ++ [start (downloadthread W c file) (run + 1)])%list)
    acc s
  = (Ok (acc ++ threads_of (fun c => downloadthread W c file) (length pre) rest)%list,
     mkState (self s) (ticks s + length rest) (opened s) (log s) (sent s)).
Proof.
  revert pre acc s. induction rest as [|c rest IH]; intros pre acc s.
  - cbn. rewrite app_nil_r, Nat.add_0_r. destruct s; reflexivity.
  - cbn [length seq for_each]. unfold bind at 1. unfold bind at 1.
    unfold lift at 1. rewrite item_middle. unfold bind at 1. unfold time at 1.
    unfold ret at 1.
    specialize (IH (pre ++ [c])%list). rewrite <- app_assoc in IH. cbn [app] in IH.
    rewrite length_app in IH. cbn [length] in IH. rewrite Nat.add_1_r in IH.
    rewrite IH. cbn [self ticks opened log sent threads_of].
    rewrite <- app_assoc. cbn [app].
    replace (ticks s + S (length rest))%nat with (S (ticks s) + length rest)%nat by lia.
    reflexivity.
Qed.

(** The same loop of an upload: no reading of the clock. *)
Lemma start_loop_upload (data : string) (pre rest : list connection)
    (acc : list thread) (s : state) :
  for_each (seq (length pre) (length rest))
    (fun threads run =>
       c <- lift (item (pre ++ rest) run) ;;
       ret (threads ++ [start (uploadthread int W c data) (run + 1)])%list)
    acc s
  = (Ok (acc ++ threads_of (fun c => uploadthread int W c data) (length pre) rest)%list, s).
Proof.
  revert pre acc s. induction rest as [|c rest IH]; intros pre acc s.
  - cbn. rewrite app_nil_r. reflexivity.
  - cbn [length seq for_each]. unfold bind at 1. unfold bind at 1.
    unfold lift at 1. rewrite item_middle. unfold ret at 1.
    specialize (IH (pre ++ [c])%list). rewrite <- app_assoc in IH. cbn [app] in IH.
    rewrite length_app in IH. cbn [length] in IH. rewrite Nat.add_1_r in IH.
    rewrite IH. cbn [threads_of]. rewrite <- app_assoc. reflexivity.
Qed.

(** The loop over the download targets: each adds the bytes read on every
    connection. *)
Lemma download_loop (files : list string) (cs : list connection) (n : nat)
    (total : Z) (s : state) :
  length cs = n ->
  exists s' : state,
    for_each files
      (fun total_downloaded current_file =>
         threads <-
           for_each (range n)
             (fun threads run =>
                c <- lift (item cs run) ;;
                stamp <- time W ;;
                ret (threads ++ [start (downloadthread W c current_file) (run + 1)])%list)
             [] ;;
         for_each threads
           (fun total_downloaded t =>
              downloaded <- attribute t ;;
              logging_info (DownloadRun (run_number t) current_file) ;;
              ret (total_downloaded + downloaded)%Z)
           total_downloaded)
      total s
    = (Ok (total + batch_total (body_length W) files cs)%Z, s') /\
    ticks s' = (ticks s + length files * n)%nat.
Proof.
  intros <-.
  revert total s. induction files as [|file files IH]; intros total s.
  - exists s. cbn. split; [rewrite Z.add_0_r; reflexivity | lia].
  - cbn [for_each]. unfold bind at 1. unfold bind at 1.
    pose proof (start_loop_download file [] cs [] s) as Hstart.
    cbn [length app] in Hstart. fold (range (length cs)) in Hstart. rewrite Hstart.
    rewrite (join_loop (fun t _ => DownloadRun (run_number t) file)
               (fun c => downloadthread W c file) (fun c => body_length W c file))
      by (intros; reflexivity).
    cbn [self ticks opened log sent].
    match goal with |- context [for_each files _ _ ?s1] =>
      destruct (IH (total + zsum (map (fun c => body_length W c file) cs))%Z s1)
        as (s' & Hloop & Hticks)
    end.
    exists s'. rewrite Hloop. split.
    + unfold batch_total. cbn [map zsum]. f_equal. f_equal. lia.
    + rewrite Hticks. cbn [ticks length]. lia.
Qed.

(** The loop over the bodies of an upload, when every reply yields a
    count. *)
Lemma upload_loop (echoed : connection -> string -> Z) (bodies : list string)
    (cs : list connection) (n : nat) (total : Z) (s : state) :
  length cs = n ->
  (forall c data, In c cs -> In data bodies ->
                  uploadthread int W c data = Ok (echoed c data)) ->
  exists s' : state,
    for_each bodies
      (fun total_uploaded data =>
         threads <-
           for_each (range n)
             (fun threads run =>
                c <- lift (item cs run) ;;
                ret (threads ++ [start (uploadthread int W c data) (run + 1)])%list)
             [] ;;
         for_each threads
           (fun total_uploaded t =>
              uploaded <- attribute t ;;
              logging_info (UploadRun (run_number t) uploaded) ;;
              ret (total_uploaded + uploaded)%Z)
           total_uploaded)
      total s
    = (Ok (total + batch_total echoed bodies cs)%Z, s') /\
    ticks s' = ticks s.
Proof.
  intros <-.
  revert total s. induction bodies as [|data bodies IH]; intros total s Hecho.
  - exists s. cbn. split; [rewrite Z.add_0_r; reflexivity | reflexivity].
  - cbn [for_each]. unfold bind at 1. unfold bind at 1.
    pose proof (start_loop_upload data [] cs [] s) as Hstart.
    cbn [length app] in Hstart. fold (range (length cs)) in Hstart. rewrite Hstart.
    rewrite (join_loop (fun t v => UploadRun (run_number t) v)
               (fun c => uploadthread int W c data) (fun c => echoed c data))
      by (intros c Hc; apply Hecho; [exact Hc | left; reflexivity]).
    match goal with |- context [for_each bodies _ _ ?s1] =>
      destruct (IH (total + zsum (map (fun c => echoed c data) cs))%Z s1)
        as (s' & Hloop & Hticks);
        [intros c d Hc Hd; apply Hecho; [exact Hc | right; exact Hd]|]
    end.
    exists s'. rewrite Hloop. split.
    + unfold batch_total. cbn [map zsum]. f_equal. f_equal. lia.
    + rewrite Hticks. reflexivity.
Qed.

Lemma close_loop (cs : list connection) (s : state) :
  for_each cs (fun (_ : unit) c => close c) tt s = (Ok tt, s).
Proof.
  induction cs as [|c cs IH]; [reflexivity|].
  cbn [for_each]. unfold bind at 1. unfold close at 1, ret at 1. exact IH.
Qed.

Lemma uniform_total {A : Type} (count : connection -> A -> Z) (size : A -> Z)
    (items : list A) (cs : list connection) :
  (forall c i, In c cs -> In i items -> count c i = size i) ->
  batch_total count items cs
  = zsum (map (fun i => size i * Z.of_nat (length cs))%Z items).
Proof.
  intros H. unfold batch_total. f_equal. apply map_ext_in. intros i Hi.
  assert (Hc : forall c, In c cs -> count c i = size i) by (intros c Hc; apply H; assumption).
  clear H. induction cs as [|c cs IH]; [simpl; lia|].
  cbn [map zsum length]. rewrite (Hc c (or_introl eq_refl)).
  rewrite IH by (intros c' Hc'; apply Hc; right; exact Hc'). lia.
Qed.

(** C5: with a server set and reachable, download returns the bytes
    received times 8000 over the milliseconds elapsed between the reading
    of the clock before the first target and the one after the last; the
    bytes are those of every one of the 3 targets on every one of the
    [runs] connections, and with payloads that depend on the target only
    they are the sum over the targets of size times [runs]. *)
Theorem download_speed (s : state) (h : string) :
  _host (self s) = Some h ->
  h <> "" ->
  reachable W h = true ->
  let n := runs (self s) in
  let connections := batch_connections h (opened s) n in
  let total_bytes := batch_total (body_length W) DOWNLOAD_FILES connections in
  let elapsed_ms := (clock W (ticks s + 1 + 3 * n) - clock W (ticks s)) * 1000 in
  ~ elapsed_ms == 0 ->
  fst (download float W s) = Ok (inject_Z (total_bytes * 8000) / elapsed_ms) /\
  forall size : string -> Z,
    (forall c file, In c connections -> In file DOWNLOAD_FILES ->
                    body_length W c file = size file) ->
    total_bytes = zsum (map (fun file => size file * Z.of_nat n)%Z DOWNLOAD_FILES).
Proof.
  intros Hh Hne Hr n connections total_bytes elapsed_ms Hms. split.
  - unfold download. unfold bind at 1.
    rewrite (open_connections_run s h Hh Hne Hr). fold n. fold connections.
    unfold bind at 1. unfold get_runs at 1. cbn [self ticks opened log sent]. fold n.
    unfold bind at 1. unfold time at 1. cbn [self ticks opened log sent].
    unfold bind at 1.
    match goal with |- context [for_each DOWNLOAD_FILES _ _ ?s1] =>
      destruct (download_loop DOWNLOAD_FILES connections n 0%Z s1
                  (batch_connections_length h (opened s) n))
        as (s' & Hloop & Hticks)
    end.
    rewrite Hloop. cbn [ticks] in Hticks. rewrite Z.add_0_l. fold total_bytes.
    unfold bind at 1. unfold time at 1. cbn [self ticks opened log sent].
    unfold bind at 1. rewrite close_loop.
    unfold bind at 1. unfold logging_info at 1. unfold lift, div. cbn [fst].
    rewrite Hticks. cbn [length DOWNLOAD_FILES].
    replace (S (ticks s) + 3 * n)%nat with (ticks s + 1 + 3 * n)%nat by lia.
    fold elapsed_ms.
    destruct (Qeq_bool elapsed_ms 0) eqn:E; [|reflexivity].
    apply Qeq_bool_eq in E. contradiction.
  - intros size Hsize. unfold total_bytes.
    rewrite (uniform_total _ size) by exact Hsize.
    unfold connections. rewrite batch_connections_length. reflexivity.
Qed.

(** What a thread of an upload stores: the second field of the reply,
    read as an integer. *)
Lemma uploadthread_echo (c : connection) (data field : string) (n : Z) :
  nth_error (split_on "=" (upload_reply W c data)) 1 = Some field ->
  int field = Some n ->
  uploadthread int W c data = Ok n.
Proof.
  intros Hf Hn. unfold uploadthread, item, to_int. rewrite Hf. cbn [and_then].
  rewrite Hn. reflexivity.
Qed.

(** C6: with a server set and reachable, and replies whose second field
    (after the first equals sign) reads as an integer, upload adds up, for
    every body and every connection, the count of the reply: the value
    returned depends on the bodies sent through the replies only, and not
    on their length. *)
Theorem upload_counts_echoed_bytes (s : state) (h : string)
    (echoed : connection -> string -> Z) :
  _host (self s) = Some h ->
  h <> "" ->
  reachable W h = true ->
  let n := runs (self s) in
  let connections := batch_connections h (opened s) n in
  let elapsed_ms := (clock W (S (ticks s)) - clock W (ticks s)) * 1000 in
  (forall c data, In c connections -> In data (post_data_of W) ->
     exists field,
       nth_error (split_on "=" (upload_reply W c data)) 1 = Some field /\
       int field = Some (echoed c data)) ->
  ~ elapsed_ms == 0 ->
  fst (upload float int W s)
  = Ok (inject_Z (batch_total echoed (post_data_of W) connections * 8000) / elapsed_ms).
Proof.
  intros Hh Hne Hr n connections elapsed_ms Hecho Hms.
  unfold upload. unfold bind at 1.
  rewrite (open_connections_run s h Hh Hne Hr). fold n. fold connections.
  unfold bind at 1. unfold get_runs at 1. cbn [self ticks opened log sent]. fold n.
  cbv zeta. fold (post_data_of W).
  unfold bind at 1. unfold time at 1. cbn [self ticks opened log sent].
  unfold bind at 1.
  match goal with |- context [for_each (post_data_of W) _ _ ?s1] =>
    destruct (upload_loop echoed (post_data_of W) connections n 0%Z s1
                (batch_connections_length h (opened s) n))
      as (s' & Hloop & Hticks)
  end.
  { intros c data Hc Hd. destruct (Hecho c data Hc Hd) as (field & Hf & Hn).
    eapply uploadthread_echo; eassumption. }
  rewrite Hloop. cbn [ticks] in Hticks. rewrite Z.add_0_l.
  unfold bind at 1. unfold time at 1. cbn [self ticks opened log sent].
  unfold bind at 1. rewrite close_loop.
  unfold bind at 1. unfold logging_info at 1. unfold lift, div. cbn [fst].
  rewrite Hticks. fold elapsed_ms.
  destruct (Qeq_bool elapsed_ms 0) eqn:E; [|reflexivity].
  apply Qeq_bool_eq in E. contradiction.
Qed.

End TransferProperties.

Lemma download_speed_witness :
  fst (download decimal_float transfer_world (start_state (Some "a.example") 2))
  = Ok (inject_Z (batch_total (body_length transfer_world) DOWNLOAD_FILES
                    (batch_connections "a.example" 0 2) * 8000)
        / ((clock transfer_world 7 - clock transfer_world 0) * 1000)) /\
  batch_total (body_length transfer_world) DOWNLOAD_FILES (batch_connections "a.example" 0 2)
  = (245388 * 2 + (505544 * 2 + (4468241 * 2 + 0)))%Z.
Proof.
  destruct (download_speed decimal_float transfer_world
              (start_state (Some "a.example") 2) "a.example")
    as (Hspeed & Huniform).
  - reflexivity.
  - discriminate.
  - reflexivity.
  - vm_compute. discriminate.
  - split; [exact Hspeed|].
    apply (Huniform (body_length transfer_world (mkConnection "a.example" 0))).
    intros c file _ _. reflexivity.
Defined.

Lemma upload_counts_echoed_bytes_witness :
  fst (upload decimal_float decimal_int transfer_world (start_state (Some "a.example") 2))
  = Ok (inject_Z (batch_total (fun _ _ => 100%Z) (post_data_of transfer_world)
                    (batch_connections "a.example" 0 2) * 8000)
        / ((clock transfer_world 1 - clock transfer_world 0) * 1000)).
Proof.
  apply (upload_counts_echoed_bytes decimal_float decimal_int transfer_world
           (start_state (Some "a.example") 2) "a.example" (fun _ _ => 100%Z)).
  - reflexivity.
  - discriminate.
  - reflexivity.
  - intros c data _ _. exists "100". split; reflexivity.
  - vm_compute. discriminate.
Defined.

(** A server that counts fewer bytes than were sent: the two bodies have
    132893 and 493647 characters, each is sent on 2 connections, every reply
    counts 100, and the speed is that of 400 bytes in a second, 3200. *)
Example upload_echo_smaller_than_sent :
  map (fun data => Z.of_nat (String.length data)) (post_data_of transfer_world)
    = [132893%Z; 493647%Z] /\
  exists v,
    fst (upload decimal_float decimal_int transfer_world (start_state (Some "a.example") 2))
      = Ok v /\ v == 3200.
Proof.
  split; [vm_compute; reflexivity|].
  eexists. split; [vm_compute; reflexivity | reflexivity].
Qed.

(** A reply without an equals sign: the thread raises and stores nothing,
    and upload fails on reading the attribute. *)
Example upload_reply_without_count :
  fst (upload decimal_float decimal_int
         (mkWorld (fun _ => true) (fun n => inject_Z (Z.of_nat n)) "" ""
                  (fun _ _ => 0%Z) (fun _ _ => "ok") (fun _ => "x"))
         (start_state (Some "a.example") 1))
  = Raise AttributeError.
Proof. vm_compute. reflexivity. Qed.

(** * Further properties of the engine *)

(** ** The property host *)

Section HostProperties.

Variable float : string -> option Q.
Variable W : world.

(** A hostname chooseserver returns has at least one character. *)
Lemma chooseserver_truthy (s s' : state) (h : string) :
  chooseserver float W s = (Ok (Some h), s') -> h <> "".
Proof.
  rewrite chooseserver_steps.
  destruct (reachable W "www.speedtest.net"); [|discriminate].
  destruct (re_search client_re (config_reply W)) as [location|]; [|discriminate].
  cbv zeta.
  destruct (rank float location (re_findall server_re (servers_reply W)) [])
    as [sorted|e]; [|discriminate].
  destruct (probe_loop W (firstn 10 sorted) (999999, "") _) as [[best|e] s2];
    [|discriminate].
  destruct (falsy (Some (snd best))) eqn:Hf; [discriminate|].
  intros [= <- _] E. rewrite E in Hf. discriminate.
Qed.

(** After a read of host that returns a server, that server is set on the
    object. *)
Lemma host_sets_server (s s' : state) (h : string) :
  host float W s = (Ok (Some h), s') -> _host (self s') = Some h /\ h <> "".
Proof.
  unfold host. unfold bind at 1. unfold get_host at 1.
  destruct (falsy (_host (self s))) eqn:Hf.
  - unfold bind at 1. unfold bind at 1.
    destruct (chooseserver float W s) as [[h'|e] s1] eqn:Hc; [|discriminate].
    unfold set_host, get_host. cbn [self _host].
    intros [= -> <-]. split; [reflexivity|].
    eapply chooseserver_truthy. exact Hc.
  - unfold bind at 1. unfold ret at 1. unfold get_host.
    intros [= Hh <-]. split; [exact Hh|].
    intros ->. rewrite Hh in Hf. discriminate.
Qed.

(** X1: once the property host has returned a server, every later read
    returns the same server and changes nothing: no second selection, no
    request, no reading of the clock. *)
Theorem host_keeps_chosen_server (s : state) (h : string) :
  fst (host float W s) = Ok (Some h) ->
  host float W (snd (host float W s)) = (Ok (Some h), snd (host float W s)).
Proof.
  destruct (host float W s) as [r s'] eqn:Hh. cbn [fst snd]. intros ->.
  destruct (host_sets_server _ _ _ Hh) as [Hset Hne].
  apply host_pinned; assumption.
Qed.

(** Without coordinates in the answer of the directory, a read of host
    with no server set returns None after one connection, one reading of
    the clock and one line of log. *)
Lemma host_without_coordinates (s : state) :
  falsy (_host (self s)) = true ->
  reachable W "www.speedtest.net" = true ->
  re_search client_re (config_reply W) = None ->
  host float W s =
  (Ok None,
   mkState (mkSpeedTest None (http_debug (self s)) (runs (self s)))
           (S (ticks s)) (S (opened s)) (log s ++ [FailedCoordinates])%list
           (sent s ++ [config_request W (opened s) (ticks s)])%list).
Proof.
  intros Hf Hdir Hno. unfold host. unfold bind at 1. unfold get_host at 1. rewrite Hf.
  unfold bind at 1. unfold bind at 1. rewrite chooseserver_steps, Hdir, Hno.
  reflexivity.
Qed.

(** X2: a selection that ends without coordinates is not kept: while the
    answer of the directory holds no client tag, each read of the property
    host connects to the directory again, logs the failure again and
    returns None. *)
Theorem host_asks_again_without_coordinates (s : state) :
  falsy (_host (self s)) = true ->
  reachable W "www.speedtest.net" = true ->
  ~ has_match client_re (config_reply W) ->
  host float W (snd (host float W s)) =
  (Ok None,
   mkState (mkSpeedTest None (http_debug (self s)) (runs (self s)))
           (2 + ticks s) (2 + opened s)
           (log s ++ [FailedCoordinates; FailedCoordinates])%list
           (sent s ++ [config_request W (opened s) (ticks s);
                       config_request W (S (opened s)) (S (ticks s))])%list).
Proof.
  intros Hf Hdir Hno. apply re_search_none in Hno.
  rewrite (host_without_coordinates s Hf Hdir Hno). cbn [snd].
  rewrite host_without_coordinates by (reflexivity || assumption).
  cbn [self ticks opened log sent http_debug runs]. rewrite <- !app_assoc. reflexivity.
Qed.

End HostProperties.

Lemma host_keeps_chosen_server_witness :
  host decimal_float three_world
       (snd (host decimal_float three_world (start_state None 2)))
  = (Ok (Some "b.example"), snd (host decimal_float three_world (start_state None 2))).
Proof.
  apply (host_keeps_chosen_server decimal_float three_world (start_state None 2)).
  vm_compute. reflexivity.
Defined.

Lemma host_asks_again_without_coordinates_witness :
  host decimal_float tie_world (snd (host decimal_float tie_world (start_state None 2)))
  = (Ok None,
     mkState (mkSpeedTest None 0 2) 2 2 [FailedCoordinates; FailedCoordinates]
             [config_request tie_world 0 0; config_request tie_world 1 1]).
Proof.
  apply (host_asks_again_without_coordinates decimal_float tie_world (start_state None 2)).
  - reflexivity.
  - reflexivity.
  - apply re_search_none. reflexivity.
Defined.

(** ** Bounds of a latency *)

Lemma sum_at_most (l : list Q) (m : Q) :
  (forall x, In x l -> x <= m) -> sum l <= inject_Z (Z.of_nat (length l)) * m.
Proof.
  induction l as [|x l IH]; intros H.
  - cbn [length]. change (inject_Z (Z.of_nat 0)) with 0. unfold sum. cbn [fold_left]. lra.
  - rewrite sum_cons. cbn [length]. rewrite Nat2Z.inj_succ, <- Z.add_1_l, inject_Z_plus.
    assert (Hx : x <= m) by (apply H; left; reflexivity).
    assert (Hl : sum l <= inject_Z (Z.of_nat (length l)) * m)
      by (apply IH; intros y Hy; apply H; right; exact Hy).
    change (inject_Z 1) with 1. lra.
Qed.

Section LatencyProperties.

Variable float : string -> option Q.
Variable W : world.

(** X3: with a clock that never runs backwards, the ping of a named,
    reachable server returns a latency that is not negative and is at most
    200 times the sum of its five samples: leaving the worst sample out never
    raises the mean (latency / 1000 is the mean of four samples, and at most
    the mean of the five). *)
Theorem ping_latency_bounds (server : string) (s : state) :
  server <> "" ->
  reachable W server = true ->
  clock_monotone W ->
  exists v : Q,
    fst (ping float W (Some server) s) = Ok v /\
    0 <= v /\
    v <= 200 * sum (samples W (ticks s)).
Proof.
  intros Hs Hr Hm.
  assert (Hpos : forall x, In x (samples W (ticks s)) -> 0 <= x)
    by (apply samples_not_negative; exact Hm).
  assert (Hex : Exists (fun t => 0 <= t) (samples W (ticks s))).
  { apply Exists_cons_hd. apply Hpos. left. reflexivity. }
  destruct (worst_of_max _ Hex) as (Hmax & Hin).
  destruct (remove_first _ _ Hin) as (l1 & y & l2 & Hsplit & Hy & _ & Hrem).
  exists (sum (l1 ++ l2) * 250). split; [|split].
  - unfold ping. rewrite ping_with_run by assumption. rewrite Hrem. reflexivity.
  - assert (0 <= sum (l1 ++ l2)).
    { apply sum_not_negative. apply Forall_forall. intros x Hx. apply Hpos.
      rewrite Hsplit. apply in_app_or in Hx. apply in_or_app.
      destruct Hx as [Hx|Hx]; [left | right; right]; exact Hx. }
    lra.
  - assert (Hlen : length (l1 ++ l2) = 4%nat).
    { pose proof (samples_from_length W (ticks s) 5) as H5. fold (samples W (ticks s)) in H5.
      rewrite Hsplit in H5. rewrite length_app in *. cbn [length] in H5. lia. }
    assert (Hle : sum (l1 ++ l2) <= inject_Z (Z.of_nat (length (l1 ++ l2))) * y).
    { apply sum_at_most. intros x Hx. rewrite Hy. apply Hmax.
      rewrite Hsplit. apply in_app_or in Hx. apply in_or_app.
      destruct Hx as [Hx|Hx]; [left | right; right]; exact Hx. }
    rewrite Hlen in Hle. change (inject_Z (Z.of_nat 4)) with 4 in Hle.
    rewrite Hsplit. rewrite (sum_without l1 l2 y) in *.
    set (total := sum (l1 ++ y :: l2)) in *. lra.
Qed.

(** X4: when the server set on the object cannot be connected to, a ping
    without argument, a download and an upload (with at least one run) all
    raise the connection error that carries its name, and leave everything
    as it was: the clock is not read and nothing is logged. *)
Theorem transfers_fail_to_connect (int : string -> option Z) (s : state) (h : string) :
  _host (self s) = Some h ->
  h <> "" ->
  reachable W h = false ->
  (0 < runs (self s))%nat ->
  ping float W None s = (Raise (ConnectError (Some h)), s) /\
  download float W s = (Raise (ConnectError (Some h)), s) /\
  upload float int W s = (Raise (ConnectError (Some h)), s).
Proof.
  intros Hh Hne Hr Hruns.
  assert (Hopen : open_connections float W s = (Raise (ConnectError (Some h)), s)).
  { unfold open_connections. unfold bind at 1. unfold get_runs at 1.
    destruct (runs (self s)) as [|n]; [lia|].
    unfold range. cbn [seq for_each]. unfold bind at 1. unfold bind at 1.
    rewrite (host_pinned float W s h Hh Hne). unfold bind at 1. unfold connect.
    rewrite Hr. reflexivity. }
  split; [|split].
  - unfold ping, ping_with. cbn [falsy]. unfold bind at 1.
    rewrite (host_pinned float W s h Hh Hne). unfold bind at 1. unfold connect.
    rewrite Hr. reflexivity.
  - unfold download. unfold bind at 1. rewrite Hopen. reflexivity.
  - unfold upload. unfold bind at 1. rewrite Hopen. reflexivity.
Qed.

End LatencyProperties.

Lemma ping_latency_bounds_witness :
  exists v : Q,
    fst (ping decimal_float three_world (Some "a.example")
           (mkState (mkSpeedTest None 0 2) 1 0 [] [])) = Ok v /\
    0 <= v /\
    v <= 200 * sum (samples three_world 1).
Proof.
  apply (ping_latency_bounds decimal_float three_world "a.example"
           (mkState (mkSpeedTest None 0 2) 1 0 [] [])).
  - discriminate.
  - reflexivity.
  - exact three_world_monotone.
Defined.

(** The run of the last example: the samples are 2, 2, 9, 2, 2 seconds, the
    9 is left out, the latency is 2000 and the bound 3400. *)
Example ping_latency_bounds_run :
  Forall2 Qeq (samples three_world 1) [2; 2; 9; 2; 2] /\
  (exists v : Q,
     fst (ping decimal_float three_world (Some "a.example")
            (mkState (mkSpeedTest None 0 2) 1 0 [] [])) = Ok v /\ v == 2000) /\
  200 * sum (samples three_world 1) == 3400.
Proof.
  split; [|split].
  - repeat constructor.
  - eexists. split; [vm_compute; reflexivity | reflexivity].
  - reflexivity.
Qed.

Lemma transfers_fail_to_connect_witness :
  ping decimal_float offline_world None (start_state (Some "a.example") 2)
    = (Raise (ConnectError (Some "a.example")), start_state (Some "a.example") 2) /\
  download decimal_float offline_world (start_state (Some "a.example") 2)
    = (Raise (ConnectError (Some "a.example")), start_state (Some "a.example") 2) /\
  upload decimal_float decimal_int offline_world (start_state (Some "a.example") 2)
    = (Raise (ConnectError (Some "a.example")), start_state (Some "a.example") 2).
Proof.
  apply (transfers_fail_to_connect decimal_float offline_world decimal_int
           (start_state (Some "a.example") 2) "a.example").
  - reflexivity.
  - discriminate.
  - reflexivity.
  - simpl. lia.
Defined.

(** ** Groups and urls *)

Lemma matches_groups (p : list token) (groups : list string) (text : string) :
  matches p groups text -> length groups = captures p.
Proof.
  induction 1 as [|lit p gs s _ IH|c n p g gs s _ _ _ IH]; cbn [length captures];
    [reflexivity | exact IH | rewrite IH; reflexivity].
Qed.

(** A search returns as many groups as the pattern has. *)
Lemma re_search_groups (p : list token) (s : string) (groups : list string) :
  re_search p s = Some groups -> length groups = captures p.
Proof.
  intros H. destruct (re_search_sound _ _ _ H) as (pre & text & tail & Hm & _).
  eapply matches_groups. exact Hm.
Qed.

Lemma findall_groups (p : list token) (s : string) (skip : nat) (groups : list string) :
  In groups (findall_from p s skip) -> length groups = captures p.
Proof.
  revert skip. induction s as [|a s IH]; intros skip.
  - destruct skip as [|k]; cbn [findall_from]; [|intros []].
    destruct (match_here p "") as [[gs t]|] eqn:E; [|intros []].
    intros [<-|[]]. destruct (match_here_sound _ _ _ _ E) as (text & Hm & _).
    eapply matches_groups. exact Hm.
  - destruct skip as [|k]; cbn [findall_from]; [|apply IH].
    destruct (match_here p (String a s)) as [[gs t]|] eqn:E; [|apply IH].
    intros [<-|Hin]; [|eapply IH; exact Hin].
    destruct (match_here_sound _ _ _ _ E) as (text & Hm & _).
    eapply matches_groups. exact Hm.
Qed.

Lemma three_items {A : Type} (l : list A) :
  length l = 3%nat -> exists a b c, l = [a; b; c].
Proof.
  destruct l as [|a [|b [|c [|d l]]]]; try discriminate. intros _. eauto.
Qed.

(** X5: the url of a candidate has the shape of an upload endpoint, for
    chooseserver, exactly when it holds somewhere the text http://, then a
    hostname of at least one character without a slash, then
    /speedtest/upload.php; the one group found is such a hostname. *)
Theorem upload_endpoint_shape (url : string) :
  (re_search upload_re url <> None <->
   exists pre h tail,
     h <> "" /\ has_char "/" h = false /\
     url = (pre ++ "http://" ++ h ++ "/speedtest/upload.php" ++ tail)%string) /\
  (forall groups, re_search upload_re url = Some groups ->
   exists pre h tail,
     groups = [h] /\ h <> "" /\ has_char "/" h = false /\
     url = (pre ++ "http://" ++ h ++ "/speedtest/upload.php" ++ tail)%string).
Proof.
  assert (Hfound : forall groups, re_search upload_re url = Some groups ->
            exists pre h tail,
              groups = [h] /\ h <> "" /\ has_char "/" h = false /\
              url = (pre ++ "http://" ++ h ++ "/speedtest/upload.php" ++ tail)%string).
  { intros groups H. destruct (re_search_upload_group _ _ H) as (h & -> & _).
    apply upload_host_some in H.
    destruct (upload_host_shape _ _ H) as (Hne & Hfree & pre & tail & Hurl).
    exists pre, h, tail. repeat (split; [assumption || reflexivity|]). exact Hurl. }
  split; [|exact Hfound]. split.
  - destruct (re_search upload_re url) as [groups|]; [|congruence]. intros _.
    destruct (Hfound groups eq_refl) as (pre & h & tail & _ & Hne & Hfree & Hurl).
    exists pre, h, tail. split; [exact Hne|]. split; [exact Hfree | exact Hurl].
  - intros (pre & h & tail & Hne & Hfree & ->) Hnone.
    apply (upload_host_of_shape pre h tail Hne Hfree).
    apply upload_host_none. exact Hnone.
Qed.

(** ** The exceptions of chooseserver *)

Lemma remove_error (l : list Q) (x : Q) (e : exn) :
  remove l x = Raise e -> e = ValueError.
Proof.
  induction l as [|y l IH]; cbn [remove]; [intros [= <-]; reflexivity|].
  destruct (Qeq_bool y x); [discriminate|].
  destruct (remove l x) as [r|e']; [discriminate|].
  intros [= <-]. apply IH. reflexivity.
Qed.

Section SelectionErrors.

Variable float : string -> option Q.
Variable W : world.

Lemma calc_distance_error (location server : list string) (e : exn) :
  length location = 3%nat -> length server = 3%nat ->
  calc_distance float location server = Raise e -> e = ValueError.
Proof.
  intros Hl Hs.
  destruct (three_items _ Hl) as (ip & lat & lon & ->).
  destruct (three_items _ Hs) as (url & slat & slon & ->).
  unfold calc_distance, item, to_float. cbn [nth_error and_then].
  destruct (float lat); cbn [and_then]; [|intros [= <-]; reflexivity].
  destruct (float lon); cbn [and_then]; [|intros [= <-]; reflexivity].
  destruct (float slat); cbn [and_then]; [|intros [= <-]; reflexivity].
  destruct (float slon); cbn [and_then]; [|intros [= <-]; reflexivity].
  unfold sqrt. destruct (Qltb _ 0); [intros [= <-]; reflexivity | discriminate].
Qed.

(** A latitude or a longitude of the server that is no number makes
    calc_distance raise ValueError, whatever the location. *)
Lemma calc_distance_bad_server (location : list string) (url lat lon : string) :
  length location = 3%nat ->
  float lat = None \/ float lon = None ->
  calc_distance float location [url; lat; lon] = Raise ValueError.
Proof.
  intros Hl Hbad. destruct (three_items _ Hl) as (ip & clat & clon & ->).
  unfold calc_distance, item, to_float. cbn [nth_error and_then].
  destruct (float clat); cbn [and_then]; [|reflexivity].
  destruct (float clon); cbn [and_then]; [|reflexivity].
  destruct (float lat) eqn:E1; cbn [and_then]; [|reflexivity].
  destruct (float lon) eqn:E2; cbn [and_then]; [|reflexivity].
  destruct Hbad; discriminate.
Qed.

Lemma rank_error (location : list string) (server_list : list (list string))
    (acc : list (root * string)) (e : exn) :
  length location = 3%nat ->
  (forall server, In server server_list -> length server = 3%nat) ->
  rank float location server_list acc = Raise e -> e = ValueError.
Proof.
  intros Hl. revert acc. induction server_list as [|server rest IH]; intros acc Hall;
    cbn [rank]; [discriminate|].
  assert (Hs : length server = 3%nat) by (apply Hall; left; reflexivity).
  destruct (calc_distance float location server) as [d|e'] eqn:Ed; cbn [and_then].
  - destruct (three_items _ Hs) as (url & slat & slon & ->). cbn [item nth_error and_then].
    apply IH. intros s' Hs'. apply Hall. right. exact Hs'.
  - intros [= <-]. exact (calc_distance_error location server _ Hl Hs Ed).
Qed.

Lemma rank_bad_server (location : list string) (server_list : list (list string))
    (acc : list (root * string)) (url lat lon : string) :
  length location = 3%nat ->
  (forall server, In server server_list -> length server = 3%nat) ->
  In [url; lat; lon] server_list ->
  float lat = None \/ float lon = None ->
  rank float location server_list acc = Raise ValueError.
Proof.
  intros Hl Hall Hin Hbad.
  destruct (rank float location server_list acc) as [sorted|e] eqn:E.
  - exfalso. revert acc E. induction server_list as [|server rest IH]; intros acc;
      [destruct Hin|]. cbn [rank].
    destruct Hin as [->|Hin].
    + rewrite (calc_distance_bad_server location url lat lon Hl Hbad). discriminate.
    + destruct (calc_distance float location server) as [d|]; [|discriminate].
      cbn [and_then]. destruct (item server 0) as [u|]; [|discriminate].
      cbn [and_then]. apply IH; [|exact Hin].
      intros s' Hs'. apply Hall. right. exact Hs'.
  - f_equal. exact (rank_error location server_list acc e Hl Hall E).
Qed.

Lemma ping_with_error (server : string) (s s' : state) (e : exn) :
  ping_with W (ret None) (Some server) s = (Raise e, s') ->
  e = ValueError \/ exists u, e = ConnectError u.
Proof.
  destruct server as [|c server].
  - cbn. intros [= <- _]. right. eauto.
  - destruct (reachable W (String c server)) eqn:Hr.
    + rewrite ping_with_run by (assumption || discriminate).
      destruct (remove _ _) as [r|e'] eqn:E; [discriminate|].
      intros [= <- _]. left. eapply remove_error. exact E.
    + unfold ping_with. cbn [falsy]. unfold bind at 1. unfold ret at 1.
      unfold bind at 1. unfold connect. rewrite Hr. cbn.
      intros [= <- _]. right. eauto.
Qed.

Lemma probe_loop_error (l : list (root * string)) (best : Q * string)
    (s s' : state) (e : exn) :
  probe_loop W l best s = (Raise e, s') ->
  e = ValueError \/ exists u, e = ConnectError u.
Proof.
  revert best s. induction l as [|[d url] l IH]; intros best s; [discriminate|].
  rewrite probe_loop_cons. cbn [snd].
  destruct (re_search upload_re url) as [groups|] eqn:Hu; [|apply IH].
  destruct (re_search_upload_group _ _ Hu) as (h & -> & _). cbn [item nth_error].
  destruct (ping_with W (ret None) (Some h) _) as [[latency|e'] s1] eqn:Hp.
  - apply IH.
  - intros [= <- _]. eapply ping_with_error. exact Hp.
Qed.

(** In the model, where floats have no range and a request on an open
    connection is always answered, what chooseserver raises. *)
Lemma chooseserver_raises (s : state) (e : exn) :
  fst (chooseserver float W s) = Raise e ->
  e = NoServerFound \/ e = ValueError \/ exists u, e = ConnectError u.
Proof.
  rewrite chooseserver_steps.
  destruct (reachable W "www.speedtest.net");
    [|intros [= <-]; right; right; eauto].
  destruct (re_search client_re (config_reply W)) as [location|] eqn:Hloc;
    [|discriminate].
  cbv zeta.
  destruct (rank float location (re_findall server_re (servers_reply W)) [])
    as [sorted|e'] eqn:Hrank.
  - destruct (probe_loop W (firstn 10 sorted) (999999, "") _) as [[best|e'] s2] eqn:Hp.
    + destruct (falsy (Some (snd best))); [|discriminate].
      intros [= <-]. left. reflexivity.
    + intros [= <-]. right. eapply probe_loop_error. exact Hp.
  - intros [= <-]. right. left. eapply rank_error; [| |exact Hrank].
    + apply (re_search_groups client_re _ _ Hloc).
    + intros server Hin. apply (findall_groups server_re _ _ _ Hin).
Qed.

(** X6: chooseserver never raises IndexError. The tuples it indexes are
    the groups of its three patterns: three for the client tag and for a
    server tag, whose items 0, 1 and 2 are read, and one for the url of the
    upload endpoint, whose item 0 is read; so every item read is there,
    whatever the directory answers. *)
Theorem chooseserver_never_index_error (s : state) :
  fst (chooseserver float W s) <> Raise IndexError.
Proof.
  intros H. destruct (chooseserver_raises s IndexError H) as [H'|[H'|(u & H')]];
    discriminate.
Qed.

(** X7: one server of the directory's list whose latitude or longitude is
    no number makes chooseserver raise ValueError, wherever that server
    stands in the list and however far it is: no candidate is probed. *)
Theorem chooseserver_rejects_bad_coordinates (s : state) (location : list string)
    (url lat lon : string) :
  reachable W "www.speedtest.net" = true ->
  re_search client_re (config_reply W) = Some location ->
  In [url; lat; lon] (re_findall server_re (servers_reply W)) ->
  float lat = None \/ float lon = None ->
  fst (chooseserver float W s) = Raise ValueError /\
  latencies (log (snd (chooseserver float W s))) = latencies (log s).
Proof.
  intros Hdir Hloc Hin Hbad.
  rewrite chooseserver_steps, Hdir, Hloc. cbv zeta.
  rewrite (rank_bad_server location _ [] url lat lon); try assumption.
  - cbn [fst snd log]. split; [reflexivity|].
    rewrite latencies_app. simpl. apply app_nil_r.
  - apply (re_search_groups client_re _ _ Hloc).
  - intros server Hs. apply (findall_groups server_re _ _ _ Hs).
Qed.

(** The probes stop at the first candidate that cannot be connected to. *)
Lemma probe_loop_unreachable (pre post : list (root * string)) (d : root)
    (url h : string) (best : Q * string) (s : state) :
  clock_monotone W ->
  (forall u h', In u (map snd pre) -> upload_host u = Some h' -> reachable W h' = true) ->
  upload_host url = Some h ->
  reachable W h = false ->
  fst (probe_loop W (pre ++ (d, url) :: post) best s) = Raise (ConnectError (Some h)).
Proof.
  intros Hm Hpre Hu Hr. revert best s.
  induction pre as [|[d' u] pre IH]; intros best s.
  - cbn [app]. rewrite probe_loop_cons. cbn [snd].
    pose proof (upload_host_not_empty _ _ Hu) as Hne.
    apply upload_host_some in Hu. rewrite Hu. cbn [item nth_error].
    unfold ping_with.
    assert (Hf : falsy (Some h) = false) by (destruct h; [contradiction | reflexivity]).
    rewrite Hf. unfold bind at 1. unfold ret at 1. unfold bind at 1.
    unfold connect. rewrite Hr. reflexivity.
  - cbn [app]. rewrite probe_loop_cons. cbn [snd].
    assert (Hpre' : forall u0 h', In u0 (map snd pre) -> upload_host u0 = Some h' ->
                                  reachable W h' = true).
    { intros u0 h' Hin. apply Hpre. right. exact Hin. }
    destruct (upload_host u) as [h1|] eqn:Hu1.
    + pose proof (upload_host_not_empty _ _ Hu1) as Hne1.
      pose proof (Hpre u h1 (or_introl eq_refl) Hu1) as Hr1.
      apply upload_host_some in Hu1. rewrite Hu1. cbn [item nth_error].
      destruct (ping_with_ok W (ret None) h1
                  (mkState (self s) (ticks s) (opened s) (log s ++ [Candidate u])%list
                           (sent s))
                  Hne1 Hr1 Hm) as (latency & Hp).
      rewrite Hp. apply IH. exact Hpre'.
    + apply upload_host_none in Hu1. rewrite Hu1. apply IH. exact Hpre'.
Qed.

(** X8: chooseserver does not pass over a candidate that cannot be
    connected to: when, among the 10 nearest, the candidates before it are
    probed well, the connection error of that candidate ends the selection,
    whatever the candidates after it. *)
Theorem chooseserver_stops_at_unreachable (s : state) (location : list string)
    (sorted pre post : list (root * string)) (d : root) (url h : string) :
  reachable W "www.speedtest.net" = true ->
  re_search client_re (config_reply W) = Some location ->
  rank float location (re_findall server_re (servers_reply W)) [] = Ok sorted ->
  firstn 10 sorted = (pre ++ (d, url) :: post)%list ->
  (forall u h', In u (map snd pre) -> upload_host u = Some h' -> reachable W h' = true) ->
  upload_host url = Some h ->
  reachable W h = false ->
  clock_monotone W ->
  fst (chooseserver float W s) = Raise (ConnectError (Some h)).
Proof.
  intros Hdir Hloc Hrank Hsplit Hpre Hu Hr Hm.
  rewrite chooseserver_steps, Hdir, Hloc, Hrank. cbv zeta. rewrite Hsplit.
  match goal with |- context [probe_loop W ?l ?b ?s1] =>
    pose proof (probe_loop_unreachable pre post d url h b s1 Hm Hpre Hu Hr) as Hp;
    destruct (probe_loop W l b s1) as [[best|e] s2]
  end; cbn [fst] in Hp; [discriminate|].
  injection Hp as ->. reflexivity.
Qed.

End SelectionErrors.

Lemma chooseserver_rejects_bad_coordinates_witness :
  fst (chooseserver decimal_float garbled_world (start_state None 2)) = Raise ValueError /\
  latencies (log (snd (chooseserver decimal_float garbled_world (start_state None 2)))) = [].
Proof.
  apply (chooseserver_rejects_bad_coordinates decimal_float garbled_world
           (start_state None 2) ["1.2.3.4"; "10.5"; "20"]
           "http://z.example/speedtest/upload.php" "north" "80").
  - reflexivity.
  - vm_compute. reflexivity.
  - vm_compute. right. left. reflexivity.
  - left. vm_compute. reflexivity.
Defined.

Lemma broken_world_monotone : clock_monotone broken_world.
Proof.
  intros n. unfold broken_world. cbn [clock]. rewrite <- Zle_Qle. lia.
Qed.

Lemma chooseserver_stops_at_unreachable_witness :
  fst (chooseserver decimal_float broken_world (start_state None 2))
  = Raise (ConnectError (Some "b.example")).
Proof.
  apply (chooseserver_stops_at_unreachable decimal_float broken_world
           (start_state None 2) ["1.2.3.4"; "10.5"; "20"]
           [(Root 1.0000, "http://a.example/speedtest/upload.php");
            (Root 4.0000, "http://b.example/speedtest/upload.php");
            (Root 9.0000, "http://c.example/speedtest/upload.php")]
           [(Root 1.0000, "http://a.example/speedtest/upload.php")]
           [(Root 9.0000, "http://c.example/speedtest/upload.php")]
           (Root 4.0000) "http://b.example/speedtest/upload.php" "b.example").
  - reflexivity.
  - vm_compute. reflexivity.
  - vm_compute. reflexivity.
  - reflexivity.
  - intros u h' [<-|[]] Hu. vm_compute in Hu. injection Hu as <-. reflexivity.
  - vm_compute. reflexivity.
  - reflexivity.
  - exact broken_world_monotone.
Defined.

(** ** The edges of download and upload *)

Section TransferEdges.

Variable float : string -> option Q.
Variable int : string -> option Z.
Variable W : world.

(** The value of download is the division the function ends with. *)
Lemma download_division (s : state) (h : string) :
  _host (self s) = Some h -> h <> "" -> reachable W h = true ->
  fst (download float W s)
  = div (inject_Z (batch_total (body_length W) DOWNLOAD_FILES
                     (batch_connections h (opened s) (runs (self s))) * 8000))
        ((clock W (ticks s + 1 + 3 * runs (self s)) - clock W (ticks s)) * 1000).
Proof.
  intros Hh Hne Hr.
  unfold download. unfold bind at 1.
  rewrite (open_connections_run float W s h Hh Hne Hr).
  unfold bind at 1. unfold get_runs at 1. cbn [self ticks opened log sent].
  unfold bind at 1. unfold time at 1. cbn [self ticks opened log sent].
  unfold bind at 1.
  match goal with |- context [for_each DOWNLOAD_FILES _ _ ?s1] =>
    destruct (download_loop W DOWNLOAD_FILES
                (batch_connections h (opened s) (runs (self s))) (runs (self s)) 0%Z s1
                (batch_connections_length h (opened s) (runs (self s))))
      as (s' & Hloop & Hticks)
  end.
  rewrite Hloop. cbn [ticks] in Hticks. rewrite Z.add_0_l.
  unfold bind at 1. unfold time at 1. cbn [self ticks opened log sent].
  unfold bind at 1. rewrite close_loop.
  unfold bind at 1. unfold logging_info at 1. unfold lift. cbn [fst].
  rewrite Hticks. cbn [length DOWNLOAD_FILES].
  replace (S (ticks s) + 3 * runs (self s))%nat
    with (ticks s + 1 + 3 * runs (self s))%nat by lia.
  reflexivity.
Qed.

(** X9: with a server set and reachable, download raises ZeroDivisionError
    exactly when the clock reads the same before the first target and after
    the last: the bytes received are divided by the time elapsed without a
    test. *)
Theorem download_divides_by_elapsed (s : state) (h : string) :
  _host (self s) = Some h ->
  h <> "" ->
  reachable W h = true ->
  (fst (download float W s) = Raise ZeroDivisionError
   <-> clock W (ticks s + 1 + 3 * runs (self s)) == clock W (ticks s)).
Proof.
  intros Hh Hne Hr. rewrite (download_division s h Hh Hne Hr). unfold div.
  destruct (Qeq_bool _ 0) eqn:E.
  - apply Qeq_bool_eq in E. split; [intros _ | reflexivity]. lra.
  - apply Qeq_bool_neq in E. split; [discriminate|]. intros H. exfalso. apply E.
    rewrite H. ring.
Qed.

(** The loop that reads the attributes ends well or with
    AttributeError. *)
Lemma join_loop_cases (line : thread -> Z -> record) (target : connection -> result Z)
    (cs : list connection) (number : nat) (total : Z) (s : state) :
  (exists total' s',
     for_each (threads_of target number cs)
       (fun total t =>
          v <- attribute t ;;
          logging_info (line t v) ;;
          ret (total + v)%Z)
       total s = (Ok total', s')) \/
  fst (for_each (threads_of target number cs)
         (fun total t =>
            v <- attribute t ;;
            logging_info (line t v) ;;
            ret (total + v)%Z)
         total s) = Raise AttributeError.
Proof.
  revert number total s. induction cs as [|c cs IH]; intros number total s.
  - left. exists total, s. reflexivity.
  - cbn [threads_of for_each]. unfold bind at 1 3. unfold bind at 1 3.
    unfold attribute at 1 3, start at 1 3.
    destruct (target c) as [v|e]; cbn [slot].
    + unfold ret at 1 3. unfold bind at 1 3. unfold logging_info at 1 3.
      unfold ret at 1 3. apply IH.
    + right. reflexivity.
Qed.

(** One thread without its attribute is enough for AttributeError. *)
Lemma join_loop_any (line : thread -> Z -> record) (target : connection -> result Z)
    (c : connection) (e : exn) (cs : list connection) (number : nat) (total : Z)
    (s : state) :
  In c cs -> target c = Raise e ->
  fst (for_each (threads_of target number cs)
         (fun total t =>
            v <- attribute t ;;
            logging_info (line t v) ;;
            ret (total + v)%Z)
         total s) = Raise AttributeError.
Proof.
  intros Hin Hc. revert number total s. induction cs as [|c' cs IH]; intros number total s;
    [destruct Hin|].
  cbn [threads_of for_each]. unfold bind at 1. unfold bind at 1.
  unfold attribute at 1, start at 1.
  destruct (target c') as [v|e'] eqn:Hc'; cbn [slot]; [|reflexivity].
  unfold ret at 1. unfold bind at 1. unfold logging_info at 1. unfold ret at 1.
  destruct Hin as [->|Hin]; [congruence|]. apply IH. exact Hin.
Qed.

Lemma upload_loop_malformed (bodies : list string) (cs : list connection) (n : nat)
    (c : connection) (data : string) (e : exn) (total : Z) (s : state) :
  length cs = n -> In c cs -> In data bodies ->
  uploadthread int W c data = Raise e ->
  fst (for_each bodies
         (fun total_uploaded data =>
            threads <-
              for_each (range n)
                (fun threads run =>
                   c <- lift (item cs run) ;;
                   ret (threads ++ [start (uploadthread int W c data) (run + 1)])%list)
                [] ;;
            for_each threads
              (fun total_uploaded t =>
                 uploaded <- attribute t ;;
                 logging_info (UploadRun (run_number t) uploaded) ;;
                 ret (total_uploaded + uploaded)%Z)
              total_uploaded)
         total s) = Raise AttributeError.
Proof.
  intros <- Hc Hin Hbad. revert total s.
  induction bodies as [|d bodies IH]; intros total s; [destruct Hin|].
  cbn [for_each]. unfold bind at 1. unfold bind at 1.
  pose proof (start_loop_upload int W d [] cs [] s) as Hstart.
  cbn [length app] in Hstart. fold (range (length cs)) in Hstart. rewrite Hstart.
  destruct (join_loop_cases (fun t v => UploadRun (run_number t) v)
              (fun c => uploadthread int W c d) cs 0 total s)
    as [(total' & s' & Hok) | Hraise].
  - rewrite Hok. destruct Hin as [->|Hin].
    + pose proof (join_loop_any (fun t v => UploadRun (run_number t) v)
                    (fun c => uploadthread int W c data) c e cs 0 total s Hc Hbad) as H.
      cbv beta in H, Hok. rewrite Hok in H. discriminate.
    + apply IH. exact Hin.
  - destruct (for_each (threads_of _ 0 cs) _ total s) as [[v|e'] s']; cbn [fst] in Hraise;
      [discriminate|]. cbn [fst]. exact Hraise.
Qed.

(** X10: one reply of the server without a count is enough for upload to
    fail: when, for some body on some connection, the reply has no second
    field after an equals sign, or a second field that is no integer, the
    worker stores nothing and upload raises AttributeError, whatever the
    other replies and the clock. *)
Theorem upload_needs_every_count (s : state) (h : string) (c : connection)
    (data : string) :
  _host (self s) = Some h ->
  h <> "" ->
  reachable W h = true ->
  In c (batch_connections h (opened s) (runs (self s))) ->
  In data (post_data_of W) ->
  (nth_error (split_on "=" (upload_reply W c data)) 1 = None \/
   exists field, nth_error (split_on "=" (upload_reply W c data)) 1 = Some field /\
                 int field = None) ->
  fst (upload float int W s) = Raise AttributeError.
Proof.
  intros Hh Hne Hr Hc Hd Hbad.
  assert (Hthread : exists e, uploadthread int W c data = Raise e).
  { unfold uploadthread, item, to_int.
    destruct Hbad as [-> | (field & -> & Hf)]; cbn [and_then].
    - eexists. reflexivity.
    - rewrite Hf. eexists. reflexivity. }
  destruct Hthread as (e & Hthread).
  unfold upload. unfold bind at 1.
  rewrite (open_connections_run float W s h Hh Hne Hr).
  unfold bind at 1. unfold get_runs at 1. cbn [self ticks opened log sent].
  cbv zeta. fold (post_data_of W).
  unfold bind at 1. unfold time at 1. cbn [self ticks opened log sent].
  unfold bind at 1.
  match goal with |- context [for_each (post_data_of W) ?f ?t ?s1] =>
    pose proof (upload_loop_malformed (post_data_of W) _ (runs (self s)) c data e t s1
                  (batch_connections_length h (opened s) (runs (self s))) Hc Hd Hthread)
      as Hloop;
    destruct (for_each (post_data_of W) f t s1) as [[v|e'] s']
  end; cbn [fst] in Hloop; [discriminate|].
  injection Hloop as ->. reflexivity.
Qed.

(** X11: with [runs] at 0, download and upload open no connection and do
    not read the server, so that none is chosen; they read the clock twice
    and return a speed of 0. *)
Theorem transfers_without_runs (s : state) :
  runs (self s) = 0%nat ->
  let total_ms := (clock W (S (ticks s)) - clock W (ticks s)) * 1000 in
  ~ total_ms == 0 ->
  (exists v, v == 0 /\
     download float W s
     = (Ok v, mkState (self s) (2 + ticks s) (opened s)
                      (log s ++ [DownloadTook total_ms 0])%list (sent s))) /\
  (exists v, v == 0 /\
     upload float int W s
     = (Ok v, mkState (self s) (2 + ticks s) (opened s)
                      (log s ++ [UploadTook total_ms 0])%list (sent s))).
Proof.
  intros Hruns total_ms Hms.
  assert (Hdiv : div (inject_Z (0 * 8000)) total_ms = Ok (inject_Z (0 * 8000) / total_ms)).
  { unfold div. destruct (Qeq_bool total_ms 0) eqn:E; [|reflexivity].
    apply Qeq_bool_eq in E. contradiction. }
  assert (Hzero : inject_Z (0 * 8000) / total_ms == 0).
  { change (inject_Z (0 * 8000)) with 0. unfold Qdiv. ring. }
  split.
  - exists (inject_Z (0 * 8000) / total_ms). split; [exact Hzero|].
    unfold download, open_connections. unfold bind at 1. unfold bind at 1.
    unfold get_runs at 1. rewrite Hruns. cbn [range seq for_each].
    unfold ret at 1. unfold bind at 1. unfold get_runs at 1. rewrite Hruns.
    unfold bind at 1. unfold time at 1. cbn [self ticks opened log sent].
    cbn [range seq for_each DOWNLOAD_FILES].
    unfold bind, time, logging_info, lift.
    repeat (cbn [for_each]; unfold ret). cbn [self ticks opened log sent].
    fold total_ms. rewrite Hdiv. reflexivity.
  - exists (inject_Z (0 * 8000) / total_ms). split; [exact Hzero|].
    unfold upload, open_connections. unfold bind at 1. unfold bind at 1.
    unfold get_runs at 1. rewrite Hruns. cbn [range seq for_each].
    unfold ret at 1. unfold bind at 1. unfold get_runs at 1. rewrite Hruns.
    cbv zeta. unfold bind at 1. unfold time at 1. cbn [self ticks opened log sent].
    cbn [range seq for_each UPLOAD_FILES map].
    unfold bind, time, logging_info, lift.
    repeat (cbn [for_each]; unfold ret). cbn [self ticks opened log sent].
    fold total_ms. rewrite Hdiv. reflexivity.
Qed.

End TransferEdges.

Lemma download_divides_by_elapsed_witness :
  fst (download decimal_float still_world (start_state (Some "a.example") 2))
  = Raise ZeroDivisionError.
Proof.
  apply (download_divides_by_elapsed decimal_float still_world
           (start_state (Some "a.example") 2) "a.example").
  - reflexivity.
  - discriminate.
  - reflexivity.
  - reflexivity.
Defined.

Lemma upload_needs_every_count_witness :
  fst (upload decimal_float decimal_int mute_world (start_state (Some "a.example") 2))
  = Raise AttributeError.
Proof.
  apply (upload_needs_every_count decimal_float decimal_int mute_world
           (start_state (Some "a.example") 2) "a.example"
           (mkConnection "a.example" 1) "content0=yy").
  - reflexivity.
  - discriminate.
  - reflexivity.
  - right. left. reflexivity.
  - right. left. reflexivity.
  - left. reflexivity.
Defined.

Lemma transfers_without_runs_witness :
  (exists v, v == 0 /\
     download decimal_float offline_world (start_state None 0)
     = (Ok v, mkState (mkSpeedTest None 0 0) 2 0 [DownloadTook 1000 0] [])) /\
  (exists v, v == 0 /\
     upload decimal_float decimal_int offline_world (start_state None 0)
     = (Ok v, mkState (mkSpeedTest None 0 0) 2 0 [UploadTook 1000 0] [])).
Proof.
  apply (transfers_without_runs decimal_float decimal_int offline_world
           (start_state None 0)).
  - reflexivity.
  - vm_compute. discriminate.
Defined.

(** * Properties of the command line *)

Lemma io_bind_done {A B : Type} (m : IO A) (k : A -> IO B) (p p' : process) (b : B) :
  io_bind m k p = (Done b, p') ->
  exists a p1, m p = (Done a, p1) /\ k a p1 = (Done b, p').
Proof.
  unfold io_bind. destruct (m p) as [[a|f] p1]; [|discriminate].
  intros H. exists a, p1. split; [reflexivity | exact H].
Qed.

Lemma io_bind_failed {A B : Type} (m : IO A) (k : A -> IO B) (p p' : process)
    (f : failure) :
  io_bind m k p = (Failed f, p') ->
  m p = (Failed f, p') \/ exists a p1, m p = (Done a, p1) /\ k a p1 = (Failed f, p').
Proof.
  unfold io_bind. destruct (m p) as [[a|f'] p1].
  - intros H. right. exists a, p1. split; [reflexivity | exact H].
  - intros [= <- <-]. left. reflexivity.
Qed.

Lemma call_failed {A : Type} (m : M A) (p p' : process) (f : failure) :
  call m p = (Failed f, p') -> exists e, f = Engine e.
Proof.
  unfold call. destruct (m (engine p)) as [[a|e] s]; [discriminate|].
  intros [= <- _]. exists e. reflexivity.
Qed.

Lemma call_stdout {A : Type} (m : M A) (p : process) :
  stdout (snd (call m p)) = stdout p.
Proof. unfold call. destruct (m (engine p)) as [[a|e] s]; reflexivity. Qed.

Lemma io_lift_failed {A : Type} (r : result A) (p p' : process) (f : failure) :
  io_lift r p = (Failed f, p') -> exists e, f = Engine e.
Proof.
  unfold io_lift. destruct r as [a|e]; [discriminate|].
  intros [= <- _]. exists e. reflexivity.
Qed.

(** The formats of the table are in small letters. *)
Lemma supported_formats (f : string) :
  contains __supported_formats__ f = true ->
  f = "default" \/ f = "json" \/ f = "xml" \/ f = "quiet".
Proof.
  unfold contains, __supported_formats__. cbn [existsb].
  rewrite !orb_true_iff, !String.eqb_eq. intros [H | [H | [H | [H | H] ] ] ]; auto.
  discriminate.
Qed.

Lemma supported_formats_lower (f : string) :
  contains __supported_formats__ f = true -> lower f = f.
Proof.
  intros H. destruct (supported_formats f H) as [-> | [-> | [-> | ->] ] ]; reflexivity.
Qed.

Section CommandLineProperties.

Variable float : string -> option Q.
Variable int : string -> option Z.
Variable str_float : Q -> string.
Variable dumps : stats -> string.
Variable tostring : Element -> string.
Variable W : world.

(** One turn of the loop fails with an exception of the class or of
    pretty_speed only. *)
Lemma run_method_failed (opts : Opts.t) (show_progress : bool) (st : stats)
    (m : Z * string * M Q * (Q -> result string)) (p p' : process) (f : failure) :
  run_method opts show_progress st m p = (Failed f, p') -> exists e, f = Engine e.
Proof.
  destruct m as [[[mask name] method] text_of]. unfold run_method.
  destruct (Z.land (Opts.mode opts) mask =? mask)%Z; [|discriminate].
  intros H. apply io_bind_failed in H.
  destruct H as [H | (u & p1 & _ & H)].
  { destruct show_progress; discriminate. }
  apply io_bind_failed in H. destruct H as [H | (val & p2 & _ & H)].
  { eapply call_failed. exact H. }
  apply io_bind_failed in H. destruct H as [H | (u' & p3 & _ & H)]; [|discriminate].
  destruct show_progress; [|discriminate].
  apply io_bind_failed in H. destruct H as [H | (text & p3 & _ & H)]; [|discriminate].
  eapply io_lift_failed. exact H.
Qed.

(** What one turn of the loop leaves in the dictionary. *)
Lemma run_method_done (opts : Opts.t) (show_progress : bool) (st st' : stats)
    (mask : Z) (name : string) (method : M Q) (text_of : Q -> result string)
    (p p' : process) :
  run_method opts show_progress st (mask, name, method, text_of) p = (Done st', p') ->
  if (Z.land (Opts.mode opts) mask =? mask)%Z
  then exists val, st' = setitem st name (Float val)
  else st' = st.
Proof.
  unfold run_method.
  destruct (Z.land (Opts.mode opts) mask =? mask)%Z; [|intros [= <- _]; reflexivity].
  intros H. apply io_bind_done in H. destruct H as (u & p1 & _ & H).
  apply io_bind_done in H. destruct H as (val & p2 & _ & H).
  apply io_bind_done in H. destruct H as (u' & p3 & _ & H).
  injection H as <- _. exists val. reflexivity.
Qed.

(** Without the progress, one turn of the loop writes nothing. *)
Lemma run_method_stdout (opts : Opts.t) (st : stats)
    (m : Z * string * M Q * (Q -> result string)) (p : process) :
  stdout (snd (run_method opts false st m p)) = stdout p.
Proof.
  destruct m as [[[mask name] method] text_of]. unfold run_method.
  destruct (Z.land (Opts.mode opts) mask =? mask)%Z; [|reflexivity].
  unfold io_bind at 1. unfold io_ret at 1. unfold io_bind at 1.
  pose proof (call_stdout method p) as H.
  destruct (call method p) as [[val|f] p1]; cbn [snd] in H; [|exact H].
  exact H.
Qed.

Lemma loop_failed (opts : Opts.t) (show_progress : bool)
    (l : list (Z * string * M Q * (Q -> result string))) (st : stats)
    (p p' : process) (f : failure) :
  io_for_each l (run_method opts show_progress) st p = (Failed f, p') ->
  exists e, f = Engine e.
Proof.
  revert st p. induction l as [|m l IH]; intros st p; [discriminate|].
  cbn [io_for_each]. intros H. apply io_bind_failed in H.
  destruct H as [H | (st1 & p1 & _ & H)].
  - eapply run_method_failed. exact H.
  - eapply IH. exact H.
Qed.

Lemma loop_stdout (opts : Opts.t)
    (l : list (Z * string * M Q * (Q -> result string))) (st : stats) (p : process) :
  stdout (snd (io_for_each l (run_method opts false) st p)) = stdout p.
Proof.
  revert st p. induction l as [|m l IH]; intros st p; [reflexivity|].
  cbn [io_for_each]. unfold io_bind.
  pose proof (run_method_stdout opts st m p) as H.
  destruct (run_method opts false st m p) as [[st1|f] p1]; cbn [snd] in H.
  - rewrite IH. exact H.
  - exact H.
Qed.

(** A key that was set is there. *)
Lemma lookup_set (st : stats) (key : string) (v : value) :
  getitem (setitem st key v) key = Some v.
Proof.
  induction st as [|[k x] st IH]; cbn [setitem getitem].
  - rewrite String.eqb_refl. reflexivity.
  - destruct (String.eqb k key) eqn:E; cbn [getitem].
    + rewrite String.eqb_refl. reflexivity.
    + rewrite E. exact IH.
Qed.

(** In a format other than the default one, output_results does not fail,
    and writes the dictionary as the format says. *)
Lemma output_results_run (opts : Opts.t) (st : stats) (p : process) :
  Opts.format opts <> "default" ->
  output_results str_float dumps tostring opts st p =
  (Done tt,
   mkProcess (engine p)
     (stdout p ++
      (if String.eqb (Opts.format opts) "json" then dumps st ++ newline
       else if String.eqb (Opts.format opts) "xml" then
         tostring (mkElement "data" None
                     (map (fun kv => mkElement (fst kv) (Some (str str_float (snd kv))) [])
                          st)) ++ newline
       else ""))).
Proof.
  intros Hf. unfold output_results.
  destruct (String.eqb (Opts.format opts) "default") eqn:E.
  { apply String.eqb_eq in E. contradiction. }
  destruct (String.eqb (Opts.format opts) "json"); [reflexivity|].
  destruct (String.eqb (Opts.format opts) "xml"); [reflexivity|].
  unfold io_ret. rewrite append_empty_r. destruct p; reflexivity.
Qed.

(** What perform_speedtest can raise. *)
Lemma perform_failed (opts : Opts.t) (p : process) (f : failure) :
  fst (perform_speedtest float int str_float dumps tostring W opts p) = Failed f ->
  (contains __supported_formats__ (Opts.format opts) = false /\
   f = FormatError (Opts.format opts) /\
   snd (perform_speedtest float int str_float dumps tostring W opts p) = p) \/
  (contains __supported_formats__ (Opts.format opts) = true /\ exists e, f = Engine e).
Proof.
  unfold perform_speedtest.
  destruct (contains __supported_formats__ (Opts.format opts)) eqn:Hs.
  - intros H. right. split; [reflexivity|].
    match type of H with fst (?m p) = _ =>
      destruct (m p) as [r p'] eqn:E; cbn [fst] in H; subst r
    end.
    apply io_bind_failed in E. destruct E as [E | (u & p1 & _ & E)].
    { eapply call_failed. exact E. }
    apply io_bind_failed in E. destruct E as [E | (h & p2 & _ & E)].
    { eapply call_failed. exact E. }
    cbv zeta in E. apply io_bind_failed in E. destruct E as [E | (u' & p3 & _ & E)].
    { destruct (String.eqb (Opts.format opts) "default"); [|discriminate].
      apply io_bind_failed in E. destruct E as [E | (v & p3 & _ & E)]; [|discriminate].
      unfold lookup in E. cbn [setitem getitem] in E.
      rewrite String.eqb_refl in E. cbn [getitem] in E.
      rewrite String.eqb_refl in E. discriminate. }
    apply io_bind_failed in E. destruct E as [E | (st & p4 & _ & E)].
    { eapply loop_failed. exact E. }
    apply io_bind_failed in E. destruct E as [E | (u'' & p5 & _ & E)]; [|discriminate].
    destruct (String.eqb (Opts.format opts) "default") eqn:Hd; cbn [negb] in E;
      [discriminate|].
    rewrite output_results_run in E; [discriminate|].
    intros Heq. rewrite Heq in Hd. discriminate.
  - intros [= <-]. left. split; [reflexivity|]. split; reflexivity.
Qed.

(** X12: perform_speedtest raises the exception for the format exactly when
    the format is not one of the four of the table, written as they are
    there, and then it has done nothing; otherwise what it raises comes
    from the SpeedTest object or from pretty_speed: no key of the
    dictionary is missed and no value mistyped. *)
Theorem perform_speedtest_exceptions (opts : Opts.t) (p : process) :
  (contains __supported_formats__ (Opts.format opts) = false ->
   perform_speedtest float int str_float dumps tostring W opts p
   = (Failed (FormatError (Opts.format opts)), p)) /\
  (forall f : failure,
     fst (perform_speedtest float int str_float dumps tostring W opts p) = Failed f ->
     f = FormatError (Opts.format opts) \/ exists e, f = Engine e) /\
  (contains __supported_formats__ (Opts.format opts) = true ->
   forall f : failure,
     fst (perform_speedtest float int str_float dumps tostring W opts p) = Failed f ->
     exists e, f = Engine e).
Proof.
  split; [|split].
  - intros Hs. unfold perform_speedtest. rewrite Hs. reflexivity.
  - intros f H. destruct (perform_failed opts p f H) as [(_ & Hf & _) | (_ & He)].
    + left. exact Hf.
    + right. exact He.
  - intros Hs f H. destruct (perform_failed opts p f H) as [(Hn & _) | (_ & He)].
    + rewrite Hs in Hn. discriminate.
    + exact He.
Qed.

(** X13: the option of the format is checked twice, and not in the same
    way: format_enum compares the value in small letters and returns it as
    it was written, perform_speedtest compares it as it is. A value that
    format_enum accepts makes perform_speedtest raise the exception for the
    format exactly when it has a capital letter, and then nothing is done:
    no object, no connection, no output. *)
Theorem format_check_is_case_sensitive (value f : string) (opts : Opts.t) (p : process) :
  format_enum value = inl f ->
  Opts.format opts = f ->
  (fst (perform_speedtest float int str_float dumps tostring W opts p)
   = Failed (FormatError f) <-> lower value <> value) /\
  (lower value <> value ->
   snd (perform_speedtest float int str_float dumps tostring W opts p) = p).
Proof.
  unfold format_enum.
  destruct (contains __supported_formats__ (lower value)) eqn:Hl; cbn [negb];
    [|discriminate].
  intros [= <-] Hf.
  assert (Hcase : contains __supported_formats__ value = true <-> lower value = value).
  { split.
    - apply supported_formats_lower.
    - intros <-. exact Hl. }
  assert (Hno : lower value <> value ->
            perform_speedtest float int str_float dumps tostring W opts p
            = (Failed (FormatError value), p)).
  { intros Hne. unfold perform_speedtest. rewrite Hf.
    destruct (contains __supported_formats__ value) eqn:Hs; [|reflexivity].
    exfalso. apply Hne. apply Hcase. reflexivity. }
  split; [split|].
  - intros H Heq. apply Hcase in Heq.
    destruct (perform_failed opts p _ H) as [(Hs & _) | (_ & e & He)];
      [|discriminate].
    rewrite Hf in Hs. rewrite Hs in Heq. discriminate.
  - intros Hne. rewrite (Hno Hne). reflexivity.
  - intros Hne. rewrite (Hno Hne). reflexivity.
Qed.

Lemma call_ok {A : Type} (m : M A) (p : process) (a : A) (s : state) :
  m (engine p) = (Ok a, s) -> call m p = (Done a, mkProcess s (stdout p)).
Proof. intros H. unfold call. rewrite H. reflexivity. Qed.

Lemma call_raise {A : Type} (m : M A) (p : process) (e : exn) (s : state) :
  m (engine p) = (Raise e, s) -> call m p = (Failed (Engine e), mkProcess s (stdout p)).
Proof. intros H. unfold call. rewrite H. reflexivity. Qed.

Lemma has_key_in (st : stats) (key : string) :
  has_key st key = true -> In key (map fst st).
Proof.
  unfold has_key. induction st as [|[k x] st IH]; cbn [getitem map fst]; [discriminate|].
  destruct (String.eqb k key) eqn:E.
  - intros _. left. apply String.eqb_eq. exact E.
  - intros H. right. apply IH. exact H.
Qed.

(** X14: the dictionary perform_speedtest returns has the key of the
    server and, for each of the three tests, the key of the test exactly
    when its bit is set in the mode (4 for ping, 1 for download, 2 for
    upload), and no other key; with a server given in the options, the
    value of the server is that one. *)
Theorem perform_speedtest_keys (opts : Opts.t) (p : process) (st : stats) :
  fst (perform_speedtest float int str_float dumps tostring W opts p) = Done st ->
  has_key st "server" = true /\
  has_key st "ping" = (Z.land (Opts.mode opts) 4 =? 4)%Z /\
  has_key st "download" = (Z.land (Opts.mode opts) 1 =? 1)%Z /\
  has_key st "upload" = (Z.land (Opts.mode opts) 2 =? 2)%Z /\
  (forall key, has_key st key = true ->
               In key ["server"; "ping"; "download"; "upload"]) /\
  (forall h, Opts.server opts = Some h -> h <> "" ->
             getitem st "server" = Some (Str h)).
Proof.
  unfold perform_speedtest.
  destruct (contains __supported_formats__ (Opts.format opts)); [|discriminate].
  intros H.
  match type of H with fst (?m p) = _ =>
    destruct (m p) as [r p'] eqn:E; cbn [fst] in H; subst r
  end.
  apply io_bind_done in E. destruct E as (u & p1 & Hinit & E).
  apply io_bind_done in E. destruct E as (h & p2 & Hhost & E).
  cbv zeta in E. apply io_bind_done in E. destruct E as (u' & p3 & _ & E).
  apply io_bind_done in E. destruct E as (st1 & p4 & Hloop & E).
  apply io_bind_done in E. destruct E as (u'' & p5 & _ & E).
  injection E as <- _.
  assert (Hserver : forall h0, Opts.server opts = Some h0 -> h0 <> "" -> h = Some h0).
  { intros h0 Hs Hne. unfold call, __init__ in Hinit. injection Hinit as _ <-.
    unfold call in Hhost. cbn [engine] in Hhost.
    rewrite (host_pinned float W _ h0) in Hhost by (assumption || exact Hs).
    injection Hhost as <- _. reflexivity. }
  unfold methods in Hloop. cbn [io_for_each setitem] in Hloop.
  rewrite String.eqb_refl in Hloop.
  apply io_bind_done in Hloop. destruct Hloop as (st2 & q2 & Hping & Hloop).
  apply io_bind_done in Hloop. destruct Hloop as (st3 & q3 & Hdown & Hloop).
  apply io_bind_done in Hloop. destruct Hloop as (st4 & q4 & Hup & Hloop).
  injection Hloop as <- _.
  apply run_method_done in Hping, Hdown, Hup.
  assert (Hkeys : has_key st4 "server" = true /\
            has_key st4 "ping" = (Z.land (Opts.mode opts) 4 =? 4)%Z /\
            has_key st4 "download" = (Z.land (Opts.mode opts) 1 =? 1)%Z /\
            has_key st4 "upload" = (Z.land (Opts.mode opts) 2 =? 2)%Z /\
            incl (map fst st4) ["server"; "ping"; "download"; "upload"] /\
            getitem st4 "server" = Some (of_host h)).
  { destruct (Z.land (Opts.mode opts) 4 =? 4)%Z;
      destruct (Z.land (Opts.mode opts) 1 =? 1)%Z;
      destruct (Z.land (Opts.mode opts) 2 =? 2)%Z;
      repeat match goal with
             | H : exists val, _ |- _ => destruct H as (? & H)
             end;
      subst st2; subst st3; subst st4;
      (repeat split; try reflexivity);
      intros k Hk; cbn in Hk; cbn; tauto. }
  destruct Hkeys as (K0 & K1 & K2 & K3 & K4 & K5).
  split; [exact K0|]. split; [exact K1|]. split; [exact K2|]. split; [exact K3|].
  split.
  - intros key Hk. apply K4. apply has_key_in. exact Hk.
  - intros h0 Hs Hne. rewrite K5, (Hserver h0 Hs Hne). reflexivity.
Qed.

(** X15: in the formats json, xml and quiet nothing is written before the
    tests are over: a run that fails has written nothing, and a run that
    returns has written the dictionary it returns, once, as the format
    says, and nothing in the quiet format. *)
Theorem perform_speedtest_output (opts : Opts.t) (p : process) :
  contains __supported_formats__ (Opts.format opts) = true ->
  Opts.format opts <> "default" ->
  stdout (snd (perform_speedtest float int str_float dumps tostring W opts p))
  = stdout p ++
    match fst (perform_speedtest float int str_float dumps tostring W opts p) with
    | Done st =>
        if String.eqb (Opts.format opts) "json" then dumps st ++ newline
        else if String.eqb (Opts.format opts) "xml" then
          tostring (mkElement "data" None
                      (map (fun kv => mkElement (fst kv) (Some (str str_float (snd kv))) [])
                           st)) ++ newline
        else ""
    | Failed _ => ""
    end.
Proof.
  intros Hs Hf.
  destruct (perform_speedtest float int str_float dumps tostring W opts p) as [r p'] eqn:E.
  cbn [fst snd]. revert E. unfold perform_speedtest. rewrite Hs.
  assert (Hd : String.eqb (Opts.format opts) "default" = false).
  { apply String.eqb_neq. exact Hf. }
  rewrite Hd. cbv zeta. cbn [negb]. intros E.
  assert (Hcall : forall (A : Type) (m : M A) (q q' : process) (x : outcome A),
            call m q = (x, q') -> stdout q' = stdout q).
  { intros A m q q' x H. pose proof (call_stdout m q) as H'. rewrite H in H'. exact H'. }
  assert (Hloop : forall l st0 (q q' : process) (x : outcome stats),
            io_for_each l (run_method opts false) st0 q = (x, q') -> stdout q' = stdout q).
  { intros l st0 q q' x H. pose proof (loop_stdout opts l st0 q) as H'.
    rewrite H in H'. exact H'. }
  destruct r as [st|f].
  - apply io_bind_done in E. destruct E as (u & p1 & H1 & E).
    apply io_bind_done in E. destruct E as (h & p2 & H2 & E).
    apply io_bind_done in E. destruct E as (u' & p3 & H3 & E).
    apply io_bind_done in E. destruct E as (st1 & p4 & H4 & E).
    apply io_bind_done in E. destruct E as (u'' & p5 & H5 & E).
    injection E as <- <-. injection H3 as _ <-.
    rewrite (output_results_run opts st1 p4 Hf) in H5. injection H5 as _ <-.
    cbn [stdout]. rewrite (Hloop _ _ _ _ _ H4), (Hcall _ _ _ _ _ H2), (Hcall _ _ _ _ _ H1).
    reflexivity.
  - rewrite append_empty_r.
    apply io_bind_failed in E. destruct E as [E | (u & p1 & H1 & E)].
    { exact (Hcall _ _ _ _ _ E). }
    apply io_bind_failed in E. destruct E as [E | (h & p2 & H2 & E)].
    { rewrite (Hcall _ _ _ _ _ E). exact (Hcall _ _ _ _ _ H1). }
    apply io_bind_failed in E. destruct E as [E | (u' & p3 & H3 & E)]; [discriminate|].
    injection H3 as _ <-.
    apply io_bind_failed in E. destruct E as [E | (st1 & p4 & H4 & E)].
    { rewrite (Hloop _ _ _ _ _ E), (Hcall _ _ _ _ _ H2). exact (Hcall _ _ _ _ _ H1). }
    apply io_bind_failed in E. destruct E as [E | (u'' & p5 & H5 & E)]; [|discriminate].
    rewrite (output_results_run opts st1 p4 Hf) in E. discriminate.
Qed.

(** The tests with no server and no coordinates: each asks the directory
    again and fails to connect to None. *)
Lemma methods_without_coordinates (s : state) :
  falsy (_host (self s)) = true ->
  reachable W "www.speedtest.net" = true ->
  re_search client_re (config_reply W) = None ->
  let s' := mkState (mkSpeedTest None (http_debug (self s)) (runs (self s)))
                    (S (ticks s)) (S (opened s)) (log s ++ [FailedCoordinates])%list
                    (sent s ++ [config_request W (opened s) (ticks s)])%list in
  ping float W None s = (Raise (ConnectError None), s') /\
  ((0 < runs (self s))%nat ->
   download float W s = (Raise (ConnectError None), s') /\
   upload float int W s = (Raise (ConnectError None), s')).
Proof.
  intros Hf Hdir Hno s'. split.
  - unfold ping, ping_with. cbn [falsy]. unfold bind at 1.
    rewrite (host_without_coordinates float W s Hf Hdir Hno). reflexivity.
  - intros Hruns.
    assert (Hopen : open_connections float W s = (Raise (ConnectError None), s')).
    { unfold open_connections. unfold bind at 1. unfold get_runs at 1.
      destruct (runs (self s)) as [|n] eqn:Hn; [lia|].
      unfold range. cbn [seq for_each]. unfold bind at 1. unfold bind at 1.
      rewrite (host_without_coordinates float W s Hf Hdir Hno). unfold s'.
      rewrite Hn. reflexivity. }
    split.
    + unfold download. unfold bind at 1. rewrite Hopen. reflexivity.
    + unfold upload. unfold bind at 1. rewrite Hopen. reflexivity.
Qed.

(** X16: with no server in the options and an answer of the directory
    without the tag of the client, perform_speedtest takes None for the
    server and goes on: the first test selected asks the directory a second
    time and fails to connect to None. The error is the connection error,
    not a message about the coordinates; nothing is written in the formats
    other than the default one. *)
Theorem perform_speedtest_without_coordinates (opts : Opts.t) (p : process) :
  contains __supported_formats__ (Opts.format opts) = true ->
  falsy (Opts.server opts) = true ->
  reachable W "www.speedtest.net" = true ->
  ~ has_match client_re (config_reply W) ->
  Z.land (Opts.mode opts) 4 = 4%Z \/
  ((0 < Opts.runs opts)%nat /\
   (Z.land (Opts.mode opts) 1 = 1%Z \/ Z.land (Opts.mode opts) 2 = 2%Z)) ->
  let r := perform_speedtest float int str_float dumps tostring W opts p in
  fst r = Failed (Engine (ConnectError None)) /\
  engine (snd r)
  = mkState (mkSpeedTest None (Opts.debug opts) (Opts.runs opts))
            (2 + ticks (engine p)) (2 + opened (engine p))
            (log (engine p) ++ [FailedCoordinates; FailedCoordinates])%list
            (sent (engine p) ++
             [config_request W (opened (engine p)) (ticks (engine p));
              config_request W (S (opened (engine p))) (S (ticks (engine p)))])%list /\
  (Opts.format opts <> "default" -> stdout (snd r) = stdout p).
Proof.
  intros Hs Hf Hdir Hno Hmode r. apply re_search_none in Hno.
  set (s0 := mkState (mkSpeedTest (Opts.server opts) (Opts.debug opts) (Opts.runs opts))
                     (ticks (engine p)) (opened (engine p)) (log (engine p))
                     (sent (engine p))).
  set (s1 := mkState (mkSpeedTest None (Opts.debug opts) (Opts.runs opts))
                     (S (ticks (engine p))) (S (opened (engine p)))
                     (log (engine p) ++ [FailedCoordinates])%list
                     (sent (engine p) ++
                      [config_request W (opened (engine p)) (ticks (engine p))])%list).
  set (s2 := mkState (mkSpeedTest None (Opts.debug opts) (Opts.runs opts))
                     (2 + ticks (engine p)) (2 + opened (engine p))
                     (log (engine p) ++ [FailedCoordinates; FailedCoordinates])%list
                     (sent (engine p) ++
                      [config_request W (opened (engine p)) (ticks (engine p));
                       config_request W (S (opened (engine p))) (S (ticks (engine p)))])%list).
  assert (Hhost : host float W s0 = (Ok None, s1)).
  { apply (host_without_coordinates float W s0); assumption. }
  destruct (methods_without_coordinates s1 eq_refl Hdir Hno) as (Hping & Htransfer).
  cbn [self ticks opened log sent http_debug runs s1] in Hping, Htransfer.
  assert (Hs2 : mkState (mkSpeedTest None (Opts.debug opts) (Opts.runs opts))
                        (S (S (ticks (engine p)))) (S (S (opened (engine p))))
                        ((log (engine p) ++ [FailedCoordinates]) ++ [FailedCoordinates])%list
                        ((sent (engine p) ++
                          [config_request W (opened (engine p)) (ticks (engine p))]) ++
                         [config_request W (S (opened (engine p)))
                                         (S (ticks (engine p)))])%list
                = s2).
  { unfold s2. rewrite <- !app_assoc. reflexivity. }
  rewrite Hs2 in Hping, Htransfer.
  assert (Hrun : exists text,
            perform_speedtest float int str_float dumps tostring W opts p
            = (Failed (Engine (ConnectError None)), mkProcess s2 text) /\
            (Opts.format opts <> "default" -> text = stdout p));
    [|destruct Hrun as (text & Hr & Ht); unfold r; rewrite Hr; cbn [fst snd engine stdout];
      split; [reflexivity|]; split; [reflexivity | exact Ht]].
  unfold perform_speedtest. rewrite Hs. cbv zeta.
  unfold io_bind at 1.
  rewrite (call_ok (__init__ _ _ _) p tt s0) by reflexivity.
  unfold io_bind at 1.
  rewrite (call_ok (host float W) _ None s1) by exact Hhost.
  cbn [setitem of_host]. rewrite String.eqb_refl.
  unfold methods. cbn [io_for_each]. unfold run_method.
  destruct (String.eqb (Opts.format opts) "default") eqn:Hd.
  - (* the default format: the progress is written *)
    unfold io_bind at 1. unfold io_bind at 1. unfold lookup at 1.
    cbn [getitem]. rewrite String.eqb_refl. unfold io_ret at 1. unfold print at 1.
    cbn [engine stdout].
    destruct (Z.land (Opts.mode opts) 4 =? 4)%Z eqn:H4.
    + unfold io_bind at 1. unfold io_bind at 1. unfold io_bind at 1. unfold print at 1.
      unfold io_bind at 1.
      rewrite (call_raise (ping float W None) _ (ConnectError None) s2)
        by exact Hping.
      eexists. split; [reflexivity|]. intros Hne. apply String.eqb_eq in Hd. contradiction.
    + destruct Hmode as [H|(Hruns & Hmode)]; [apply Z.eqb_eq in H; congruence|].
      destruct (Htransfer Hruns) as (Hdown & Hup).
      unfold io_bind at 1. unfold io_ret at 1.
      destruct (Z.land (Opts.mode opts) 1 =? 1)%Z eqn:H1.
      * unfold io_bind at 1. unfold io_bind at 1. unfold io_bind at 1. unfold print at 1.
        unfold io_bind at 1.
        rewrite (call_raise (download float W) _ (ConnectError None) s2)
          by exact Hdown.
        eexists. split; [reflexivity|]. intros Hne. apply String.eqb_eq in Hd. contradiction.
      * destruct Hmode as [H|H]; [apply Z.eqb_eq in H; congruence|].
        apply Z.eqb_eq in H. rewrite H.
        unfold io_bind at 1. unfold io_ret at 1.
        unfold io_bind at 1. unfold io_bind at 1. unfold io_bind at 1. unfold print at 1.
        unfold io_bind at 1.
        rewrite (call_raise (upload float int W) _ (ConnectError None) s2)
          by exact Hup.
        eexists. split; [reflexivity|]. intros Hne. apply String.eqb_eq in Hd. contradiction.
  - unfold io_bind at 1. unfold io_ret at 1.
    destruct (Z.land (Opts.mode opts) 4 =? 4)%Z eqn:H4.
    + unfold io_bind at 1. unfold io_bind at 1. unfold io_bind at 1. unfold io_ret at 1.
      unfold io_bind at 1.
      rewrite (call_raise (ping float W None) _ (ConnectError None) s2)
        by exact Hping.
      eexists. split; [reflexivity|]. intros _. reflexivity.
    + destruct Hmode as [H|(Hruns & Hmode)]; [apply Z.eqb_eq in H; congruence|].
      destruct (Htransfer Hruns) as (Hdown & Hup).
      unfold io_bind at 1. unfold io_bind at 1. unfold io_ret at 1.
      destruct (Z.land (Opts.mode opts) 1 =? 1)%Z eqn:H1.
      * unfold io_bind at 1. unfold io_bind at 1. unfold io_bind at 1. unfold io_ret at 1.
        unfold io_bind at 1.
        rewrite (call_raise (download float W) _ (ConnectError None) s2)
          by exact Hdown.
        eexists. split; [reflexivity|]. intros _. reflexivity.
      * destruct Hmode as [H|H]; [apply Z.eqb_eq in H; congruence|].
        apply Z.eqb_eq in H. rewrite H.
        unfold io_bind at 1. unfold io_ret at 1.
        unfold io_bind at 1. unfold io_bind at 1. unfold io_bind at 1. unfold io_ret at 1.
        unfold io_bind at 1.
        rewrite (call_raise (upload float int W) _ (ConnectError None) s2)
          by exact Hup.
        eexists. split; [reflexivity|]. intros _. reflexivity.
Qed.

End CommandLineProperties.

Lemma format_check_is_case_sensitive_witness :
  (fst (perform_speedtest decimal_float decimal_int float_text count_keys count_children
          transfer_world (Opts.mk 0 7 2 (Some "a.example") "JSON" false) start_process)
   = Failed (FormatError "JSON") <-> lower "JSON" <> "JSON") /\
  (lower "JSON" <> "JSON" ->
   snd (perform_speedtest decimal_float decimal_int float_text count_keys count_children
          transfer_world (Opts.mk 0 7 2 (Some "a.example") "JSON" false) start_process)
   = start_process).
Proof.
  apply (format_check_is_case_sensitive decimal_float decimal_int float_text count_keys
           count_children transfer_world "JSON" "JSON").
  - reflexivity.
  - reflexivity.
Defined.

Lemma perform_speedtest_keys_witness :
  exists st : stats,
    fst (perform_speedtest decimal_float decimal_int float_text count_keys count_children
           transfer_world (Opts.mk 0 5 2 (Some "a.example") "quiet" false) start_process)
    = Done st /\
    has_key st "server" = true /\
    has_key st "ping" = true /\
    has_key st "download" = true /\
    has_key st "upload" = false /\
    (forall key, has_key st key = true ->
                 In key ["server"; "ping"; "download"; "upload"]) /\
    (forall h, Some "a.example" = Some h -> h <> "" ->
               getitem st "server" = Some (Str h)).
Proof.
  eexists. split; [vm_compute; reflexivity|].
  apply (perform_speedtest_keys decimal_float decimal_int float_text count_keys
           count_children transfer_world
           (Opts.mk 0 5 2 (Some "a.example") "quiet" false) start_process).
  vm_compute. reflexivity.
Defined.

Lemma perform_speedtest_output_witness :
  stdout (snd (perform_speedtest decimal_float decimal_int float_text count_keys
                 count_children transfer_world
                 (Opts.mk 0 4 2 (Some "a.example") "json" false) start_process))
  = "2" ++ newline.
Proof.
  rewrite (perform_speedtest_output decimal_float decimal_int float_text count_keys
             count_children transfer_world
             (Opts.mk 0 4 2 (Some "a.example") "json" false) start_process).
  - vm_compute. reflexivity.
  - reflexivity.
  - discriminate.
Defined.

Lemma perform_speedtest_without_coordinates_witness :
  let r := perform_speedtest decimal_float decimal_int float_text count_keys count_children
             tie_world (Opts.mk 0 7 2 None "default" false) start_process in
  fst r = Failed (Engine (ConnectError None)) /\
  engine (snd r)
  = mkState (mkSpeedTest None 0 2) 2 2 [FailedCoordinates; FailedCoordinates]
            [config_request tie_world 0 0; config_request tie_world 1 1] /\
  ("default" <> "default" -> stdout (snd r) = "").
Proof.
  apply (perform_speedtest_without_coordinates decimal_float decimal_int float_text
           count_keys count_children tie_world
           (Opts.mk 0 7 2 None "default" false) start_process).
  - reflexivity.
  - reflexivity.
  - reflexivity.
  - apply re_search_none. reflexivity.
  - left. reflexivity.
Defined.

(** The run of the last example on the standard output: the server, then
    the name of the first test, at which the connection fails. *)
Example perform_speedtest_without_coordinates_output :
  stdout (snd (perform_speedtest decimal_float decimal_int float_text count_keys
                 count_children tie_world
                 (Opts.mk 0 7 2 None "default" false) start_process))
  = "Using server: None" ++ newline ++ "Ping".
Proof. vm_compute. reflexivity. Qed.

(** A run in the default format: the progress of a ping. *)
Example perform_speedtest_progress :
  stdout (snd (perform_speedtest decimal_float decimal_int float_text count_keys
                 count_children transfer_world
                 (Opts.mk 0 4 2 (Some "a.example") "default" false) start_process))
  = "Using server: a.example" ++ newline ++ "Ping: 1000 msec" ++ newline.
Proof. vm_compute. reflexivity. Qed.
